(** * minivpn: the wire framer, the ping summary and the VPN multiplexer

    A shallow embedding of [vpn/framing.go], of [vpn/muxer.go], of
    [pinger.go] and of [main.go], with the properties the specification
    states about them.  The data handler that the multiplexer calls is not
    among the sources; it is written out from the specification.

    Conventions.  A Go [[]byte] is a [list byte]; a Go [int] that the code
    only counts with is a [Z]; a fixed-width unsigned integer is a [Z] with
    its wrap-around written out.  A Go [(T, error)] result is a [result T];
    a bare [error] result is an [option error] ([None] is [nil]). *)

From Stdlib Require Import String Ascii ZArith Lia Bool List.
From Stdlib.Strings Require Import Byte.
From Stdlib Require Import Floats Uint63.
Import ListNotations.

Open Scope Z_scope.

(* ================================================================== *)
(** * Bytes *)
(* ================================================================== *)

Definition bytes := list byte.

(** Go's [byte(v)] on an unsigned integer: the low eight bits. *)
Definition byte_of_Z (v : Z) : byte :=
  match Byte.of_N (Z.to_N (Z.land v 255)) with
  | Some b => b
  | None => x00
  end.

Definition Z_of_byte (b : byte) : Z := Z.of_N (Byte.to_N b).

(** Go's [uint16(n)] on an [int]: the low sixteen bits. *)
Definition uint16 (n : Z) : Z := Z.land n 65535.

(** [make([]byte, n)]: [n] zero bytes. *)
Definition make (n : nat) : bytes := repeat x00 n.

(** [l[i] = x].  Go panics when [i] is out of range; the only caller below
    stores at indices 0 and 1 of a two-byte slice, so the out-of-range
    branch (the slice is left as it is) is never taken. *)
Fixpoint store (i : nat) (x : byte) (l : bytes) : bytes :=
  match l, i with
  | [], _ => []
  | _ :: t, O => x :: t
  | h :: t, S j => h :: store j x t
  end.

Definition bytes_eqb (a b : bytes) : bool :=
  if list_eq_dec Byte.byte_eq_dec a b then true else false.

(** [bytes.HasPrefix(b, p)]. *)
Fixpoint HasPrefix (b p : bytes) : bool :=
  match p, b with
  | [], _ => true
  | _ :: _, [] => false
  | x :: p', y :: b' => Byte.eqb x y && HasPrefix b' p'
  end.

(* ================================================================== *)
(** * vpn/framing.go *)
(* ================================================================== *)

Module Framing.

(** [binary.BigEndian.PutUint16(l, v)]:
    [l[0] = byte(v >> 8); l[1] = byte(v)]. *)
Definition BigEndian_PutUint16 (l : bytes) (v : Z) : bytes :=
  store 1 (byte_of_Z v) (store 0 (byte_of_Z (Z.shiftr v 8)) l).

(** [binary.BigEndian.Uint16(l)]: [uint16(l[1]) | uint16(l[0])<<8]. *)
Definition BigEndian_Uint16 (hi lo : byte) : Z :=
  Z.lor (Z_of_byte lo) (Z.shiftl (Z_of_byte hi) 8).

(** [toSizeFrame], framing.go lines 10-14:
<<
    l := make([]byte, 2)
    binary.BigEndian.PutUint16(l, uint16(len(b)))
    return append(l, b...)
>> *)
Definition toSizeFrame (b : bytes) : bytes :=
  let l := make 2 in
  let l := BigEndian_PutUint16 l (uint16 (Z.of_nat (length b))) in
  l ++ b.

(** The value of the length prefix a frame starts with. *)
Definition frame_prefix (f : bytes) : option Z :=
  match f with
  | hi :: lo :: _ => Some (BigEndian_Uint16 hi lo)
  | _ => None
  end.

(** Modelled from the spec: the stream reader that undoes [toSizeFrame]
    (part of [readPacket], which is not in framing.go or muxer.go).  Per
    section 4.1 each packet on a stream transport is preceded by its
    big-endian 16-bit length, and reading fails on a short read once the
    header is consumed.  [unframe s] is the first packet of the stream [s]
    with the rest of the stream, or [None] when the stream is short. *)
Definition unframe (s : bytes) : option (bytes * bytes) :=
  match s with
  | hi :: lo :: rest =>
      let n := Z.to_nat (BigEndian_Uint16 hi lo) in
      if (length rest <? n)%nat then None
      else Some (firstn n rest, skipn n rest)
  | _ => None
  end.

End Framing.

(* ================================================================== *)
(** * pinger.go: the summary line of [Pinger.printStats] *)
(* ================================================================== *)

Module PingStats.

Section Stats.

(** Go's [float32]; the summary's loss figure never touches it. *)
Variable float32 : Type.

(** [type st struct { rtt float32; ttl uint8 }]. *)
Record st := { rtt : float32; ttl : Z }.

(** The fields of [Pinger] that [printStats] reads. *)
Record Pinger := {
  host : string;
  stats : list st;          (* the field [st []st] *)
  packetsSent : Z;
  packetsRecv : Z
}.

(** Go's [/] on [int]: truncated division, and a run-time panic when the
    divisor is zero. *)
Definition int_div (a b : Z) : option Z :=
  if b =? 0 then None else Some (Z.quot a b).

(** [loss := (p.packetsRecv / p.packetsSent) / 100], pinger.go line 120. *)
Definition loss (p : Pinger) : option Z :=
  match int_div (packetsRecv p) (packetsSent p) with
  | None => None
  | Some q => int_div q 100
  end.

(** The three [%d] operands of
    ["%d packets transmitted, %d received, %d%% packet loss"] (line 139),
    or [None] when [printStats] panics before reaching that line: on the
    division by zero of line 120 or on [p.st[0]] of line 123. *)
Definition printStats_summary (p : Pinger) : option (Z * Z * Z) :=
  match loss p with
  | None => None
  | Some l =>
      match stats p with
      | [] => None
      | _ :: _ => Some (packetsSent p, packetsRecv p, l)
      end
  end.

End Stats.

(** An [int] as a [float64]. *)
Definition float64_of_int (z : Z) : float := PrimFloat.of_uint63 (Uint63.of_Z z).

(** The loss percentage the specification asks for,
    [100 * (1 - received/sent)], computed in binary64 floating point. *)
Definition spec_loss (recv sent : Z) : float :=
  (100 * (1 - float64_of_int recv / float64_of_int sent))%float.

End PingStats.

(* ================================================================== *)
(** * vpn/muxer.go: data the multiplexer handles *)
(* ================================================================== *)

Module Muxer.

(** ** Errors

    Go error values.  [ErrBadHandshake] is declared in muxer.go (line 430);
    the other sentinels are declared elsewhere in package [vpn] and only
    named here.  [errExternal] stands for an error value produced by a
    collaborator (the transport, the TLS stack, a handler).  The three
    [Errorf] constructors are the three shapes of [fmt.Errorf] call with a
    [%w] verb that muxer.go contains; each keeps the wrapped error. *)
Inductive error : Type :=
| ErrBadHandshake
| ErrBadTLSHandshake
| errBadControlMessage
| errBadAuth
| errBadServerReply
| errNoActiveKey
| io_EOF
| errExternal (what : string)
| Errorf_w_text (w : error) (text : string)   (* fmt.Errorf("%w:%s", w, "text") *)
| Errorf_w_err (w : error) (e : error)        (* fmt.Errorf("%w: %s", w, e) *)
| Errorf_err_w (e : error) (w : error).       (* fmt.Errorf("%s: %w", e, w) *)

(** [errors.Unwrap], iterated: the error itself and everything it wraps. *)
Fixpoint wraps (e : error) : list error :=
  e :: match e with
       | Errorf_w_text w _ => wraps w
       | Errorf_w_err w _ => wraps w
       | Errorf_err_w _ w => wraps w
       | _ => []
       end.

(** [errors.Is(e, target)] for a sentinel [target]. *)
Definition errors_Is (e target : error) : Prop := In target (wraps e).

(** A Go [(T, error)] result: the value when the error is [nil]. *)
Inductive result (A : Type) : Type :=
| Ok (a : A)
| Err (e : error).
Arguments Ok {A} a.
Arguments Err {A} e.

(** ** Session and keys

    Modelled from the spec: the types [session], [dataChannelKey] and
    [keySource] are declared outside muxer.go; section 3 gives their
    content.  A [*keySource] that has not been set is [None]. *)
Definition sessionID := bytes.
Definition packetID := Z.

Record keySource := {
  preMaster : bytes;
  r1 : bytes;
  r2 : bytes
}.

Record dataChannelKey := {
  ready : bool;
  local : option keySource;
  remote : option keySource
}.

Record session := {
  RemoteSessionID : sessionID;
  LocalSessionID : sessionID;
  keys : list dataChannelKey;
  keyID : nat;
  localPacketID : packetID
}.

(** Modelled from the spec: [session.ActiveKey] "returns the slot at
    [active_key_slot]; fails [NoActiveKey] if never initialized"
    (section 4.3).  The Go method returns a pointer to the slot. *)
Definition ActiveKey (s : session) : result dataChannelKey :=
  match nth_error (keys s) (keyID s) with
  | Some k => Ok k
  | None => Err errNoActiveKey
  end.

(** Modelled from the spec: [dataChannelKey.addRemoteKey] fills in the
    remote [KeySource] of the slot (section 3). *)
Definition addRemoteKey (k : dataChannelKey) (r : keySource) : dataChannelKey :=
  {| ready := true; local := local k; remote := Some r |}.

(** Both [KeySource]s of a slot are present (invariant I4). *)
Definition both_key_sources (k : dataChannelKey) : Prop :=
  local k <> None /\ remote k <> None.

Fixpoint set_nth {A : Type} (i : nat) (x : A) (l : list A) : list A :=
  match l, i with
  | [], _ => []
  | _ :: t, O => x :: t
  | h :: t, S j => h :: set_nth j x t
  end.

(** Writing through the pointer [ActiveKey] returned: the active slot of
    the session is replaced. *)
Definition set_ActiveKey (s : session) (k : dataChannelKey) : session :=
  {| RemoteSessionID := RemoteSessionID s;
     LocalSessionID := LocalSessionID s;
     keys := set_nth (keyID s) k (keys s);
     keyID := keyID s;
     localPacketID := localPacketID s |}.

Definition set_RemoteSessionID (s : session) (id : sessionID) : session :=
  {| RemoteSessionID := id;
     LocalSessionID := LocalSessionID s;
     keys := keys s;
     keyID := keyID s;
     localPacketID := localPacketID s |}.

(** [type tunnel]: what the server pushed; muxer.go touches [ip] only. *)
Record tunnel := { ip : string; mtu : Z }.

(** ** Byte-level helpers of package [vpn] that muxer.go calls *)

Definition ascii_bytes (s : string) : bytes := list_byte_of_string s.

(** Modelled from the spec: the canonical 16-byte OpenVPN ping magic
    ([pingPayload] is declared outside muxer.go). *)
Definition pingPayload : bytes :=
  [x2a; x18; x7b; xf3; x64; x1e; xb4; xcb; x07; xed; x2d; x0a; x98; x1f; xc7; x48].

(** Modelled from the spec: [isPing] (declared outside muxer.go) tells
    whether a byte string "equals the canonical 16-byte OpenVPN ping
    magic" (section 4.8). *)
Definition isPing (b : bytes) : bool := bytes_eqb b pingPayload.

(** Modelled from the spec: a control message v1 starts with the
    [0x00000000] magic (section 4.5); muxer.go reports its absence as
    "expected null header". *)
Definition isControlMessage (b : bytes) : bool := HasPrefix b [x00; x00; x00; x00].

(** Modelled from the spec: the auth-failed reply is recognised by its
    ["AUTH_FAILED"] prefix (section 4.5). *)
Definition isBadAuthReply (b : bytes) : bool := HasPrefix b (ascii_bytes "AUTH_FAILED").

(** Modelled from the spec: the push reply is the literal ASCII
    ["PUSH_REPLY,<csv options>"] (section 4.5). *)
Definition isPushReply (b : bytes) : bool := HasPrefix b (ascii_bytes "PUSH_REPLY").

(** Go's [copy(dst, src)] as the new contents of [dst]. *)
Definition copy (dst src : bytes) : bytes :=
  firstn (length dst) src ++ skipn (length src) dst.

(** [bytes.Buffer.Read(p)] with [len(p) = n], on a buffer holding [buf]:
    the bytes copied out, the error, and what the buffer holds afterwards.
    An empty buffer gives [io.EOF] unless [n] is zero. *)
Definition Buffer_Read (buf : bytes) (n : nat) : bytes * option error * bytes :=
  match buf with
  | [] => ([], match n with O => None | S _ => Some io_EOF end, [])
  | _ :: _ => (firstn n buf, None, skipn n buf)
  end.

(* ================================================================== *)
(** * Collaborators of the multiplexer *)
(* ================================================================== *)

(** The multiplexer reaches everything outside muxer.go through Go
    interfaces and package-level functions whose bodies are elsewhere.
    Each interface is a class; a method that takes a pointer it may write
    through returns the new value of what it points to. *)

(** [controlHandler] (muxer.go lines 93-102).  The handler the muxer
    installs is the empty struct [&control{}], so it has no state. *)
Class controlHandler (Conn Options : Type) := {
  SendHardReset : Conn -> session -> Conn * session;
  ParseHardReset : bytes -> result sessionID;
  SendACK : Conn -> session -> packetID -> Conn * session * option error;
  PushRequest : bytes;
  ReadPushResponse : bytes -> string;
  ControlMessage : session -> Options -> session * result bytes;
  ReadControlMessage : bytes -> result (keySource * string)
}.

(** [dataHandler] (lines 105-111), on a handler state [D].  The handler is
    built by [newDataFromOptions(options, session)] and keeps that session
    pointer ("session already in data", line 395), so every method may also
    change the session.  The muxer never calls [DecodeEncryptedPayload] and
    [EncryptAndEncodePayload]; they are left out. *)
Class dataHandler (D Conn packet : Type) := {
  SetupKeys : D -> session -> dataChannelKey -> D * session * option error;
  WritePacket : D -> session -> Conn -> bytes -> D * session * Conn * (Z * option error);
  ReadPacket : D -> session -> packet -> D * session * result bytes
}.

(** The functions and types of package [vpn] that muxer.go uses and other
    files define.  [tls_Read] and [tls_Write] are the [net.Conn] methods of
    the connection [tlsHandshake] returns; that connection is layered over
    the muxer's transport and session, which it may therefore change. *)
Class vpnPackage (Conn TLS D Options packet : Type) := {
  readPacket : Conn -> Conn * result bytes;
  parsePacketFromBytes : bytes -> result packet;
  isACK : packet -> bool;
  isControl : packet -> bool;
  isData : packet -> bool;
  opcode : packet -> Z;
  payload : packet -> bytes;
  newSession : result session;
  newDataFromOptions : Options -> session -> result D;
  tlsConfig : Type;
  TLSConn : Type;
  initTLS : session -> Options -> result tlsConfig;
  NewTLSConn : Conn -> session -> result TLSConn;
  tlsHandshake : TLSConn -> tlsConfig -> Conn -> session -> Conn * session * result TLS;
  tls_Read : TLS -> Conn -> session -> nat -> TLS * Conn * session * (bytes * option error);
  tls_Write : TLS -> Conn -> session -> bytes -> TLS * Conn * session * (Z * option error);
  parseRemoteOptions : option tunnel -> string -> option tunnel
}.

(* ================================================================== *)
(** * The multiplexer *)
(* ================================================================== *)

Section Multiplexer.

Context {Conn TLS D Options packet : Type}.
Context {control : controlHandler Conn Options}.
Context {dataH : dataHandler D Conn packet}.
Context {pkg : vpnPackage Conn TLS D Options packet}.

(** ** What a run leaves behind

    Every call of an interface method, every read of the transport and
    every log line is appended to a trace, in program order.  The trace is
    not a field of the Go struct; it is what the properties below speak
    about when they say that something was sent, called or logged. *)

Inductive level := lvlInfo | lvlWarn | lvlError.

Inductive logarg :=
| argInt (z : Z)
| argErr (e : error)
| argBytes (b : bytes)
| argStr (s : string).

Inductive controlCall :=
| cSendHardReset
| cParseHardReset (resp : bytes)
| cSendACK (id : packetID)
| cPushRequest
| cReadPushResponse (resp : bytes)
| cControlMessage
| cReadControlMessage (b : bytes).

Inductive dataCall :=
| dSetupKeys (k : dataChannelKey) (err : option error)
| dWritePacket (b : bytes)
| dReadPacket (p : packet) (r : result bytes).

Inductive tlsCall :=
| tHandshake
| tRead (got : bytes) (err : option error)
| tWrite (b : bytes) (err : option error).

Inductive event :=
| EvControl (c : controlCall)
| EvData (c : dataCall)
| EvReadPacket (r : result bytes)                  (* readPacket(m.conn) *)
| EvTLS (c : tlsCall)
| EvLog (l : level) (text : string) (args : list logarg)  (* logger.*, log.* *)
| EvPrint (dump : bytes).                          (* fmt.Println(hex.Dump(..)) *)

(** [type muxer struct] (lines 53-84).  The [control] field is the class
    instance; [m_tls] is [nil] until the TLS handshake is done; [m_tunnel]
    is a pointer the caller supplies. *)
Record muxer := {
  m_conn : Conn;
  m_tls : option TLS;
  m_data : D;
  m_bufReader : bytes;
  m_session : session;
  m_tunnel : option tunnel;
  m_options : Options;
  m_trace : list event
}.

Definition set_conn (m : muxer) (c : Conn) : muxer :=
  {| m_conn := c; m_tls := m_tls m; m_data := m_data m;
     m_bufReader := m_bufReader m; m_session := m_session m;
     m_tunnel := m_tunnel m; m_options := m_options m; m_trace := m_trace m |}.

Definition set_tls (m : muxer) (t : option TLS) : muxer :=
  {| m_conn := m_conn m; m_tls := t; m_data := m_data m;
     m_bufReader := m_bufReader m; m_session := m_session m;
     m_tunnel := m_tunnel m; m_options := m_options m; m_trace := m_trace m |}.

Definition set_data (m : muxer) (d : D) : muxer :=
  {| m_conn := m_conn m; m_tls := m_tls m; m_data := d;
     m_bufReader := m_bufReader m; m_session := m_session m;
     m_tunnel := m_tunnel m; m_options := m_options m; m_trace := m_trace m |}.

Definition set_bufReader (m : muxer) (b : bytes) : muxer :=
  {| m_conn := m_conn m; m_tls := m_tls m; m_data := m_data m;
     m_bufReader := b; m_session := m_session m;
     m_tunnel := m_tunnel m; m_options := m_options m; m_trace := m_trace m |}.

Definition set_session (m : muxer) (s : session) : muxer :=
  {| m_conn := m_conn m; m_tls := m_tls m; m_data := m_data m;
     m_bufReader := m_bufReader m; m_session := s;
     m_tunnel := m_tunnel m; m_options := m_options m; m_trace := m_trace m |}.

Definition set_tunnel (m : muxer) (t : option tunnel) : muxer :=
  {| m_conn := m_conn m; m_tls := m_tls m; m_data := m_data m;
     m_bufReader := m_bufReader m; m_session := m_session m;
     m_tunnel := t; m_options := m_options m; m_trace := m_trace m |}.

Definition set_trace (m : muxer) (t : list event) : muxer :=
  {| m_conn := m_conn m; m_tls := m_tls m; m_data := m_data m;
     m_bufReader := m_bufReader m; m_session := m_session m;
     m_tunnel := m_tunnel m; m_options := m_options m; m_trace := t |}.

(** ** A state monad with panics

    A method of [*muxer] is a function from the state of the muxer to a
    value and a new state, or to a run-time panic (a [nil] dereference). *)

Inductive Res (A : Type) : Type :=
| Done (a : A) (m : muxer)
| Panic (why : string).
Arguments Done {A} a m.
Arguments Panic {A} why.

Definition M (A : Type) : Type := muxer -> Res A.

Definition ret {A : Type} (a : A) : M A := fun m => Done a m.

Definition bind {A B : Type} (c : M A) (k : A -> M B) : M B :=
  fun m => match c m with
           | Done a m' => k a m'
           | Panic why => Panic why
           end.

Definition panic {A : Type} (why : string) : M A := fun _ => Panic why.

Definition emit (e : event) : M unit :=
  fun m => Done tt (set_trace m (m_trace m ++ [e])).

Definition logger (l : level) (text : string) (args : list logarg) : M unit :=
  emit (EvLog l text args).

Notation "x <- c ;; k" := (bind c (fun x => k))
  (at level 61, c at next level, right associativity).
Notation "c ;;; k" := (bind c (fun _ => k))
  (at level 61, right associativity).

(** ** Calls that leave the muxer *)

Definition call_readPacket : M (result bytes) :=
  fun m => let '(c, r) := readPacket (m_conn m) in
           Done r (set_trace (set_conn m c) (m_trace m ++ [EvReadPacket r])).

Definition call_SendHardReset : M unit :=
  fun m => let '(c, s) := SendHardReset (m_conn m) (m_session m) in
           Done tt (set_trace (set_session (set_conn m c) s)
                              (m_trace m ++ [EvControl cSendHardReset])).

Definition call_ParseHardReset (resp : bytes) : M (result sessionID) :=
  emit (EvControl (cParseHardReset resp)) ;;; ret (ParseHardReset resp).

Definition call_SendACK (id : packetID) : M (option error) :=
  fun m => let '(c, s, e) := SendACK (m_conn m) (m_session m) id in
           Done e (set_trace (set_session (set_conn m c) s)
                             (m_trace m ++ [EvControl (cSendACK id)])).

Definition call_PushRequest : M bytes :=
  emit (EvControl cPushRequest) ;;; ret PushRequest.

Definition call_ReadPushResponse (resp : bytes) : M string :=
  emit (EvControl (cReadPushResponse resp)) ;;; ret (ReadPushResponse resp).

Definition call_ControlMessage : M (result bytes) :=
  fun m => let '(s, r) := ControlMessage (m_session m) (m_options m) in
           Done r (set_trace (set_session m s)
                             (m_trace m ++ [EvControl cControlMessage])).

Definition call_ReadControlMessage (b : bytes) : M (result (keySource * string)) :=
  emit (EvControl (cReadControlMessage b)) ;;; ret (ReadControlMessage b).

Definition call_SetupKeys (k : dataChannelKey) : M (option error) :=
  fun m => let '(d, s, e) := SetupKeys (m_data m) (m_session m) k in
           Done e (set_trace (set_session (set_data m d) s)
                             (m_trace m ++ [EvData (dSetupKeys k e)])).

Definition call_WritePacket (b : bytes) : M (Z * option error) :=
  fun m => let '(d, s, c, r) := WritePacket (m_data m) (m_session m) (m_conn m) b in
           Done r (set_trace (set_conn (set_session (set_data m d) s) c)
                             (m_trace m ++ [EvData (dWritePacket b)])).

Definition call_ReadPacket (p : packet) : M (result bytes) :=
  fun m => let '(d, s, r) := ReadPacket (m_data m) (m_session m) p in
           Done r (set_trace (set_session (set_data m d) s)
                             (m_trace m ++ [EvData (dReadPacket p r)])).

(** [m.tls.Read(data)] with [len(data) = n]; a [nil] [m.tls] panics. *)
Definition call_tls_Read (n : nat) : M (bytes * option error) :=
  fun m => match m_tls m with
           | None => Panic "nil m.tls"
           | Some t =>
               let '(t', c, s, (got, e)) := tls_Read t (m_conn m) (m_session m) n in
               Done (got, e)
                    (set_trace (set_session (set_conn (set_tls m (Some t')) c) s)
                               (m_trace m ++ [EvTLS (tRead got e)]))
           end.

Definition call_tls_Write (b : bytes) : M (Z * option error) :=
  fun m => match m_tls m with
           | None => Panic "nil m.tls"
           | Some t =>
               let '(t', c, s, (n, e)) := tls_Write t (m_conn m) (m_session m) b in
               Done (n, e)
                    (set_trace (set_session (set_conn (set_tls m (Some t')) c) s)
                               (m_trace m ++ [EvTLS (tWrite b e)]))
           end.

Definition call_tlsHandshake (tc : TLSConn) (conf : tlsConfig) : M (result TLS) :=
  fun m => let '(c, s, r) := tlsHandshake tc conf (m_conn m) (m_session m) in
           Done r (set_trace (set_session (set_conn m c) s)
                             (m_trace m ++ [EvTLS tHandshake])).

Definition get {A : Type} (f : muxer -> A) : M A := fun m => Done (f m) m.
Definition modify (f : muxer -> muxer) : M unit := fun m => Done tt (f m).

(** ** muxer: initialization (lines 128-150) *)

Definition newMuxerFromOptions (c : Conn) (o : Options) (t : option tunnel)
  : result muxer :=
  match newSession with
  | Err err => Err err
  | Ok s =>
      match newDataFromOptions o s with
      | Err err => Err err
      | Ok d =>
          Ok {| m_conn := c; m_tls := None; m_data := d; m_bufReader := [];
                m_session := s; m_tunnel := t; m_options := o; m_trace := [] |}
      end
  end.

(** ** muxer: handshake *)

(** [Reset] (lines 197-221): send the hard reset, await the server's. *)
Definition Reset : M (option error) :=
  call_SendHardReset ;;;
  r <- call_readPacket ;;
  match r with
  | Err err => ret (Some err)
  | Ok resp =>
      r <- call_ParseHardReset resp ;;
      match r with
      | Err err => ret (Some (Errorf_err_w ErrBadHandshake err))
      | Ok remoteSessionID =>
          modify (fun m => set_session m (set_RemoteSessionID (m_session m) remoteSessionID)) ;;;
          s <- get m_session ;;
          logger lvlInfo "Remote session ID: %x" [argBytes (RemoteSessionID s)] ;;;
          logger lvlInfo "Local session ID:  %x" [argBytes (LocalSessionID s)] ;;;
          (* we assume id is 0, this is the first packet we ack. *)
          _ <- call_SendACK 0 ;;
          ret None
      end
  end.

(** [readTLSPacket] (lines 288-292): a fresh 4096-byte buffer, filled by
    one [m.tls.Read]; the whole buffer is returned, whatever was read. *)
Definition readTLSPacket : M (bytes * option error) :=
  let data := make 4096 in
  r <- call_tls_Read (length data) ;;
  let '(got, err) := r in
  ret (copy data got, err).

(** [readAndLoadRemoteKey] (lines 298-325). *)
Definition readAndLoadRemoteKey : M (option error) :=
  r <- readTLSPacket ;;
  let '(data, err) := r in
  match err with
  | Some err => ret (Some err)
  | None =>
      if negb (isControlMessage data) then
        ret (Some (Errorf_w_text errBadControlMessage "expected null header"))
      else
        r <- call_ReadControlMessage data ;;
        match r with
        | Err err =>
            logger lvlError "cannot parse control message" [] ;;;
            ret (Some (Errorf_w_err ErrBadHandshake err))
        | Ok (remoteKey, opts) =>
            s <- get m_session ;;
            match ActiveKey s with
            | Err err =>
                logger lvlError "cannot get active key" [] ;;;
                ret (Some (Errorf_w_err ErrBadHandshake err))
            | Ok key =>
                modify (fun m => set_session m
                          (set_ActiveKey (m_session m) (addRemoteKey key remoteKey))) ;;;
                modify (fun m => set_tunnel m (parseRemoteOptions (m_tunnel m) opts)) ;;;
                ret None
            end
        end
  end.

(** [sendPushRequest] (lines 328-330). *)
Definition sendPushRequest : M (Z * option error) :=
  b <- call_PushRequest ;;
  call_tls_Write b.

(** [readPushReply] (lines 336-356).  [m.tunnel.ip = ip] dereferences the
    tunnel pointer. *)
Definition readPushReply : M (option error) :=
  r <- readTLSPacket ;;
  let '(resp, err) := r in
  match err with
  | Some err => ret (Some err)
  | None =>
      logger lvlInfo "Server pushed options" [] ;;;
      if isBadAuthReply resp then ret (Some errBadAuth)
      else if negb (isPushReply resp) then
        ret (Some (Errorf_w_text errBadServerReply "expected push reply"))
      else
        ip <- call_ReadPushResponse resp ;;
        t <- get m_tunnel ;;
        match t with
        | None => panic "nil m.tunnel"
        | Some t =>
            modify (fun m => set_tunnel m (Some {| ip := ip; mtu := mtu t |})) ;;;
            logger lvlInfo "Tunnel IP: %s" [argStr ip] ;;;
            ret None
        end
  end.

(** [sendControlMessage] (lines 359-368). *)
Definition sendControlMessage : M (option error) :=
  r <- call_ControlMessage ;;
  match r with
  | Err err => ret (Some err)
  | Ok cm =>
      r <- call_tls_Write cm ;;
      match snd r with
      | Some err => ret (Some err)
      | None => ret None
      end
  end.

(** [InitDataWithRemoteKey] (lines 374-410). *)
Definition InitDataWithRemoteKey : M (option error) :=
  (* 1. first we send a control message. *)
  e <- sendControlMessage ;;
  match e with
  | Some err => ret (Some err)
  | None =>
  (* 2. then we read the server response and load the remote key. *)
  e <- readAndLoadRemoteKey ;;
  match e with
  | Some err => ret (Some err)
  | None =>
  (* 3. now we can initialize the data channel. *)
  s <- get m_session ;;
  match ActiveKey s with
  | Err err => ret (Some err)
  | Ok key0 =>
  e <- call_SetupKeys key0 ;;
  match e with
  | Some err => ret (Some err)
  | None =>
  (* 4. finally, we ask the server to push remote options to us. *)
  r <- sendPushRequest ;;
  match snd r with
  | Some err => ret (Some err)
  | None =>
  e <- readPushReply ;;
  match e with
  | Some err => ret (Some err)
  | None => ret None
  end end end end end end.

(** [Handshake] (lines 158-193). *)
Definition Handshake : M (option error) :=
  (* 1. control channel sends reset, parse response. *)
  e <- Reset ;;
  match e with
  | Some err => ret (Some err)
  | None =>
  (* 2. TLS handshake. *)
  s <- get m_session ;;
  o <- get m_options ;;
  match initTLS s o with
  | Err err => ret (Some err)
  | Ok tlsConf =>
  c <- get m_conn ;;
  match NewTLSConn c s with
  | Err err => ret (Some (Errorf_w_err ErrBadTLSHandshake err))
  | Ok tlsConn =>
  r <- call_tlsHandshake tlsConn tlsConf ;;
  match r with
  | Err err => ret (Some err)
  | Ok t =>
  modify (fun m => set_tls m (Some t)) ;;;
  logger lvlInfo "TLS handshake done" [] ;;;
  (* 3. data channel init (auth, push, data initialization). *)
  e <- InitDataWithRemoteKey ;;
  match e with
  | Some err => ret (Some err)
  | None =>
  logger lvlInfo "VPN handshake done" [] ;;;
  ret None
  end end end end end.

(** ** muxer: read and handle packets *)

(** [handleDataPing] (lines 281-285): the result of [WritePacket] is
    dropped and [nil] is returned. *)
Definition handleDataPing : M (option error) :=
  logger lvlInfo "openvpn-ping, sending reply" [] ;;;
  _ <- call_WritePacket pingPayload ;;
  ret None.

(** [handleIncomingPacket] (lines 230-278): reads the next packet of the
    transport; [true] if it was a data packet that decrypted. *)
Definition handleIncomingPacket : M bool :=
  r <- call_readPacket ;;
  match r with
  | Err err => logger lvlError "%s" [argErr err] ;;; ret false
  | Ok data =>
      match parsePacketFromBytes data with
      | Err err => logger lvlError "%s" [argErr err] ;;; ret false
      | Ok p =>
          if isACK p then
            logger lvlWarn "muxer: got ACK (ignored)" [] ;;; ret false
          else if isControl p then
            logger lvlInfo "Got control packet: %d" [argInt (Z.of_nat (length data))] ;;;
            (* we're doing nothing for now. *)
            emit (EvPrint (payload p)) ;;;
            ret false
          else if negb (isData p) then
            logger lvlWarn "unhandled data. (op: %d)" [argInt (opcode p)] ;;;
            emit (EvPrint data) ;;;
            ret false
          else if isPing data then
            _ <- handleDataPing ;;
            ret false
          else
            (* at this point, the incoming packet should be a data packet
               that needs to be processed (decompress+decrypt) *)
            r <- call_ReadPacket p ;;
            match r with
            | Err err =>
                logger lvlError "bad decryption: %s" [argErr err] ;;;
                ret false
            | Ok plaintext =>
                (* all good! we write the plaintext into the read buffer. *)
                modify (fun m => set_bufReader m (m_bufReader m ++ plaintext)) ;;;
                ret true
            end
      end
  end.

(** [Write] (lines 417-419). *)
Definition Write (b : bytes) : M (Z * option error) :=
  call_WritePacket b.

(** The loop [for !m.handleIncomingPacket() {}] of [Read], run for at most
    [fuel] iterations: [None] when the loop is still running after them. *)
Fixpoint pull (fuel : nat) (m : muxer) : option (Res unit) :=
  match fuel with
  | O => None
  | S fuel' =>
      match handleIncomingPacket m with
      | Panic why => Some (Panic why)
      | Done true m' => Some (Done tt m')
      | Done false m' => pull fuel' m'
      end
  end.

(** [m.bufReader.Read(b)] with [len(b) = n]. *)
Definition bufReader_Read (n : nat) : M (bytes * option error) :=
  fun m => let '(out, err, rest) := Buffer_Read (m_bufReader m) n in
           Done (out, err) (set_bufReader m rest).

(** [Read] (lines 423-427) into a buffer of [n] bytes: the bytes copied
    into the buffer and the error.  [None] when [fuel] iterations of the
    loop did not end it. *)
Definition Read (fuel : nat) (n : nat) (m : muxer) : option (Res (bytes * option error)) :=
  match pull fuel m with
  | None => None
  | Some (Panic why) => Some (Panic why)
  | Some (Done _ m') => Some (bufReader_Read n m')
  end.

(** The same loop as a relation: [pulls m m'] when the loop started in [m]
    ends in [m'], one constructor per way an iteration can go. *)
Inductive pulls : muxer -> muxer -> Prop :=
| pulls_data (m m' : muxer) :
    handleIncomingPacket m = Done true m' -> pulls m m'
| pulls_again (m m1 m' : muxer) :
    handleIncomingPacket m = Done false m1 -> pulls m1 m' -> pulls m m'.

End Multiplexer.

Arguments muxer : clear implicits.
Arguments event : clear implicits.
Arguments dataCall : clear implicits.
Arguments Res : clear implicits.
Arguments Done {Conn TLS D Options packet A} a m.
Arguments Panic {Conn TLS D Options packet A} why.

End Muxer.

(* ================================================================== *)
(** * A scripted peer *)
(* ================================================================== *)

(** Concrete collaborators to run the multiplexer on: a transport and a TLS
    channel that replay a script, and handlers with a toy wire format (one
    header byte [opcode << 3 | key-id]; a data payload is authentic when it
    starts with [0xa5], which stands for the tag, and the rest is the
    plaintext).  They are used to evaluate the multiplexer on concrete
    inputs; the general properties do not depend on them. *)

Module Loopback.
Import Muxer.

(** The transport: what [readPacket] will return, call after call, and
    what was written.  An exhausted script is a closed connection: every
    later read fails with [io.EOF].  [tls_script] is what the server will
    say over the TLS channel once it is established. *)
Record Conn := {
  rx : list (result bytes);
  tx : list bytes;
  tls_script : list bytes
}.

Definition send (c : Conn) (b : bytes) : Conn :=
  {| rx := rx c; tx := tx c ++ [b]; tls_script := tls_script c |}.

Record TLS := {
  tls_rx : list bytes;
  tls_tx : list bytes
}.

Record packet := {
  p_opcode : Z;
  p_keyID : Z;
  p_payload : bytes
}.

(** The data handler's state: whether [SetupKeys] succeeded, and the
    outbound packet counter. *)
Record Data := {
  keys_ready : bool;
  packets_out : Z
}.

Definition Options := unit.

Definition someKeySource : keySource :=
  {| preMaster := [x0a]; r1 := [x0b]; r2 := [x0c] |}.

Definition serverKeySource : keySource :=
  {| preMaster := []; r1 := [x1b]; r2 := [x1c] |}.

#[export] Instance control : controlHandler Conn Options := {|
  SendHardReset c s := (send c [x38], s);
  ParseHardReset resp :=
    match resp with
    | x40 :: sid => if (length sid =? 8)%nat then Ok sid
                    else Err (errExternal "short session id")
    | _ => Err (errExternal "not a hard reset")
    end;
  SendACK c s id := (send c [x28; byte_of_Z id], s, None);
  PushRequest := ascii_bytes "PUSH_REQUEST" ++ [x00];
  ReadPushResponse resp := "10.8.0.6"%string;
  ControlMessage s o := (s, Ok [x00; x00; x00; x00; x02]);
  ReadControlMessage b := Ok (serverKeySource, "V4,dev-type tun"%string)
|}.

(** This handler does not look at [keys_ready] before it writes: nothing
    in the interface makes it. *)
#[export] Instance dataH : dataHandler Data Conn packet := {|
  SetupKeys d s k :=
    match local k, remote k with
    | Some _, Some _ => ({| keys_ready := true; packets_out := packets_out d |}, s, None)
    | _, _ => (d, s, Some (errExternal "missing key source"))
    end;
  WritePacket d s c b :=
    ({| keys_ready := keys_ready d; packets_out := packets_out d + 1 |}, s,
     send c (x30 :: xa5 :: b), (Z.of_nat (length b), None));
  ReadPacket d s p :=
    match p_payload p with
    | xa5 :: body => (d, s, Ok body)
    | _ => (d, s, Err (errExternal "bad authentication"))
    end
|}.

#[export] Instance pkg : vpnPackage Conn TLS Data Options packet := {|
  readPacket c :=
    match rx c with
    | [] => (c, Err io_EOF)
    | r :: rest => ({| rx := rest; tx := tx c; tls_script := tls_script c |}, r)
    end;
  parsePacketFromBytes b :=
    match b with
    | [] => Err (errExternal "empty packet")
    | h :: rest => Ok {| p_opcode := Z.shiftr (Z_of_byte h) 3;
                         p_keyID := Z.land (Z_of_byte h) 7;
                         p_payload := rest |}
    end;
  isACK p := p_opcode p =? 5;
  isControl p := (p_opcode p =? 4) || (p_opcode p =? 7) || (p_opcode p =? 8);
  isData p := p_opcode p =? 6;
  opcode := p_opcode;
  payload := p_payload;
  newSession :=
    Ok {| RemoteSessionID := [];
          LocalSessionID := [x01; x02; x03; x04; x05; x06; x07; x08];
          keys := [ {| ready := false; local := Some someKeySource; remote := None |} ];
          keyID := 0;
          localPacketID := 0 |};
  newDataFromOptions o s := Ok {| keys_ready := false; packets_out := 0 |};
  tlsConfig := unit;
  TLSConn := unit;
  initTLS s o := Ok tt;
  NewTLSConn c s := Ok tt;
  tlsHandshake tc conf c s := (c, s, Ok {| tls_rx := tls_script c; tls_tx := [] |});
  tls_Read t c s n :=
    match tls_rx t with
    | [] => (t, c, s, ([], Some io_EOF))
    | r :: rest => ({| tls_rx := rest; tls_tx := tls_tx t |}, c, s, (firstn n r, None))
    end;
  tls_Write t c s b :=
    ({| tls_rx := tls_rx t; tls_tx := tls_tx t ++ [b] |}, c, s, (Z.of_nat (length b), None));
  parseRemoteOptions t opts := t
|}.

Definition mux : Type := muxer Conn TLS Data Options packet.

(** A placeholder state, for when a run does not produce one. *)
Definition blank : mux :=
  {| m_conn := {| rx := []; tx := []; tls_script := [] |};
     m_tls := None;
     m_data := {| keys_ready := false; packets_out := 0 |};
     m_bufReader := [];
     m_session := {| RemoteSessionID := []; LocalSessionID := []; keys := [];
                     keyID := 0; localPacketID := 0 |};
     m_tunnel := None; m_options := tt; m_trace := [] |}.

(** The muxer [newMuxerFromOptions] builds on a transport with the given
    scripts. *)
Definition fresh (script : list (result bytes)) (tls_says : list bytes) : mux :=
  match newMuxerFromOptions {| rx := script; tx := []; tls_script := tls_says |}
                            tt (Some {| ip := ""%string; mtu := 0 |}) with
  | Ok m => m
  | Err _ => blank
  end.

Definition state_of {A : Type} (r : Res Conn TLS Data Options packet A) : mux :=
  match r with
  | Done _ m => m
  | Panic _ => blank
  end.

(** *** Packets and replies of the script *)

Definition serverSessionID : bytes := [x11; x12; x13; x14; x15; x16; x17; x18].
Definition hardResetServer : bytes := x40 :: serverSessionID.
Definition controlPacket : bytes := [x20; x00; x00; x00; x07].
Definition ackPacket : bytes := [x28; x00; x00; x00; x00].
Definition helloPacket : bytes := x30 :: xa5 :: ascii_bytes "hello".
Definition forgedPacket : bytes := x30 :: x00 :: ascii_bytes "hello".
(** A server ping: the ping magic as the plaintext of a data packet. *)
Definition pingPacket : bytes := x30 :: xa5 :: pingPayload.

Definition serverControlMessage : bytes := [x00; x00; x00; x00; x02; x1b; x1c].
Definition pushReply : bytes := ascii_bytes "PUSH_REPLY,ifconfig 10.8.0.6 10.8.0.1".
Definition authFailed : bytes := ascii_bytes "AUTH_FAILED".

(** A server that completes the handshake. *)
Definition m_good : mux := fresh [Ok hardResetServer] [serverControlMessage; pushReply].
(** A server that answers the push request with [AUTH_FAILED]. *)
Definition m_auth_at_push : mux := fresh [Ok hardResetServer] [serverControlMessage; authFailed].
(** A server that sends [AUTH_FAILED] instead of its control message. *)
Definition m_auth_at_control : mux := fresh [Ok hardResetServer] [authFailed].

(** The state [Handshake] leaves, and the same with more packets queued on
    the transport afterwards. *)
Definition after_handshake (m : mux) : mux := state_of (Handshake m).

Definition with_rx (m : mux) (script : list (result bytes)) : mux :=
  set_conn m {| rx := script; tx := tx (m_conn m); tls_script := tls_script (m_conn m) |}.

Definition ready_with (script : list (result bytes)) : mux :=
  with_rx (after_handshake m_good) script.

End Loopback.

(* ================================================================== *)
(** * pinger.go: sending probes and matching replies *)
(* ================================================================== *)

Module Probe.

(** [map[int]int64]: the entries, latest first.  Reading a key that was
    never written gives the zero value. *)
Definition tsMap := list (Z * Z).

Fixpoint ts_get (ts : tsMap) (k : Z) : Z :=
  match ts with
  | [] => 0
  | (k', v) :: rest => if k' =? k then v else ts_get rest k
  end.

Definition ts_set (ts : tsMap) (k v : Z) : tsMap := (k, v) :: ts.

(** The fields of [Pinger] that the send and receive paths use. *)
Record Pinger := {
  host : string;
  Count : Z;
  Interval : Z;
  ID : Z;
  ts : tsMap;
  packetsSent : Z;
  ttl : Z
}.

(** [NewPinger] (pinger.go lines 37-52), given what [os.Getpid()]
    returns. *)
Definition NewPinger (pid : Z) (host : string) (count : Z) : Pinger :=
  {| host := host;
     Count := count;
     Interval := 1;
     ID := Z.land pid 65535;            (* id := os.Getpid() & 0xffff *)
     ts := [];
     packetsSent := 0;
     ttl := 64 |}.

(** The layers [newIcmpData] hands to the serializer. *)
Record icmpData := {
  ip_Version : Z;
  ip_Protocol : Z;
  ip_SrcIP : string;
  ip_DstIP : string;
  ip_Length : Z;
  ip_TTL : Z;
  icmp_TypeCode : Z;
  icmp_Id : Z;
  icmp_Seq : Z;
  icmp_Checksum : Z;
  icmp_payload : bytes
}.

Definition uint8 (n : Z) : Z := Z.land n 255.

(** [binary.LittleEndian.PutUint64(payload, v)] on eight zero bytes:
    [payload[i] = byte(v >> (8*i))]. *)
Definition LittleEndian_PutUint64 (v : Z) : bytes :=
  map (fun i => byte_of_Z (Z.shiftr v (8 * Z.of_nat i))) (seq 0 8).

(** [binary.LittleEndian.Uint64(b)]. *)
Fixpoint LittleEndian_Uint (b : bytes) : Z :=
  match b with
  | [] => 0
  | x :: rest => Z.lor (Z_of_byte x) (Z.shiftl (LittleEndian_Uint rest) 8)
  end.

(** [newIcmpData] (lines 221-249) up to the call of the serializer; [now]
    is what [time.Now().UnixNano()] returns.  A [uint16] shifted left stays
    a [uint16]. *)
Definition newIcmpData (src dest : string) (typeCode ttl seq id now : Z) : icmpData :=
  {| ip_Version := 4;
     ip_Protocol := 1;                              (* layers.IPProtocolICMPv4 *)
     ip_SrcIP := src;
     ip_DstIP := dest;
     ip_Length := 20;
     ip_TTL := uint8 ttl;
     icmp_TypeCode := uint16 (Z.shiftl (uint16 typeCode) 8);
     icmp_Id := uint16 id;
     icmp_Seq := uint16 seq;
     icmp_Checksum := 0;
     icmp_payload := LittleEndian_PutUint64 (Z.land now (Z.ones 64)) |}.

(** [craftAndSendICMP] (lines 164-167): the echo request handed to
    [p.conn.WriteTo]. *)
Definition craftAndSendICMP (p : Pinger) (src dst : string) (ttl seq now : Z) : icmpData :=
  newIcmpData src dst 8 ttl seq (ID p) now.

(** [sendPayload] (lines 153-162), under the mutex: the timestamp is
    stored under the sequence number, the probe is launched, the counter
    goes up.  [now] is the clock at the store, [now'] the clock when the
    probe is built. *)
Definition sendPayload (p : Pinger) (localAddr : string) (s now now' : Z)
  : Pinger * icmpData :=
  ({| host := host p; Count := Count p; Interval := Interval p; ID := ID p;
      ts := ts_set (ts p) s now;
      packetsSent := packetsSent p + 1;
      ttl := ttl p |},
   craftAndSendICMP p localAddr (host p) (ttl p) s now').

(** [getInterval] (lines 215-219). *)
Definition getInterval (p : Pinger) (now seq : Z) : Z := now - ts_get (ts p) seq.

(** What [parser.DecodeLayers] filled in: the layer types it decoded, in
    order, and the fields of the layer structs that [handleIncoming]
    reads. *)
Inductive LayerType := LayerTypeIPv4 | LayerTypeICMPv4 | LayerTypeUDP | LayerTypePayload.

Record decodedLayers := {
  decoded : list LayerType;
  ip_DstIP_in : string;
  ip_SrcIP_in : string;
  ip_TTL_in : Z;
  icmp_Id_in : Z;
  icmp_Seq_in : Z
}.

Inductive verdict :=
| Dropped (why : string)
| Stat (interval_us : Z) (ttl : Z).

(** The loop over the decoded layers (lines 185-206): [Some why] when it
    returns early. *)
Fixpoint check_layers (p : Pinger) (localAddr : string) (d : decodedLayers)
    (layers : list LayerType) : option string :=
  match layers with
  | [] => None
  | LayerTypeIPv4 :: rest =>
      if negb (String.eqb (ip_DstIP_in d) localAddr)
      then Some "warn: icmp response with wrong dst"%string
      else if negb (String.eqb (ip_SrcIP_in d) (host p))
      then Some "warn: icmp response with wrong src"%string
      else check_layers p localAddr d rest
  | LayerTypeICMPv4 :: rest =>
      if negb (icmp_Id_in d =? uint16 (ID p))
      then Some "warn: icmp response with wrong ID"%string
      else check_layers p localAddr d rest
  | _ :: rest => check_layers p localAddr d rest
  end.

(** [handleIncoming] (lines 169-213) after the decoder has run: [None] for
    [d] is a decoding error.  The statistic carries
    [interval/time.Microsecond], the integer the code then converts to
    [float32] and divides by 1000. *)
Definition handleIncoming (p : Pinger) (localAddr : string) (now : Z)
    (d : option decodedLayers) : verdict :=
  match d with
  | None => Dropped "error decoding:"
  | Some d =>
      match check_layers p localAddr d (decoded d) with
      | Some why => Dropped why
      | None =>
          let interval := getInterval p now (icmp_Seq_in d) in
          Stat (Z.quot interval 1000) (ip_TTL_in d)
      end
  end.

End Probe.

(* ================================================================== *)
(** * main.go: the command line *)
(* ================================================================== *)

Module CommandLine.

Section Main.

(** [vpn.Options] and [vpn.ParseConfigFile] are defined in package
    [vpn]. *)
Variable Options : Type.
Variable ParseConfigFile : string -> option Options.

(** How [main] ends: [printUsage] (which calls [os.Exit(0)]), the fatal
    exit with status 1, or one of the two commands. *)
Inductive outcome :=
| Usage
| Fatal
| RunPinger (o : Options) (target : string) (count : Z)
| ListenAndServeSocks (o : Options).

(** [main] (main.go lines 28-69) after [getopt.Parse]: [args] are the
    positional arguments, the rest the option values. *)
Definition main (args : list string) (optConfig optServer optTarget : string)
    (optCount : Z) (helpFlag : bool) : outcome :=
  if negb (length args =? 1)%nat then Usage
  else if helpFlag || (String.eqb optServer EmptyString && String.eqb optConfig EmptyString) then Usage
  else
    match ParseConfigFile optConfig with
    | None => Fatal
    | Some opts =>
        match args with
        | cmd :: _ =>
            if String.eqb cmd "ping" then RunPinger opts optTarget optCount
            else if String.eqb cmd "proxy" then ListenAndServeSocks opts
            else Usage
        | [] => Usage
        end
    end.

End Main.

End CommandLine.

(* ================================================================== *)
(** * The data handler, from the specification *)
(* ================================================================== *)

(** The muxer calls the data channel through the interface [dataHandler];
    the handler itself ([data.go]) is not part of the sources at hand.
    What the specification says of it (sections 3, 4.7, 4.8 and 7,
    invariant I4, property P5) is written out here.  The cryptography is a
    parameter. *)
Module SpecData.
Import Muxer.

(** Modelled from the spec: the [DataChannelState] of section 3, one per
    direction, "populated by the key schedule": the two keys, the
    outbound packet-id counter and the inbound replay window (the highest
    packet-id accepted and the ids accepted).  The cipher and digest kinds
    are part of the parameters [encrypt] and [decrypt] below. *)
Record DataChannelState := {
  cipher_key : bytes;
  hmac_key : bytes;
  packet_id_counter : Z;
  max_accepted : Z;
  accepted : list Z
}.

(** Modelled from the spec: the state of the data handler, which is
    missing from the sources: the two directional states, absent until the
    key schedule has run, and the count of dropped packets that section 7
    asks for ("counted for observability"). *)
Record data := {
  out_state : option DataChannelState;
  in_state : option DataChannelState;
  failures : Z
}.

(** Modelled from the spec: the handler [newDataFromOptions] returns has
    not run the key schedule and has dropped nothing. *)
Definition newData : data :=
  {| out_state := None; in_state := None; failures := 0 |}.

(** The error kinds of section 7 that the data handler produces. *)
Definition errReplay : error := errExternal "Replay".
Definition errBadAuthentication : error := errExternal "BadAuthentication".
Definition errMissingKeySource : error := errExternal "missing KeySource".
Definition errNoDataChannelState : error := errExternal "no data channel state".

Section DataHandler.

Context {Conn packet : Type}.

(** [conn.Write] on the transport, and the payload of a parsed packet. *)
Variable conn_Write : Conn -> bytes -> Conn * (Z * option error).
Variable payload_of : packet -> bytes.

(** The key schedule of section 4.7: from the local and the remote
    [KeySource] and the two session ids, the client's cipher and HMAC key
    and the server's, as sliced from the 256-byte key block. *)
Variable key_schedule :
  keySource -> keySource -> sessionID -> sessionID -> (bytes * bytes) * (bytes * bytes).

(** Encryption and encoding of an outbound payload under a cipher key, an
    HMAC key and a packet-id; authentication and decryption of an inbound
    one, which gives the packet-id and the plaintext, or nothing when the
    tag or the HMAC does not verify (section 4.8). *)
Variable encrypt : bytes -> bytes -> Z -> bytes -> bytes.
Variable decrypt : bytes -> bytes -> bytes -> option (Z * bytes).

(** Whether the compression stub is enabled. *)
Variable compression_stub : bool.

(** A directional state as the key schedule leaves it: no packet-id
    allocated, none accepted. *)
Definition fresh_state (cipher hmac : bytes) : DataChannelState :=
  {| cipher_key := cipher; hmac_key := hmac;
     packet_id_counter := 0; max_accepted := 0; accepted := [] |}.

(** Modelled from the spec: [data.SetupKeys] runs the key schedule of
    section 4.7.  "After both KeySources are known" the keys are derived:
    "the client direction uses client_*; the server direction uses
    server_*".  With a [KeySource] missing there is nothing to derive from
    and no state is produced. *)
Definition data_SetupKeys (d : data) (s : session) (k : dataChannelKey)
  : data * session * option error :=
  match local k, remote k with
  | Some l, Some r =>
      let '((client_cipher, client_hmac), (server_cipher, server_hmac)) :=
        key_schedule l r (LocalSessionID s) (RemoteSessionID s) in
      ({| out_state := Some (fresh_state client_cipher client_hmac);
          in_state := Some (fresh_state server_cipher server_hmac);
          failures := failures d |}, s, None)
  | _, _ => (d, s, Some errMissingKeySource)
  end.

(** "Allocate the next data packet-id." *)
Definition next_packet_id (st : DataChannelState) : DataChannelState :=
  {| cipher_key := cipher_key st; hmac_key := hmac_key st;
     packet_id_counter := packet_id_counter st + 1;
     max_accepted := max_accepted st; accepted := accepted st |}.

(** Modelled from the spec: [data.WritePacket], the outbound path of
    section 4.8: "allocate the next data packet-id; if compression stub is
    enabled, prepend a single 0xFA byte to the payload; encrypt and write".
    The keys are those of the outbound state; by invariant I4 the data
    channel transmits "only after ... the key schedule has produced both
    directional states", so without an outbound state nothing is written
    and an error is returned. *)
Definition data_WritePacket (d : data) (s : session) (c : Conn) (b : bytes)
  : data * session * Conn * (Z * option error) :=
  match out_state d with
  | None => (d, s, c, (0, Some errNoDataChannelState))
  | Some st =>
      let st' := next_packet_id st in
      let body := if compression_stub then xfa :: b else b in
      let wire := encrypt (cipher_key st') (hmac_key st') (packet_id_counter st') body in
      let '(c', r) := conn_Write c wire in
      ({| out_state := Some st'; in_state := in_state d; failures := failures d |},
       s, c', r)
  end.

(** Modelled from the spec: the replay check of property P5: a packet-id
    is refused when it is "<= max_accepted - 64 or already accepted". *)
Definition replayed (st : DataChannelState) (id : Z) : bool :=
  (id <=? max_accepted st - 64) || existsb (Z.eqb id) (accepted st).

(** The replay window after a packet-id was accepted. *)
Definition accept (st : DataChannelState) (id : Z) : DataChannelState :=
  {| cipher_key := cipher_key st; hmac_key := hmac_key st;
     packet_id_counter := packet_id_counter st;
     max_accepted := Z.max (max_accepted st) id;
     accepted := id :: accepted st |}.

(** "Strip the compression byte if present." *)
Definition strip (body : bytes) : bytes :=
  match body with
  | xfa :: rest => if compression_stub then rest else body
  | _ => body
  end.

(** Modelled from the spec: the checks of the inbound path of section 4.8,
    in its order: "authenticate (via GCM tag or HMAC), decrypt, verify
    packet-id is to the right of the replay window".  "Replay violations
    fail with Replay, MAC failures with BadAuthentication".  Before the key
    schedule has run there is no key to authenticate with, and the packet
    fails as well. *)
Definition check (d : data) (p : packet) : result (DataChannelState * Z * bytes) :=
  match in_state d with
  | None => Err errNoDataChannelState
  | Some st =>
      match decrypt (cipher_key st) (hmac_key st) (payload_of p) with
      | None => Err errBadAuthentication
      | Some (id, body) =>
          if replayed st id then Err errReplay else Ok (st, id, body)
      end
  end.

(** One more dropped packet. *)
Definition count_failure (d : data) : data :=
  {| out_state := out_state d; in_state := in_state d; failures := failures d + 1 |}.

(** Modelled from the spec: [data.ReadPacket], the inbound path of section
    4.8.  A packet that passes the checks moves the replay window and gives
    its plaintext, less the compression byte; one that fails them is
    dropped with its error and "counted for observability" (section 7).
    The ping reflex that section 4.8 also describes is in muxer.go
    ([handleDataPing]) in this code, and is not repeated here. *)
Definition data_ReadPacket (d : data) (s : session) (p : packet)
  : data * session * result bytes :=
  match check d p with
  | Err e => (count_failure d, s, Err e)
  | Ok (st, id, body) =>
      ({| out_state := out_state d; in_state := Some (accept st id);
          failures := failures d |}, s, Ok (strip body))
  end.

(** The handler as the muxer sees it. *)
Definition handler : dataHandler data Conn packet :=
  {| SetupKeys := data_SetupKeys;
     WritePacket := data_WritePacket;
     ReadPacket := data_ReadPacket |}.

End DataHandler.

End SpecData.

(* ================================================================== *)
(** * pinger.go: a run of the pinger *)
(* ================================================================== *)

(** [Run] (lines 85-111) starts goroutines: [consumeData] (lines 143-151)
    starts [Count] readers, each of which reads one datagram and hands it
    to [handleIncoming]; a collector takes [Count] statistics off the
    channel [p.stats] and then calls [Shutdown], which prints the summary;
    the loop of [Run] itself starts one [sendPayload] per sequence number.
    A run is modelled as an interleaving of these goroutines, one step for
    each of their actions; time is not modelled, so the sleeps of the
    sending loop put no bound on what happens between two sends. *)
Module PingRun.
Import Probe.

Section Run.

(** Go's [float32], and [float32(interval/time.Microsecond) / 1000]
    (line 209) as a function of the microseconds. *)
Variable float32 : Type.
Variable rtt_of : Z -> float32.

(** The pinger while [Run] runs: its fields, and where its goroutines
    are. *)
Record running := {
  pinger : Pinger;                       (* host, Count, ID, ts, packetsSent *)
  st_list : list (PingStats.st float32); (* the field [st] *)
  packetsRecv : Z;
  stats_chan : list (PingStats.st float32);   (* the channel [stats], oldest first *)
  launched : Z;          (* the [i] of the sending loop, lines 102-110 *)
  waiting : list Z;      (* [sendPayload] goroutines started and not yet run *)
  readers : Z;           (* readers of [consumeData] that have not read yet *)
  collected : Z;         (* the [i] of the collecting loop, lines 94-98 *)
  printed : option (option (Z * Z * Z))  (* what [printStats] made of its summary line *)
}.

(** [Run] has dialled and started its goroutines. *)
Definition start (pid : Z) (host : string) (count : Z) : running :=
  {| pinger := NewPinger pid host count;
     st_list := []; packetsRecv := 0; stats_chan := [];
     launched := 0; waiting := []; readers := count; collected := 0;
     printed := None |}.

(** What [printStats] reads. *)
Definition view (r : running) : PingStats.Pinger float32 :=
  {| PingStats.host := host (pinger r);
     PingStats.stats := st_list r;
     PingStats.packetsSent := packetsSent (pinger r);
     PingStats.packetsRecv := packetsRecv r |}.

Fixpoint remove_first (s : Z) (l : list Z) : list Z :=
  match l with
  | [] => []
  | x :: rest => if x =? s then rest else x :: remove_first s rest
  end.

(** One action of one goroutine. *)
Inductive action :=
| Launch                                    (* [go p.sendPayload(i)], line 103 *)
| Send (s now now' : Z)                     (* [sendPayload(s)], lines 153-162 *)
| Receive (now : Z) (d : option decodedLayers)
                                            (* one reader: [ReadFrom], then
                                               [handleIncoming], lines 146-149 *)
| Collect                                   (* [st := <-p.stats] and lines 96-97 *)
| Shutdown.                                 (* [p.Shutdown()], line 100 *)

(** The state after an action, or [None] when the goroutine cannot take it
    in this state: the sending loop is over, no such [sendPayload] is
    waiting, every reader has read, the channel is empty or the collecting
    loop over, or the collecting loop is still running.  [local] is
    [p.conn.LocalAddr()]. *)
Definition perform (local : string) (a : action) (r : running) : option running :=
  match a with
  | Launch =>
      if launched r <? Count (pinger r) then
        Some {| pinger := pinger r; st_list := st_list r; packetsRecv := packetsRecv r;
                stats_chan := stats_chan r; launched := launched r + 1;
                waiting := waiting r ++ [launched r];
                readers := readers r; collected := collected r; printed := printed r |}
      else None
  | Send s now now' =>
      if existsb (Z.eqb s) (waiting r) then
        Some {| pinger := fst (sendPayload (pinger r) local s now now');
                st_list := st_list r; packetsRecv := packetsRecv r;
                stats_chan := stats_chan r; launched := launched r;
                waiting := remove_first s (waiting r);
                readers := readers r; collected := collected r; printed := printed r |}
      else None
  | Receive now d =>
      if 0 <? readers r then
        Some {| pinger := pinger r; st_list := st_list r; packetsRecv := packetsRecv r;
                stats_chan :=
                  match handleIncoming (pinger r) local now d with
                  | Stat us ttl =>
                      stats_chan r ++ [ {| PingStats.rtt := rtt_of us; PingStats.ttl := ttl |} ]
                  | Dropped _ => stats_chan r
                  end;
                launched := launched r; waiting := waiting r;
                readers := readers r - 1; collected := collected r; printed := printed r |}
      else None
  | Collect =>
      if collected r <? Count (pinger r) then
        match stats_chan r with
        | s :: rest =>
            Some {| pinger := pinger r; st_list := st_list r ++ [s];
                    packetsRecv := packetsRecv r + 1;
                    stats_chan := rest; launched := launched r; waiting := waiting r;
                    readers := readers r; collected := collected r + 1;
                    printed := printed r |}
        | [] => None
        end
      else None
  | Shutdown =>
      if Count (pinger r) <=? collected r then
        match printed r with
        | None =>
            Some {| pinger := pinger r; st_list := st_list r; packetsRecv := packetsRecv r;
                    stats_chan := stats_chan r; launched := launched r;
                    waiting := waiting r; readers := readers r; collected := collected r;
                    printed := Some (PingStats.printStats_summary float32 (view r)) |}
        | Some _ => None
        end
      else None
  end.

(** A run: the actions taken, in order. *)
Fixpoint run (local : string) (l : list action) (r : running) : option running :=
  match l with
  | [] => Some r
  | a :: rest =>
      match perform local a r with
      | Some r' => run local rest r'
      | None => None
      end
  end.

End Run.

Arguments pinger {float32} r.
Arguments st_list {float32} r.
Arguments packetsRecv {float32} r.
Arguments stats_chan {float32} r.
Arguments launched {float32} r.
Arguments waiting {float32} r.
Arguments readers {float32} r.
Arguments collected {float32} r.
Arguments printed {float32} r.
Arguments start {float32} pid host count.
Arguments view {float32} r.

End PingRun.

(* ================================================================== *)
(** * Properties of the wire framer *)
(* ================================================================== *)

Module FramingFacts.
Import Framing.

(** The big-endian 16-bit encoding of [n], written with division and
    remainder (the specification's words), for comparison with what
    [BigEndian_PutUint16] stores. *)
Definition be16 (n : Z) : bytes := [byte_of_Z (n / 256); byte_of_Z (n mod 256)].

Lemma land_255_mod (v : Z) : Z.land v 255 = v mod 256.
Proof. change 255 with (Z.ones 8). now rewrite Z.land_ones by lia. Qed.

Lemma uint16_mod (n : Z) : uint16 n = n mod 65536.
Proof. unfold uint16. change 65535 with (Z.ones 16). now rewrite Z.land_ones by lia. Qed.

Lemma Z_of_byte_of_Z (v : Z) : Z_of_byte (byte_of_Z v) = v mod 256.
Proof.
  unfold Z_of_byte, byte_of_Z. rewrite land_255_mod.
  assert (Hr : 0 <= v mod 256 < 256) by (apply Z.mod_pos_bound; lia).
  destruct (Byte.of_N (Z.to_N (v mod 256))) as [b|] eqn:E.
  - apply Byte.to_of_N in E. rewrite E. apply Z2N.id. lia.
  - apply Byte.of_N_None_iff in E. lia.
Qed.

Lemma byte_of_Z_mod (v : Z) : byte_of_Z (v mod 256) = byte_of_Z v.
Proof.
  unfold byte_of_Z. rewrite !land_255_mod, Z.mod_mod by lia. reflexivity.
Qed.

Lemma Z_of_byte_range (x : byte) : 0 <= Z_of_byte x < 256.
Proof.
  unfold Z_of_byte. pose proof (Byte.to_N_bounded x). lia.
Qed.

Lemma low_high_disjoint (lo hi : Z) :
  0 <= lo < 256 -> Z.land lo (Z.shiftl hi 8) = 0.
Proof.
  intros Hl. apply Z.bits_inj'. intros k Hk.
  rewrite Z.land_spec, Z.bits_0.
  destruct (Z.ltb_spec k 8) as [Hlt|Hge].
  - rewrite Z.shiftl_spec_low by lia. apply andb_false_r.
  - destruct (Z.eq_dec lo 0) as [->|Hz]; [now rewrite Z.bits_0|].
    rewrite (Z.bits_above_log2 lo k); [reflexivity | lia |].
    apply Z.lt_le_trans with 8; [|exact Hge].
    apply Z.log2_lt_pow2; [lia|]. change (2 ^ 8) with 256. lia.
Qed.

(** Two bytes read back big-endian give [256 * hi + lo]. *)
Lemma BigEndian_Uint16_value (hi lo : byte) :
  BigEndian_Uint16 hi lo = 256 * Z_of_byte hi + Z_of_byte lo.
Proof.
  unfold BigEndian_Uint16.
  pose proof (Z_of_byte_range lo) as Hl.
  rewrite <- Z.lxor_lor by (apply low_high_disjoint; exact Hl).
  rewrite <- Z.add_nocarry_lxor by (apply low_high_disjoint; exact Hl).
  rewrite Z.shiftl_mul_pow2 by lia. change (2 ^ 8) with 256. lia.
Qed.

(** What [toSizeFrame] emits on any input: the big-endian encoding of the
    length reduced modulo [2^16], then the whole payload. *)
Lemma toSizeFrame_bytes (b : bytes) :
  toSizeFrame b = be16 (Z.of_nat (length b) mod 65536) ++ b.
Proof.
  unfold toSizeFrame, BigEndian_PutUint16, make, be16. simpl.
  rewrite uint16_mod, byte_of_Z_mod, Z.shiftr_div_pow2 by lia.
  reflexivity.
Qed.

Lemma be16_value (n : Z) (rest : bytes) :
  0 <= n < 65536 -> frame_prefix (be16 n ++ rest) = Some n.
Proof.
  intros Hn. unfold be16, frame_prefix. simpl.
  rewrite BigEndian_Uint16_value, !Z_of_byte_of_Z, Z.mod_mod by lia.
  f_equal. rewrite (Z.mod_small (n / 256)).
  - pose proof (Z.div_mod n 256). lia.
  - split; [apply Z.div_pos; lia | apply Z.div_lt_upper_bound; lia].
Qed.

Lemma toSizeFrame_prefix (b : bytes) :
  frame_prefix (toSizeFrame b) = Some (Z.of_nat (length b) mod 65536).
Proof.
  rewrite toSizeFrame_bytes. apply be16_value. apply Z.mod_pos_bound. lia.
Qed.

(** Reading a stream that starts with the encoding of [n]: the next [n]
    bytes are the packet. *)
Lemma unframe_be16 (n : Z) (s : bytes) :
  0 <= n < 65536 ->
  unframe (be16 n ++ s) =
    if (length s <? Z.to_nat n)%nat then None
    else Some (firstn (Z.to_nat n) s, skipn (Z.to_nat n) s).
Proof.
  intros Hn. pose proof (be16_value n s Hn) as Hp.
  unfold be16 in *. simpl in *. injection Hp as ->. reflexivity.
Qed.

(** C8.  For every byte string [b] of at most 65535 bytes, [toSizeFrame b]
    is the big-endian 16-bit encoding of the length of [b] followed by [b];
    its length prefix reads back as that length, and un-framing it gives
    [b] back (also when more of the stream follows the frame). *)
Theorem toSizeFrame_roundtrip (b : bytes) :
  Z.of_nat (length b) <= 65535 ->
  toSizeFrame b = be16 (Z.of_nat (length b)) ++ b /\
  frame_prefix (toSizeFrame b) = Some (Z.of_nat (length b)) /\
  unframe (toSizeFrame b) = Some (b, []) /\
  forall rest, unframe (toSizeFrame b ++ rest) = Some (b, rest).
Proof.
  intros Hlen.
  assert (Hsmall : Z.of_nat (length b) mod 65536 = Z.of_nat (length b))
    by (apply Z.mod_small; lia).
  assert (Hun : forall rest, unframe (toSizeFrame b ++ rest) = Some (b, rest)).
  { intros rest. rewrite toSizeFrame_bytes, Hsmall, <- app_assoc.
    rewrite unframe_be16 by lia. rewrite Nat2Z.id.
    rewrite length_app.
    destruct (Nat.ltb_spec (length b + length rest) (length b)) as [Hlt|_];
      [lia|].
    rewrite firstn_app, Nat.sub_diag, firstn_all, firstn_O, app_nil_r.
    rewrite skipn_app, Nat.sub_diag, skipn_all, skipn_O. reflexivity. }
  split; [|split; [|split]].
  - rewrite toSizeFrame_bytes, Hsmall. reflexivity.
  - rewrite toSizeFrame_prefix, Hsmall. reflexivity.
  - rewrite <- (app_nil_r (toSizeFrame b)). apply Hun.
  - exact Hun.
Qed.

Lemma toSizeFrame_roundtrip_witness :
  Z.of_nat (length [x68; x69]) <= 65535 /\
  unframe (toSizeFrame [x68; x69]) = Some ([x68; x69], []).
Proof.
  split; [simpl; lia|].
  apply (toSizeFrame_roundtrip [x68; x69]). simpl. lia.
Defined.

(** A payload of exactly [2^16] bytes, one more than the prefix can count. *)
Definition oversized : bytes := repeat x00 (Z.to_nat 65536).

Lemma oversized_length : Z.of_nat (length oversized) = 65536.
Proof. unfold oversized. rewrite repeat_length, Z2Nat.id; lia. Qed.

(** C10.  For every byte string [b] longer than 65535 bytes, [toSizeFrame b]
    starts with the big-endian encoding of the length of [b] modulo 65536
    (the [uint16] truncation) and still carries all of [b] after it, so the
    length the prefix announces is not the length of the framed payload. *)
Theorem toSizeFrame_truncates (b : bytes) :
  65535 < Z.of_nat (length b) ->
  toSizeFrame b = be16 (Z.of_nat (length b) mod 65536) ++ b /\
  skipn 2 (toSizeFrame b) = b /\
  frame_prefix (toSizeFrame b) = Some (Z.of_nat (length b) mod 65536) /\
  frame_prefix (toSizeFrame b) <> Some (Z.of_nat (length (skipn 2 (toSizeFrame b)))).
Proof.
  intros Hlen.
  assert (Hskip : skipn 2 (toSizeFrame b) = b)
    by (rewrite toSizeFrame_bytes; reflexivity).
  split; [|split; [|split]].
  - apply toSizeFrame_bytes.
  - exact Hskip.
  - apply toSizeFrame_prefix.
  - rewrite Hskip, toSizeFrame_prefix. intros [= Heq].
    pose proof (Z.mod_pos_bound (Z.of_nat (length b)) 65536). lia.
Qed.

Lemma toSizeFrame_truncates_witness :
  65535 < Z.of_nat (length oversized) /\
  frame_prefix (toSizeFrame oversized) = Some (Z.of_nat (length oversized) mod 65536).
Proof.
  split; [rewrite oversized_length; lia|].
  apply (toSizeFrame_truncates oversized). rewrite oversized_length. lia.
Defined.

End FramingFacts.

(* ================================================================== *)
(** * Properties of the multiplexer: the data phase *)
(* ================================================================== *)

Module MuxerFacts.
Import Muxer.

Section DataPhase.

Context {Conn TLS D Options packet : Type}.
Context {control : controlHandler Conn Options}.
Context {dataH : dataHandler D Conn packet}.
Context {pkg : vpnPackage Conn TLS D Options packet}.

Abbreviation muxer := (muxer Conn TLS D Options packet).
Abbreviation event := (event packet).

(** An event that only reports: a log line or a dump on standard output. *)
Definition is_report (e : event) : bool :=
  match e with
  | EvLog _ _ _ | EvPrint _ => true
  | _ => false
  end.

(** The state after one read of the transport that returned [r]. *)
Definition after_read (m : muxer) (c : Conn) (r : result bytes) (more : list event) : muxer :=
  set_trace (set_conn m c) (m_trace m ++ EvReadPacket r :: more).

(** The state after a data packet went through [ReadPacket]. *)
Definition after_decrypt (m : muxer) (c : Conn) (data : bytes) (p : packet)
    (d : D) (s : session) (r : result bytes) (more : list event) : muxer :=
  set_trace (set_session (set_data (set_conn m c) d) s)
            (m_trace m ++ EvReadPacket (Ok data) :: EvData (dReadPacket p r) :: more).

Ltac run :=
  unfold handleIncomingPacket, handleDataPing, call_readPacket, call_ReadPacket,
    call_WritePacket, logger, emit, modify, bind, ret, after_read, after_decrypt;
  cbn [m_conn m_tls m_data m_bufReader m_session m_tunnel m_options m_trace
       set_conn set_tls set_data set_bufReader set_session set_tunnel set_trace].

(** A packet the code takes for a data packet to decrypt. *)
Definition to_decrypt (data : bytes) (p : packet) : Prop :=
  parsePacketFromBytes data = Ok p /\ isACK p = false /\ isControl p = false /\
  isData p = true /\ isPing data = false.

(** *** One iteration, case by case *)

Lemma step_transport_error (m : muxer) (c : Conn) (e : error) :
  readPacket (m_conn m) = (c, Err e) ->
  handleIncomingPacket m =
    Done false (after_read m c (Err e) [EvLog lvlError "%s" [argErr e]]).
Proof.
  intros H. run. rewrite H. cbn. rewrite <- app_assoc. reflexivity.
Qed.

Lemma step_malformed (m : muxer) (c : Conn) (data : bytes) (e : error) :
  readPacket (m_conn m) = (c, Ok data) ->
  parsePacketFromBytes data = Err e ->
  handleIncomingPacket m =
    Done false (after_read m c (Ok data) [EvLog lvlError "%s" [argErr e]]).
Proof.
  intros H Hp. run. rewrite H. cbn. rewrite Hp. cbn.
  rewrite <- app_assoc. reflexivity.
Qed.

Lemma step_ack (m : muxer) (c : Conn) (data : bytes) (p : packet) :
  readPacket (m_conn m) = (c, Ok data) ->
  parsePacketFromBytes data = Ok p ->
  isACK p = true ->
  handleIncomingPacket m =
    Done false (after_read m c (Ok data) [EvLog lvlWarn "muxer: got ACK (ignored)" []]).
Proof.
  intros H Hp Ha. run. rewrite H. cbn. rewrite Hp, Ha. cbn.
  rewrite <- app_assoc. reflexivity.
Qed.

Lemma step_control (m : muxer) (c : Conn) (data : bytes) (p : packet) :
  readPacket (m_conn m) = (c, Ok data) ->
  parsePacketFromBytes data = Ok p ->
  isACK p = false ->
  isControl p = true ->
  handleIncomingPacket m =
    Done false (after_read m c (Ok data)
      [EvLog lvlInfo "Got control packet: %d" [argInt (Z.of_nat (length data))];
       EvPrint (payload p)]).
Proof.
  intros H Hp Ha Hc. run. rewrite H. cbn. rewrite Hp, Ha, Hc. cbn.
  rewrite <- !app_assoc. reflexivity.
Qed.

Lemma step_unhandled (m : muxer) (c : Conn) (data : bytes) (p : packet) :
  readPacket (m_conn m) = (c, Ok data) ->
  parsePacketFromBytes data = Ok p ->
  isACK p = false ->
  isControl p = false ->
  isData p = false ->
  handleIncomingPacket m =
    Done false (after_read m c (Ok data)
      [EvLog lvlWarn "unhandled data. (op: %d)" [argInt (opcode p)];
       EvPrint data]).
Proof.
  intros H Hp Ha Hc Hd. run. rewrite H. cbn. rewrite Hp, Ha, Hc, Hd. cbn.
  rewrite <- !app_assoc. reflexivity.
Qed.

(** The reflex of lines 258-261: it is the packet as read from the wire
    that is compared with the ping magic. *)
Lemma step_wire_ping (m : muxer) (c : Conn) (data : bytes) (p : packet)
    (d : D) (s : session) (c' : Conn) (r : Z * option error) :
  readPacket (m_conn m) = (c, Ok data) ->
  parsePacketFromBytes data = Ok p ->
  isACK p = false ->
  isControl p = false ->
  isData p = true ->
  isPing data = true ->
  WritePacket (m_data m) (m_session m) c pingPayload = (d, s, c', r) ->
  handleIncomingPacket m =
    Done false
      (set_trace (set_conn (set_session (set_data (set_conn m c) d) s) c')
         (m_trace m ++ [EvReadPacket (Ok data);
                        EvLog lvlInfo "openvpn-ping, sending reply" [];
                        EvData (dWritePacket pingPayload)])).
Proof.
  intros H Hp Ha Hc Hd Hping Hw. run. rewrite H. cbn. rewrite Hp, Ha, Hc, Hd, Hping. cbn.
  rewrite Hw. cbn. rewrite <- !app_assoc. reflexivity.
Qed.

Lemma step_decrypt_failure (m : muxer) (c : Conn) (data : bytes) (p : packet)
    (d : D) (s : session) (e : error) :
  readPacket (m_conn m) = (c, Ok data) ->
  to_decrypt data p ->
  ReadPacket (m_data m) (m_session m) p = (d, s, Err e) ->
  handleIncomingPacket m =
    Done false (after_decrypt m c data p d s (Err e)
                  [EvLog lvlError "bad decryption: %s" [argErr e]]).
Proof.
  intros H (Hp & Ha & Hc & Hd & Hping) Hr. run. rewrite H. cbn.
  rewrite Hp, Ha, Hc, Hd, Hping. cbn. rewrite Hr. cbn.
  rewrite <- !app_assoc. reflexivity.
Qed.

Lemma step_delivery (m : muxer) (c : Conn) (data : bytes) (p : packet)
    (d : D) (s : session) (plaintext : bytes) :
  readPacket (m_conn m) = (c, Ok data) ->
  to_decrypt data p ->
  ReadPacket (m_data m) (m_session m) p = (d, s, Ok plaintext) ->
  handleIncomingPacket m =
    Done true (set_bufReader (after_decrypt m c data p d s (Ok plaintext) [])
                             (m_bufReader m ++ plaintext)).
Proof.
  intros H (Hp & Ha & Hc & Hd & Hping) Hr. run. rewrite H. cbn.
  rewrite Hp, Ha, Hc, Hd, Hping. cbn. rewrite Hr. cbn.
  rewrite <- !app_assoc. reflexivity.
Qed.

(** *** Every way an iteration can go *)

Inductive step_shape (m : muxer) : bool -> muxer -> Prop :=
| shape_quiet (c : Conn) (r : result bytes) (reports : list event) :
    readPacket (m_conn m) = (c, r) ->
    forallb is_report reports = true ->
    step_shape m false (after_read m c r reports)
| shape_wire_ping (c : Conn) (data : bytes) (p : packet)
    (d : D) (s : session) (c' : Conn) (r : Z * option error) :
    readPacket (m_conn m) = (c, Ok data) ->
    isPing data = true ->
    WritePacket (m_data m) (m_session m) c pingPayload = (d, s, c', r) ->
    step_shape m false
      (set_trace (set_conn (set_session (set_data (set_conn m c) d) s) c')
         (m_trace m ++ [EvReadPacket (Ok data);
                        EvLog lvlInfo "openvpn-ping, sending reply" [];
                        EvData (dWritePacket pingPayload)]))
| shape_dropped (c : Conn) (data : bytes) (p : packet) (d : D) (s : session) (e : error) :
    readPacket (m_conn m) = (c, Ok data) ->
    to_decrypt data p ->
    ReadPacket (m_data m) (m_session m) p = (d, s, Err e) ->
    step_shape m false
      (after_decrypt m c data p d s (Err e)
         [EvLog lvlError "bad decryption: %s" [argErr e]])
| shape_delivered (c : Conn) (data : bytes) (p : packet) (d : D) (s : session)
    (plaintext : bytes) :
    readPacket (m_conn m) = (c, Ok data) ->
    to_decrypt data p ->
    ReadPacket (m_data m) (m_session m) p = (d, s, Ok plaintext) ->
    step_shape m true
      (set_bufReader (after_decrypt m c data p d s (Ok plaintext) [])
                     (m_bufReader m ++ plaintext)).

(** [handleIncomingPacket] never panics, and what it returns has one of
    the four shapes. *)
Lemma step_has_shape (m : muxer) :
  exists b m', handleIncomingPacket m = Done b m' /\ step_shape m b m'.
Proof.
  destruct (readPacket (m_conn m)) as [c [data|e]] eqn:H.
  2:{ eexists _, _. split; [apply (step_transport_error _ _ _ H)|].
      now apply shape_quiet. }
  destruct (parsePacketFromBytes data) as [p|e] eqn:Hp.
  2:{ eexists _, _. split; [apply (step_malformed _ _ _ _ H Hp)|].
      now apply shape_quiet. }
  destruct (isACK p) eqn:Ha.
  { eexists _, _. split; [apply (step_ack _ _ _ _ H Hp Ha)|].
    now apply shape_quiet. }
  destruct (isControl p) eqn:Hc.
  { eexists _, _. split; [apply (step_control _ _ _ _ H Hp Ha Hc)|].
    now apply shape_quiet. }
  destruct (isData p) eqn:Hd.
  2:{ eexists _, _. split; [apply (step_unhandled _ _ _ _ H Hp Ha Hc Hd)|].
      now apply shape_quiet. }
  destruct (isPing data) eqn:Hping.
  { destruct (WritePacket (m_data m) (m_session m) c pingPayload)
      as [[[d s] c'] r] eqn:Hw.
    eexists _, _. split; [apply (step_wire_ping _ _ _ _ _ _ _ _ H Hp Ha Hc Hd Hping Hw)|].
    now eapply shape_wire_ping; eauto. }
  assert (Hdec : to_decrypt data p) by (repeat split; assumption).
  destruct (ReadPacket (m_data m) (m_session m) p) as [[d s] [plaintext|e]] eqn:Hr.
  - eexists _, _. split; [apply (step_delivery _ _ _ _ _ _ _ H Hdec Hr)|].
    now eapply shape_delivered; eauto.
  - eexists _, _. split; [apply (step_decrypt_failure _ _ _ _ _ _ _ H Hdec Hr)|].
    now eapply shape_dropped; eauto.
Qed.

Lemma step_shape_of (m : muxer) (b : bool) (m' : muxer) :
  handleIncomingPacket m = Done b m' -> step_shape m b m'.
Proof.
  intros H. destruct (step_has_shape m) as (b0 & m0 & H0 & Hs).
  rewrite H in H0. injection H0 as -> ->. exact Hs.
Qed.

Lemma step_never_panics (m : muxer) (why : string) :
  handleIncomingPacket m <> Panic why.
Proof.
  destruct (step_has_shape m) as (b0 & m0 & H0 & _). rewrite H0. discriminate.
Qed.

(** An iteration that returns [false] leaves the read buffer alone. *)
Lemma step_false_keeps_buffer (m m' : muxer) :
  handleIncomingPacket m = Done false m' -> m_bufReader m' = m_bufReader m.
Proof.
  intros H. apply step_shape_of in H. inversion H; reflexivity.
Qed.

(** An iteration that returns [true] has just appended a plaintext that
    [ReadPacket] returned without error; that call is the last event. *)
Lemma step_true_delivers (m m' : muxer) :
  handleIncomingPacket m = Done true m' ->
  exists p plaintext pre,
    m_trace m' = pre ++ [EvData (dReadPacket p (Ok plaintext))] /\
    m_bufReader m' = m_bufReader m ++ plaintext.
Proof.
  intros H. apply step_shape_of in H. inversion H; subst.
  exists p, plaintext, (m_trace m ++ [EvReadPacket (Ok data)]).
  unfold after_decrypt. cbn. rewrite <- app_assoc. split; reflexivity.
Qed.

(** *** The loop of [Read] *)

Lemma pull_never_panics (fuel : nat) (m : muxer) (why : string) :
  pull fuel m <> Some (Panic why).
Proof.
  revert m. induction fuel as [|fuel IH]; intros m; cbn; [discriminate|].
  destruct (handleIncomingPacket m) as [[|] m1|w] eqn:H.
  - discriminate.
  - apply IH.
  - exfalso. exact (step_never_panics _ _ H).
Qed.

Lemma pull_pulls (fuel : nat) (m m' : muxer) :
  pull fuel m = Some (Done tt m') -> pulls m m'.
Proof.
  revert m. induction fuel as [|fuel IH]; intros m; cbn; [discriminate|].
  destruct (handleIncomingPacket m) as [[|] m1|w] eqn:H; intros E.
  - injection E as <-. now apply pulls_data.
  - eapply pulls_again; eauto.
  - discriminate.
Qed.

Lemma pulls_pull (m m' : muxer) :
  pulls m m' -> exists fuel, pull fuel m = Some (Done tt m').
Proof.
  induction 1 as [m m' H | m m1 m' H _ [fuel IH]].
  - exists 1%nat. cbn. now rewrite H.
  - exists (S fuel). cbn. now rewrite H.
Qed.

(** The loop ends on the first delivery: when it ends, the buffer holds
    what it held plus the one plaintext the last iteration decrypted. *)
Lemma pulls_delivers (m m' : muxer) :
  pulls m m' ->
  exists p plaintext pre,
    m_trace m' = pre ++ [EvData (dReadPacket p (Ok plaintext))] /\
    m_bufReader m' = m_bufReader m ++ plaintext.
Proof.
  induction 1 as [m m' H | m m1 m' H _ IH].
  - now apply step_true_delivers.
  - destruct IH as (p & plaintext & pre & Ht & Hb).
    exists p, plaintext, pre. split; [exact Ht|].
    rewrite Hb. f_equal. now apply step_false_keeps_buffer.
Qed.

Lemma Read_unfold_false (fuel n : nat) (m m1 : muxer) :
  handleIncomingPacket m = Done false m1 ->
  Read (S fuel) n m = Read fuel n m1.
Proof. intros H. unfold Read. cbn. now rewrite H. Qed.

Lemma Read_returns_iff (n : nat) (m : muxer) (r : bytes * option error) (m' : muxer) :
  (exists fuel, Read fuel n m = Some (Done r m')) <->
  (exists m1, pulls m m1 /\ bufReader_Read n m1 = Done r m').
Proof.
  unfold Read. split.
  - intros [fuel H].
    destruct (pull fuel m) as [[[] m1|w]|] eqn:E; try discriminate.
    exists m1. split; [now apply (pull_pulls fuel)|]. now injection H.
  - intros (m1 & Hp & Hb). destruct (pulls_pull _ _ Hp) as [fuel E].
    exists fuel. now rewrite E, Hb.
Qed.

(** On a transport whose every read fails from now on, the loop never
    ends, whatever the number of iterations. *)
Lemma pull_on_failing_transport (dead : Conn -> Prop) :
  (forall c, dead c -> exists c' e, readPacket c = (c', Err e) /\ dead c') ->
  forall fuel m, dead (m_conn m) -> pull fuel m = None.
Proof.
  intros Hdead fuel. induction fuel as [|fuel IH]; intros m Hm; [reflexivity|].
  destruct (Hdead _ Hm) as (c' & e & Hr & Hc').
  cbn. rewrite (step_transport_error _ _ _ Hr). apply IH. exact Hc'.
Qed.

(** *** The claims about the data phase *)

(** C1, as the code has it.  [Read] never panics in its loop and returns
    exactly when the loop has reached an iteration that delivered: the
    last thing that happened is a [ReadPacket] that returned a plaintext
    without error, the read buffer holds what it held before followed by
    that plaintext, and the caller gets the first [n] bytes of it; the
    error is [nil], or [io.EOF] when that buffer is empty and [n] is not
    zero.  A failed read of the transport does not end the loop: the error
    is logged, the iteration returns [false], and [Read] goes on with the
    next read, so the error never reaches the caller; on a transport whose
    reads keep failing, [Read] never returns. *)
Theorem Read_returns_exactly_on_data (n : nat) (m : muxer) :
  (forall r m',
     (exists fuel, Read fuel n m = Some (Done r m')) <->
     (exists m1, pulls m m1 /\ bufReader_Read n m1 = Done r m')) /\
  (forall m1, pulls m m1 ->
     exists p plaintext pre,
       m_trace m1 = pre ++ [EvData (dReadPacket p (Ok plaintext))] /\
       m_bufReader m1 = m_bufReader m ++ plaintext /\
       bufReader_Read n m1 =
         Done (firstn n (m_bufReader m ++ plaintext),
               match m_bufReader m ++ plaintext, n with
               | [], S _ => Some io_EOF
               | _, _ => None
               end)
              (set_bufReader m1 (skipn n (m_bufReader m ++ plaintext)))) /\
  (forall c e, readPacket (m_conn m) = (c, Err e) ->
     handleIncomingPacket m =
       Done false (after_read m c (Err e) [EvLog lvlError "%s" [argErr e]]) /\
     forall fuel,
       Read (S fuel) n m =
       Read fuel n (after_read m c (Err e) [EvLog lvlError "%s" [argErr e]])) /\
  (forall dead : Conn -> Prop,
     (forall c, dead c -> exists c' e, readPacket c = (c', Err e) /\ dead c') ->
     dead (m_conn m) ->
     forall fuel, Read fuel n m = None) /\
  (forall fuel why, Read fuel n m <> Some (Panic why)).
Proof.
  split; [|split; [|split; [|split]]].
  - intros r m'. apply Read_returns_iff.
  - intros m1 Hp. destruct (pulls_delivers _ _ Hp) as (p & plaintext & pre & Ht & Hb).
    exists p, plaintext, pre. split; [exact Ht|]. split; [exact Hb|].
    unfold bufReader_Read, Buffer_Read. rewrite Hb.
    destruct (m_bufReader m ++ plaintext) as [|x rest]; [|reflexivity].
    destruct n; reflexivity.
  - intros c e Hr. pose proof (step_transport_error _ _ _ Hr) as Hs.
    split; [exact Hs|]. intros fuel. now apply Read_unfold_false.
  - intros dead Hdead Hm fuel. unfold Read.
    now rewrite (pull_on_failing_transport dead Hdead fuel m Hm).
  - intros fuel why. unfold Read.
    destruct (pull fuel m) as [[[] m1|w]|] eqn:E.
    + unfold bufReader_Read. destruct (Buffer_Read (m_bufReader m1) n) as [[? ?] ?].
      discriminate.
    + exfalso. exact (pull_never_panics _ _ _ E).
    + discriminate.
Qed.

(** C2, as the code has it.  A packet that parses as an ACK or as a control
    packet is reported and otherwise ignored: the iteration returns
    [false], and the muxer it leaves differs from the one it found only in
    the transport (one packet read) and in the trace, to which the read and
    one or two reports were added.  No method of the control handler is
    called, nothing is written, and no ACK is queued anywhere. *)
Theorem control_and_ack_packets_are_only_reported
    (m : muxer) (c : Conn) (data : bytes) (p : packet) :
  readPacket (m_conn m) = (c, Ok data) ->
  parsePacketFromBytes data = Ok p ->
  isACK p = true \/ isControl p = true ->
  exists reports,
    handleIncomingPacket m = Done false (after_read m c (Ok data) reports) /\
    forallb is_report reports = true /\
    (forall call, ~ In (EvControl call) (EvReadPacket (Ok data) :: reports)) /\
    (forall call, ~ In (EvData call) (EvReadPacket (Ok data) :: reports)) /\
    m_session (after_read m c (Ok data) reports) = m_session m /\
    m_data (after_read m c (Ok data) reports) = m_data m.
Proof.
  intros Hr Hp Hk.
  assert (Hgen : forall reports : list event,
             forallb is_report reports = true ->
             (forall call, ~ In (EvControl call) (EvReadPacket (Ok data) :: reports)) /\
             (forall call, ~ In (EvData call) (EvReadPacket (Ok data) :: reports))).
  { intros reports Hall. rewrite forallb_forall in Hall.
    split; intros call [Hin|Hin]; try discriminate;
      apply Hall in Hin; discriminate. }
  destruct (isACK p) eqn:Ha.
  - eexists. split; [apply (step_ack _ _ _ _ Hr Hp Ha)|].
    split; [reflexivity|]. split; [|split; [|split; reflexivity]];
      now apply Hgen.
  - destruct Hk as [Hk|Hc]; [discriminate|].
    eexists. split; [apply (step_control _ _ _ _ Hr Hp Ha Hc)|].
    split; [reflexivity|]. split; [|split; [|split; reflexivity]];
      now apply Hgen.
Qed.

(** C3, what the code does with a server ping.  The test of line 258 is
    applied to the packet as read from the wire, before decryption.  So a
    data packet that is not itself the ping magic but whose plaintext is
    takes the ordinary path: the magic is appended to the read buffer, the
    iteration returns [true] (the pending [Read] returns it to the user),
    and [WritePacket] is not called: no ping goes out. *)
Theorem ping_plaintext_is_delivered
    (m : muxer) (c : Conn) (data : bytes) (p : packet) (d : D) (s : session) :
  readPacket (m_conn m) = (c, Ok data) ->
  to_decrypt data p ->
  ReadPacket (m_data m) (m_session m) p = (d, s, Ok pingPayload) ->
  exists m',
    handleIncomingPacket m = Done true m' /\
    m_bufReader m' = m_bufReader m ++ pingPayload /\
    m_trace m' = m_trace m ++ [EvReadPacket (Ok data);
                               EvData (dReadPacket p (Ok pingPayload))] /\
    forall n, Read 1 n m =
              Some (Done (firstn n (m_bufReader m ++ pingPayload), None)
                         (set_bufReader m' (skipn n (m_bufReader m ++ pingPayload)))).
Proof.
  intros Hr Hdec Hrp.
  pose proof (step_delivery _ _ _ _ _ _ _ Hr Hdec Hrp) as Hs.
  eexists. split; [exact Hs|]. split; [reflexivity|]. split; [reflexivity|].
  intros n. unfold Read. cbn [pull]. rewrite Hs.
  unfold bufReader_Read, Buffer_Read. cbn [m_bufReader set_bufReader].
  destruct (m_bufReader m ++ pingPayload) eqn:E; [|reflexivity].
  apply app_eq_nil in E. destruct E as [_ E]. discriminate.
Qed.

(** The muxer's part in a rejected data packet, for any data handler.  A
    data packet that [ReadPacket] rejects is dropped: the iteration
    returns [false], nothing is added to the read buffer, the failure is
    logged ("bad decryption"), and [Read] goes on with the next packet.
    What the muxer changes itself is the trace; the transport moved by one
    packet and the data handler and the session are as [ReadPacket] left
    them. *)
Theorem rejected_data_packet_is_dropped_and_logged
    (m : muxer) (c : Conn) (data : bytes) (p : packet) (d : D) (s : session) (e : error) :
  readPacket (m_conn m) = (c, Ok data) ->
  to_decrypt data p ->
  ReadPacket (m_data m) (m_session m) p = (d, s, Err e) ->
  handleIncomingPacket m =
    Done false (after_decrypt m c data p d s (Err e)
                  [EvLog lvlError "bad decryption: %s" [argErr e]]) /\
  m_bufReader (after_decrypt m c data p d s (Err e)
                 [EvLog lvlError "bad decryption: %s" [argErr e]]) = m_bufReader m /\
  forall fuel n,
    Read (S fuel) n m =
    Read fuel n (after_decrypt m c data p d s (Err e)
                   [EvLog lvlError "bad decryption: %s" [argErr e]]).
Proof.
  intros Hr Hdec Hrp.
  pose proof (step_decrypt_failure _ _ _ _ _ _ _ Hr Hdec Hrp) as Hs.
  split; [exact Hs|]. split; [reflexivity|].
  intros fuel n. now apply Read_unfold_false.
Qed.

End DataPhase.

(* ================================================================== *)
(** * Properties of the multiplexer: the handshake *)
(* ================================================================== *)

Section Handshaking.

Context {Conn TLS D Options packet : Type}.
Context {control : controlHandler Conn Options}.
Context {dataH : dataHandler D Conn packet}.
Context {pkg : vpnPackage Conn TLS D Options packet}.

Abbreviation muxer := (muxer Conn TLS D Options packet).
Abbreviation event := (event packet).
Abbreviation M := (@M Conn TLS D Options packet).

(** ** What a run adds to the trace *)

(** Handing a payload to the data channel for transmission. *)
Definition is_write (e : event) : bool :=
  match e with
  | EvData (dWritePacket _) => true
  | _ => false
  end.

(** [quiet c]: a run of [c] only appends to the trace, and appends no
    [WritePacket] call. *)
Definition quiet {A : Type} (c : M A) : Prop :=
  forall m a m', c m = Done a m' ->
    exists evs, m_trace m' = m_trace m ++ evs /\ existsb is_write evs = false.

Lemma quiet_ret {A : Type} (a : A) : quiet (ret a).
Proof.
  intros m a' m' [= <- <-]. exists []. now rewrite app_nil_r.
Qed.

Lemma quiet_panic {A : Type} (why : string) : quiet (@panic _ _ _ _ _ A why).
Proof. intros m a m' H. discriminate. Qed.

Lemma quiet_bind {A B : Type} (c : M A) (k : A -> M B) :
  quiet c -> (forall a, quiet (k a)) -> quiet (bind c k).
Proof.
  intros Hc Hk m b m' H. unfold bind in H.
  destruct (c m) as [a m1|w] eqn:E; [|discriminate].
  destruct (Hc _ _ _ E) as (e1 & H1 & Q1).
  destruct (Hk a _ _ _ H) as (e2 & H2 & Q2).
  exists (e1 ++ e2). rewrite H2, H1, <- app_assoc. split; [reflexivity|].
  now rewrite existsb_app, Q1, Q2.
Qed.

Lemma quiet_emit (e : event) : is_write e = false -> quiet (emit e).
Proof.
  intros He m a m' [= <- <-]. exists [e]. cbn. now rewrite He.
Qed.

Lemma quiet_get {A : Type} (f : muxer -> A) : quiet (get f).
Proof.
  intros m a m' [= <- <-]. exists []. now rewrite app_nil_r.
Qed.

Lemma quiet_modify (f : muxer -> muxer) :
  (forall m, m_trace (f m) = m_trace m) -> quiet (modify f).
Proof.
  intros Hf m a m' [= <- <-]. exists []. now rewrite app_nil_r, Hf.
Qed.

(** A call that appends the one event [e m] and no other. *)
Lemma quiet_single {A : Type} (c : M A) (e : muxer -> event) :
  (forall m a m', c m = Done a m' -> m_trace m' = m_trace m ++ [e m]) ->
  (forall m, is_write (e m) = false) ->
  quiet c.
Proof.
  intros Hc He m a m' H. exists [e m]. split; [now apply (Hc m a)|].
  cbn. now rewrite He.
Qed.

Lemma quiet_call_readPacket : quiet call_readPacket.
Proof.
  apply (quiet_single _ (fun m => EvReadPacket (snd (readPacket (m_conn m)))));
    [|reflexivity].
  intros m a m'. unfold call_readPacket.
  destruct (readPacket (m_conn m)) as [c r]. now intros [= <- <-].
Qed.

Lemma quiet_call_SendHardReset : quiet call_SendHardReset.
Proof.
  apply (quiet_single _ (fun _ => EvControl cSendHardReset)); [|reflexivity].
  intros m a m'. unfold call_SendHardReset.
  destruct (SendHardReset (m_conn m) (m_session m)) as [c s]. now intros [= <- <-].
Qed.

Lemma quiet_call_SendACK (id : packetID) : quiet (call_SendACK id).
Proof.
  apply (quiet_single _ (fun _ => EvControl (cSendACK id))); [|reflexivity].
  intros m a m'. unfold call_SendACK.
  destruct (SendACK (m_conn m) (m_session m) id) as [[c s] e]. now intros [= <- <-].
Qed.

Lemma quiet_call_ControlMessage : quiet call_ControlMessage.
Proof.
  apply (quiet_single _ (fun _ => EvControl cControlMessage)); [|reflexivity].
  intros m a m'. unfold call_ControlMessage.
  destruct (ControlMessage (m_session m) (m_options m)) as [s r]. now intros [= <- <-].
Qed.

Lemma quiet_call_SetupKeys (k : dataChannelKey) : quiet (call_SetupKeys k).
Proof.
  apply (quiet_single _
           (fun m => EvData (dSetupKeys k (snd (SetupKeys (m_data m) (m_session m) k)))));
    [|reflexivity].
  intros m a m'. unfold call_SetupKeys.
  destruct (SetupKeys (m_data m) (m_session m) k) as [[d s] e]. now intros [= <- <-].
Qed.

Lemma quiet_call_tlsHandshake (tc : TLSConn) (conf : tlsConfig) :
  quiet (call_tlsHandshake tc conf).
Proof.
  apply (quiet_single _ (fun _ => EvTLS tHandshake)); [|reflexivity].
  intros m a m'. unfold call_tlsHandshake.
  destruct (tlsHandshake tc conf (m_conn m) (m_session m)) as [[c s] r].
  now intros [= <- <-].
Qed.

Lemma quiet_call_tls_Read (n : nat) : quiet (call_tls_Read n).
Proof.
  intros m a m'. unfold call_tls_Read.
  destruct (m_tls m) as [t|]; [|discriminate].
  destruct (tls_Read t (m_conn m) (m_session m) n) as [[[t' c] s] [got e]].
  intros [= <- <-]. now exists [EvTLS (tRead got e)].
Qed.

Lemma quiet_call_tls_Write (b : bytes) : quiet (call_tls_Write b).
Proof.
  intros m a m'. unfold call_tls_Write.
  destruct (m_tls m) as [t|]; [|discriminate].
  destruct (tls_Write t (m_conn m) (m_session m) b) as [[[t' c] s] [n e]].
  intros [= <- <-]. now exists [EvTLS (tWrite b e)].
Qed.

Ltac quiet_step :=
  match goal with
  | |- quiet (bind _ _) => apply quiet_bind; [|intros ?]
  | |- quiet (ret _) => apply quiet_ret
  | |- quiet (panic _) => apply quiet_panic
  | |- quiet (get _) => apply quiet_get
  | |- quiet (modify _) => apply quiet_modify; reflexivity
  | |- quiet (logger _ _ _) => apply quiet_emit; reflexivity
  | |- quiet (emit _) => apply quiet_emit; reflexivity
  | |- quiet call_readPacket => apply quiet_call_readPacket
  | |- quiet call_SendHardReset => apply quiet_call_SendHardReset
  | |- quiet (call_SendACK _) => apply quiet_call_SendACK
  | |- quiet call_ControlMessage => apply quiet_call_ControlMessage
  | |- quiet (call_SetupKeys _) => apply quiet_call_SetupKeys
  | |- quiet (call_tlsHandshake _ _) => apply quiet_call_tlsHandshake
  | |- quiet (call_tls_Read _) => apply quiet_call_tls_Read
  | |- quiet (call_tls_Write _) => apply quiet_call_tls_Write
  | |- quiet (match ?x with _ => _ end) => destruct x
  end.

Lemma quiet_call_ParseHardReset (resp : bytes) : quiet (call_ParseHardReset resp).
Proof. unfold call_ParseHardReset. repeat quiet_step. Qed.

Lemma quiet_call_PushRequest : quiet call_PushRequest.
Proof. unfold call_PushRequest. repeat quiet_step. Qed.

Lemma quiet_call_ReadPushResponse (resp : bytes) : quiet (call_ReadPushResponse resp).
Proof. unfold call_ReadPushResponse. repeat quiet_step. Qed.

Lemma quiet_call_ReadControlMessage (b : bytes) : quiet (call_ReadControlMessage b).
Proof. unfold call_ReadControlMessage. repeat quiet_step. Qed.

Lemma quiet_Reset : quiet Reset.
Proof.
  unfold Reset. repeat (quiet_step || apply quiet_call_ParseHardReset).
Qed.

Lemma quiet_readTLSPacket : quiet readTLSPacket.
Proof. unfold readTLSPacket. repeat quiet_step. Qed.

Lemma quiet_readAndLoadRemoteKey : quiet readAndLoadRemoteKey.
Proof.
  unfold readAndLoadRemoteKey.
  repeat (quiet_step || apply quiet_readTLSPacket || apply quiet_call_ReadControlMessage).
Qed.

Lemma quiet_sendPushRequest : quiet sendPushRequest.
Proof. unfold sendPushRequest. repeat (quiet_step || apply quiet_call_PushRequest). Qed.

Lemma quiet_readPushReply : quiet readPushReply.
Proof.
  unfold readPushReply.
  repeat (quiet_step || apply quiet_readTLSPacket || apply quiet_call_ReadPushResponse).
Qed.

Lemma quiet_sendControlMessage : quiet sendControlMessage.
Proof. unfold sendControlMessage. repeat quiet_step. Qed.

Lemma quiet_InitDataWithRemoteKey : quiet InitDataWithRemoteKey.
Proof.
  unfold InitDataWithRemoteKey.
  repeat (quiet_step || apply quiet_sendControlMessage
          || apply quiet_readAndLoadRemoteKey || apply quiet_sendPushRequest
          || apply quiet_readPushReply).
Qed.

Lemma quiet_Handshake : quiet Handshake.
Proof.
  unfold Handshake.
  repeat (quiet_step || apply quiet_Reset || apply quiet_InitDataWithRemoteKey).
Qed.

(** ** [Reset] *)

(** What a successful [Reset] adds to the trace, given the server's hard
    reset [resp] and the two session ids it logs. *)
Definition Reset_events (resp : bytes) (remoteID localID : sessionID) : list event :=
  [EvControl cSendHardReset;
   EvReadPacket (Ok resp);
   EvControl (cParseHardReset resp);
   EvLog lvlInfo "Remote session ID: %x" [argBytes remoteID];
   EvLog lvlInfo "Local session ID:  %x" [argBytes localID];
   EvControl (cSendACK 0)].

Ltac run_Reset :=
  unfold Reset, call_SendHardReset, call_readPacket, call_ParseHardReset,
    call_SendACK, logger, emit, modify, get, bind, ret;
  cbn [m_conn m_tls m_data m_bufReader m_session m_tunnel m_options m_trace
       set_conn set_tls set_data set_bufReader set_session set_tunnel set_trace].

(** C5.  Whenever the server's hard reset is accepted (it was read from the
    transport and [ParseHardReset] returned a session id), [Reset] records
    the id in the session, calls [SendACK] for packet-id 0 on that session
    as its last action, and returns [nil]; and every run of [Reset] that
    returns [nil] is such a run. *)
Theorem Reset_acks_packet_id_0 (m : muxer) :
  (forall c1 s1 c2 resp sid,
     SendHardReset (m_conn m) (m_session m) = (c1, s1) ->
     readPacket c1 = (c2, Ok resp) ->
     ParseHardReset resp = Ok sid ->
     exists m',
       Reset m = Done None m' /\
       m_trace m' = m_trace m ++ Reset_events resp sid (LocalSessionID s1) /\
       m_conn m' = fst (fst (SendACK c2 (set_RemoteSessionID s1 sid) 0)) /\
       m_session m' = snd (fst (SendACK c2 (set_RemoteSessionID s1 sid) 0))) /\
  (forall m',
     Reset m = Done None m' ->
     exists resp sid localID,
       ParseHardReset resp = Ok sid /\
       m_trace m' = m_trace m ++ Reset_events resp sid localID).
Proof.
  split.
  - intros c1 s1 c2 resp sid H1 H2 H3. run_Reset.
    rewrite H1. cbn. rewrite H2. cbn. rewrite H3. cbn.
    destruct (SendACK c2 (set_RemoteSessionID s1 sid) 0) as [[c3 s3] e] eqn:H4.
    cbn. eexists. split; [reflexivity|]. cbn.
    rewrite <- !app_assoc. repeat split.
  - intros m'. run_Reset.
    destruct (SendHardReset (m_conn m) (m_session m)) as [c1 s1]. cbn.
    destruct (readPacket c1) as [c2 [resp|e]]; cbn; [|discriminate].
    destruct (ParseHardReset resp) as [sid|e] eqn:H3; cbn; [|discriminate].
    destruct (SendACK c2 (set_RemoteSessionID s1 sid) 0) as [[c3 s3] e]. cbn.
    intros [= <-]. exists resp, sid, (LocalSessionID s1).
    split; [exact H3|]. cbn. rewrite <- !app_assoc. reflexivity.
Qed.

(** ** [Handshake], step by step *)

(** [Handshake] started in [m] has come through [Reset] and the TLS
    handshake and is about to call [InitDataWithRemoteKey] in [m3]. *)
Definition tls_established (m m3 : muxer) : Prop :=
  exists m1 conf tc m2 t,
    Reset m = Done None m1 /\
    initTLS (m_session m1) (m_options m1) = Ok conf /\
    NewTLSConn (m_conn m1) (m_session m1) = Ok tc /\
    call_tlsHandshake tc conf m1 = Done (Ok t) m2 /\
    m3 = set_trace (set_tls m2 (Some t))
                   (m_trace m2 ++ [EvLog lvlInfo "TLS handshake done" []]).

(** [InitDataWithRemoteKey] started in [m3] has sent the control message,
    loaded the server's, set up the keys and sent the push request, and is
    about to call [readPushReply] in [m8]. *)
Definition push_request_sent (m3 m8 : muxer) : Prop :=
  exists m5 m6 key0 m7 n,
    sendControlMessage m3 = Done None m5 /\
    readAndLoadRemoteKey m5 = Done None m6 /\
    ActiveKey (m_session m6) = Ok key0 /\
    call_SetupKeys key0 m6 = Done None m7 /\
    sendPushRequest m7 = Done (n, None) m8.

Ltac run_monad :=
  unfold logger, emit, modify, get, bind, ret;
  cbn [m_conn m_tls m_data m_bufReader m_session m_tunnel m_options m_trace
       set_conn set_tls set_data set_bufReader set_session set_tunnel set_trace].

Lemma Handshake_after_tls (m m3 : muxer) :
  tls_established m m3 ->
  Handshake m =
    match InitDataWithRemoteKey m3 with
    | Done (Some err) m4 => Done (Some err) m4
    | Done None m4 =>
        Done None (set_trace m4 (m_trace m4 ++ [EvLog lvlInfo "VPN handshake done" []]))
    | Panic why => Panic why
    end.
Proof.
  intros (m1 & conf & tc & m2 & t & H1 & H2 & H3 & H4 & ->).
  unfold Handshake. run_monad.
  rewrite H1; cbn beta iota. rewrite H2; cbn beta iota.
  rewrite H3; cbn beta iota. rewrite H4; cbn beta iota.
  destruct (InitDataWithRemoteKey _) as [[err|] m4|why]; reflexivity.
Qed.

Lemma InitData_after_push_request (m3 m8 : muxer) :
  push_request_sent m3 m8 ->
  InitDataWithRemoteKey m3 = readPushReply m8.
Proof.
  intros (m5 & m6 & key0 & m7 & n & H1 & H2 & H3 & H4 & H5).
  unfold InitDataWithRemoteKey. run_monad.
  rewrite H1; cbn beta iota. rewrite H2; cbn beta iota.
  rewrite H3; cbn beta iota. rewrite H4; cbn beta iota.
  rewrite H5; cbn beta iota. cbn [snd].
  destruct (readPushReply m8) as [[err|] m9|why]; reflexivity.
Qed.

Lemma readPushReply_auth_failed (m m' : muxer) (reply : bytes) :
  readTLSPacket m = Done (reply, None) m' ->
  isBadAuthReply reply = true ->
  readPushReply m =
    Done (Some errBadAuth)
         (set_trace m' (m_trace m' ++ [EvLog lvlInfo "Server pushed options" []])).
Proof.
  intros H Hbad. unfold readPushReply. run_monad.
  rewrite H; cbn beta iota. rewrite Hbad. reflexivity.
Qed.

Lemma readAndLoadRemoteKey_not_control_message (m m' : muxer) (reply : bytes) :
  readTLSPacket m = Done (reply, None) m' ->
  isControlMessage reply = false ->
  readAndLoadRemoteKey m =
    Done (Some (Errorf_w_text errBadControlMessage "expected null header")) m'.
Proof.
  intros H Hc. unfold readAndLoadRemoteKey. run_monad.
  rewrite H; cbn beta iota. rewrite Hc. reflexivity.
Qed.

(** A reply that starts with ["AUTH_FAILED"] does not start with the four
    null bytes of a control message. *)
Lemma auth_failed_is_no_control_message (reply : bytes) :
  isBadAuthReply reply = true -> isControlMessage reply = false.
Proof.
  unfold isBadAuthReply, isControlMessage. intros H.
  destruct reply as [|b rest]; [discriminate H|].
  destruct b; try (cbn in H; discriminate H); reflexivity.
Qed.

Lemma bad_control_message_is_not_AuthFailed (text : string) :
  ~ errors_Is (Errorf_w_text errBadControlMessage text) errBadAuth.
Proof.
  unfold errors_Is. cbn. intros [H|[H|[]]]; discriminate.
Qed.

(** C6, as the code has it.  Once the TLS channel is up: if the server's
    answer to the push request bears the ["AUTH_FAILED"] prefix,
    [Handshake] fails with [errBadAuth]; if a reply with that prefix comes
    where the server's control message is expected, [Handshake] fails with
    [errBadControlMessage] ("expected null header"), which is not
    [errBadAuth] and does not wrap it. *)
Theorem AUTH_FAILED_is_recognised_in_the_push_reply (m m3 : muxer) :
  tls_established m m3 ->
  (forall m8 reply m9,
     push_request_sent m3 m8 ->
     readTLSPacket m8 = Done (reply, None) m9 ->
     isBadAuthReply reply = true ->
     exists m', Handshake m = Done (Some errBadAuth) m') /\
  (forall m5 reply m6,
     sendControlMessage m3 = Done None m5 ->
     readTLSPacket m5 = Done (reply, None) m6 ->
     isBadAuthReply reply = true ->
     Handshake m =
       Done (Some (Errorf_w_text errBadControlMessage "expected null header")) m6 /\
     ~ errors_Is (Errorf_w_text errBadControlMessage "expected null header") errBadAuth).
Proof.
  intros Htls. split.
  - intros m8 reply m9 Hpush Hread Hbad.
    rewrite (Handshake_after_tls _ _ Htls), (InitData_after_push_request _ _ Hpush).
    rewrite (readPushReply_auth_failed _ _ _ Hread Hbad). eexists. reflexivity.
  - intros m5 reply m6 Hsend Hread Hbad. split.
    + rewrite (Handshake_after_tls _ _ Htls).
      unfold InitDataWithRemoteKey. run_monad.
      rewrite Hsend; cbn beta iota.
      rewrite (readAndLoadRemoteKey_not_control_message _ _ _ Hread
                 (auth_failed_is_no_control_message _ Hbad)).
      reflexivity.
    + apply bad_control_message_is_not_AuthFailed.
Qed.

(** ** Keys before payload *)

Lemma nth_error_set_nth {A : Type} (l : list A) (i : nat) (x y : A) :
  nth_error l i = Some y -> nth_error (set_nth i x l) i = Some x.
Proof.
  revert i. induction l as [|h t IH]; intros [|i]; cbn; try discriminate.
  - reflexivity.
  - apply IH.
Qed.

Lemma ActiveKey_set_ActiveKey (s : session) (k k' : dataChannelKey) :
  ActiveKey s = Ok k -> ActiveKey (set_ActiveKey s k') = Ok k'.
Proof.
  unfold ActiveKey, set_ActiveKey. cbn.
  destruct (nth_error (keys s) (keyID s)) as [k0|] eqn:E; [|discriminate].
  intros _. now rewrite (nth_error_set_nth _ _ k' k0 E).
Qed.

(** When [readAndLoadRemoteKey] returns [nil], the active key slot of the
    session holds a remote [KeySource]. *)
Lemma readAndLoadRemoteKey_loads (m m' : muxer) :
  readAndLoadRemoteKey m = Done None m' ->
  exists k ks, ActiveKey (m_session m') = Ok k /\ remote k = Some ks.
Proof.
  unfold readAndLoadRemoteKey, readTLSPacket. run_monad.
  destruct (call_tls_Read _ m) as [[got [err|]] m1|why]; cbn beta iota;
    try discriminate.
  destruct (negb (isControlMessage _)); [discriminate|].
  unfold call_ReadControlMessage. run_monad.
  destruct (ReadControlMessage _) as [[remoteKey opts]|err];
    [|intros H; discriminate H].
  run_monad.
  destruct (ActiveKey (m_session m1)) as [key|err] eqn:E;
    [|intros H; discriminate H].
  intros [= <-]. cbn [m_session set_session set_tunnel set_trace].
  exists (addRemoteKey key remoteKey), remoteKey.
  split; [now apply (ActiveKey_set_ActiveKey _ key)|reflexivity].
Qed.

(** A successful [InitDataWithRemoteKey] has called [SetupKeys], which
    returned [nil], on an active key slot that holds the remote
    [KeySource]. *)
Lemma InitData_sets_up_keys (m m' : muxer) :
  InitDataWithRemoteKey m = Done None m' ->
  exists k ks pre post,
    m_trace m' = m_trace m ++ pre ++ EvData (dSetupKeys k None) :: post /\
    remote k = Some ks.
Proof.
  unfold InitDataWithRemoteKey. unfold bind at 1.
  destruct (sendControlMessage m) as [[err|] m1|why] eqn:H1; try discriminate.
  unfold bind at 1.
  destruct (readAndLoadRemoteKey m1) as [[err|] m2|why] eqn:H2; try discriminate.
  unfold bind at 1, get.
  destruct (readAndLoadRemoteKey_loads _ _ H2) as (k & ks & Hk & Hks).
  rewrite Hk. unfold bind at 1.
  destruct (call_SetupKeys k m2) as [[err|] m3|why] eqn:H3; try discriminate.
  intros H4.
  destruct (quiet_sendControlMessage _ _ _ H1) as (e1 & T1 & _).
  destruct (quiet_readAndLoadRemoteKey _ _ _ H2) as (e2 & T2 & _).
  assert (T3 : m_trace m3 = m_trace m2 ++ [EvData (dSetupKeys k None)]).
  { revert H3. unfold call_SetupKeys.
    destruct (SetupKeys (m_data m2) (m_session m2) k) as [[d s] e].
    intros [= -> <-]. reflexivity. }
  assert (Q : quiet (bind sendPushRequest (fun r =>
                     match snd r with
                     | Some err => ret (Some err)
                     | None => bind readPushReply (fun e =>
                               match e with
                               | Some err => ret (Some err)
                               | None => ret None
                               end)
                     end))).
  { repeat (quiet_step || apply quiet_sendPushRequest || apply quiet_readPushReply). }
  destruct (Q _ _ _ H4) as (e4 & T4 & _).
  exists k, ks, (e1 ++ e2), e4. split; [|exact Hks].
  rewrite T4, T3, T2, T1, <- !app_assoc. reflexivity.
Qed.

Lemma In_is_write (evs : list event) (b : bytes) :
  existsb is_write evs = false -> ~ In (EvData (dWritePacket b)) evs.
Proof.
  intros H Hin.
  assert (existsb is_write evs = true)
    by (apply existsb_exists; eexists; split; [exact Hin|reflexivity]).
  congruence.
Qed.

(** The muxer's part in the order of keys and payload, for any data
    handler.  No payload is handed to the data channel in the course of
    [Handshake], and a [Handshake] that returns [nil] has called
    [SetupKeys], which returned [nil], on the active key slot after the
    remote [KeySource] was stored in it.  [Write] itself checks nothing: in
    any state of the muxer it passes the payload to [WritePacket] and
    returns what that returns. *)
Theorem payload_after_keys_only_by_Handshake_order (m : muxer) :
  (forall r m',
     Handshake m = Done r m' ->
     exists evs,
       m_trace m' = m_trace m ++ evs /\
       (forall b, ~ In (EvData (dWritePacket b)) evs) /\
       (r = None ->
        exists k ks, In (EvData (dSetupKeys k None)) evs /\ remote k = Some ks)) /\
  (forall b,
     Write b m =
       Done (snd (WritePacket (m_data m) (m_session m) (m_conn m) b))
            (set_trace
               (set_conn
                  (set_session
                     (set_data m (fst (fst (fst (WritePacket (m_data m) (m_session m) (m_conn m) b)))))
                     (snd (fst (fst (WritePacket (m_data m) (m_session m) (m_conn m) b)))))
                  (snd (fst (WritePacket (m_data m) (m_session m) (m_conn m) b))))
               (m_trace m ++ [EvData (dWritePacket b)]))).
Proof.
  split.
  - intros r m' H.
    destruct (quiet_Handshake _ _ _ H) as (evs & T & Q).
    exists evs. split; [exact T|]. split; [intros b; now apply In_is_write|].
    intros ->. revert H. unfold Handshake. unfold bind at 1.
    destruct (Reset m) as [[err|] m1|why] eqn:H1; try discriminate.
    run_monad.
    destruct (initTLS _ _) as [conf|err]; [|discriminate].
    destruct (NewTLSConn _ _) as [tc|err]; [|discriminate].
    destruct (call_tlsHandshake tc conf m1) as [[t|err] m2|why] eqn:H2;
      try discriminate.
    destruct (InitDataWithRemoteKey _) as [[err|] m4|why] eqn:H3;
      try discriminate.
    intros [= <-].
    destruct (InitData_sets_up_keys _ _ H3) as (k & ks & pre & post & T3 & Hks).
    exists k, ks. split; [|exact Hks].
    cbn in T, T3.
    destruct (quiet_Reset _ _ _ H1) as (e1 & T1 & _).
    destruct (quiet_call_tlsHandshake _ _ _ _ _ H2) as (e2 & T2 & _).
    rewrite T3, T2, T1, <- !app_assoc in T.
    apply app_inv_head in T. subst evs.
    rewrite !in_app_iff. do 4 right. left. now left.
  - intros b. unfold Write, call_WritePacket.
    destruct (WritePacket (m_data m) (m_session m) (m_conn m) b) as [[[d s] c] r].
    reflexivity.
Qed.

End Handshaking.

End MuxerFacts.

(* ================================================================== *)
(** * The multiplexer against the scripted peer *)
(* ================================================================== *)

Module Scenarios.
Import Muxer Loopback MuxerFacts.

Abbreviation Read := (@Muxer.Read Conn TLS Data Options packet dataH pkg).
Abbreviation Write := (@Muxer.Write Conn TLS Data Options packet dataH).
Abbreviation handleIncomingPacket :=
  (@Muxer.handleIncomingPacket Conn TLS Data Options packet dataH pkg).

(** Conjunctions of closed equations, each settled by evaluation. *)
Ltac evaluate :=
  unfold to_decrypt;
  repeat match goal with |- _ /\ _ => split end; vm_compute; reflexivity.

(** The state a terminated [Read] leaves. *)
Definition after_Read (fuel n : nat) (m : mux) : mux :=
  match Read fuel n m with
  | Some r => state_of r
  | None => blank
  end.

(** What was appended to the trace between two states. *)
Definition events_since (m m' : mux) : list (event packet) :=
  skipn (length (m_trace m)) (m_trace m').

Definition data_packet (body : bytes) : packet :=
  {| p_opcode := 6; p_keyID := 0; p_payload := body |}.

(** ** After the handshake: reading *)

(** The handshake with the well-behaved server succeeds. *)
Lemma handshake_with_good_server :
  Handshake m_good = Done None (after_handshake m_good).
Proof. vm_compute. reflexivity. Qed.

(** The transport is closed (every read fails with [io.EOF]). *)
Definition m_closed : mux := ready_with [].

(** A control packet, then a data packet. *)
Definition m_control_then_data : mux := ready_with [Ok controlPacket; Ok helloPacket].

(** A server ping. *)
Definition m_ping : mux := ready_with [Ok pingPacket].

(** A forged data packet, then a good one. *)
Definition m_forged_then_data : mux := ready_with [Ok forgedPacket; Ok helloPacket].

(** Everything at once: [Read] skips a control packet, an ACK, a transport
    error and a forged packet, and returns the first good payload. *)
Example Read_skips_to_first_payload :
  Read 5 100 (ready_with [Ok controlPacket; Ok ackPacket; Err (errExternal "timeout");
                          Ok forgedPacket; Ok helloPacket; Ok helloPacket])
  = Some (Done (ascii_bytes "hello", None)
               (after_Read 5 100
                  (ready_with [Ok controlPacket; Ok ackPacket; Err (errExternal "timeout");
                               Ok forgedPacket; Ok helloPacket; Ok helloPacket]))).
Proof. vm_compute. reflexivity. Qed.

Lemma closed_transport_stays_closed (c : Conn) :
  rx c = [] -> exists c' e, readPacket c = (c', Err e) /\ rx c' = [].
Proof.
  intros H. exists c, io_EOF. cbn. rewrite H. split; reflexivity.
Qed.

(** C1, refuted as stated.  After a successful handshake the transport is
    closed.  The first iteration of [Read] sees the transport error and
    logs it, and [Read] does not return, with the error or otherwise,
    however long it runs. *)
Lemma Read_spins_on_closed_transport :
  handleIncomingPacket m_closed =
    Done false (after_read m_closed (m_conn m_closed) (Err io_EOF)
                  [EvLog lvlError "%s" [argErr io_EOF]]) /\
  ~ (exists fuel r, Read fuel 100 m_closed = Some r).
Proof.
  split.
  - apply step_transport_error. vm_compute. reflexivity.
  - intros (fuel & r & H). unfold Muxer.Read in H.
    rewrite (pull_on_failing_transport (fun c => rx c = [])
               closed_transport_stays_closed fuel m_closed) in H.
    + discriminate H.
    + vm_compute. reflexivity.
Qed.

(** ** Control packets in the data phase *)

Lemma control_packet_witness :
  readPacket (m_conn m_control_then_data)
    = (m_conn (with_rx m_control_then_data [Ok helloPacket]), Ok controlPacket) /\
  parsePacketFromBytes controlPacket
    = Ok {| p_opcode := 4; p_keyID := 0; p_payload := [x00; x00; x00; x07] |} /\
  exists reports,
    handleIncomingPacket m_control_then_data =
      Done false (after_read m_control_then_data
                    (m_conn (with_rx m_control_then_data [Ok helloPacket]))
                    (Ok controlPacket) reports) /\
    forallb is_report reports = true.
Proof.
  split; [vm_compute; reflexivity|]. split; [vm_compute; reflexivity|].
  destruct (control_and_ack_packets_are_only_reported
              m_control_then_data
              (m_conn (with_rx m_control_then_data [Ok helloPacket]))
              controlPacket
              {| p_opcode := 4; p_keyID := 0; p_payload := [x00; x00; x00; x07] |})
    as (reports & H1 & H2 & _).
  - vm_compute. reflexivity.
  - vm_compute. reflexivity.
  - right. vm_compute. reflexivity.
  - exists reports. split; assumption.
Defined.

(** C2, refuted as stated.  A control packet arrives while the user reads;
    the [Read] returns the data packet behind it, and the user then writes.
    Between the arrival and the end of the write no method of the control
    handler was called, and the only packet that left is the user's data
    packet: the control packet's id was acknowledged nowhere. *)
Lemma control_packet_is_never_acked :
  Read 2 100 m_control_then_data
    = Some (Done (ascii_bytes "hello", None) (after_Read 2 100 m_control_then_data)) /\
  Write (ascii_bytes "ok") (after_Read 2 100 m_control_then_data)
    = Done (2, None) (state_of (Write (ascii_bytes "ok") (after_Read 2 100 m_control_then_data))) /\
  events_since m_control_then_data
      (state_of (Write (ascii_bytes "ok") (after_Read 2 100 m_control_then_data)))
    = [EvReadPacket (Ok controlPacket);
       EvLog lvlInfo "Got control packet: %d" [argInt 5];
       EvPrint [x00; x00; x00; x07];
       EvReadPacket (Ok helloPacket);
       EvData (dReadPacket (data_packet (xa5 :: ascii_bytes "hello")) (Ok (ascii_bytes "hello")));
       EvData (dWritePacket (ascii_bytes "ok"))] /\
  tx (m_conn (state_of (Write (ascii_bytes "ok") (after_Read 2 100 m_control_then_data))))
    = tx (m_conn m_control_then_data) ++ [x30 :: xa5 :: ascii_bytes "ok"].
Proof. evaluate. Qed.

(** ** A server ping *)

Lemma server_ping_witness :
  isPing pingPacket = false /\
  exists m',
    handleIncomingPacket m_ping = Done true m' /\
    m_bufReader m' = m_bufReader m_ping ++ pingPayload /\
    m_trace m' = m_trace m_ping ++
                 [EvReadPacket (Ok pingPacket);
                  EvData (dReadPacket (data_packet (xa5 :: pingPayload)) (Ok pingPayload))].
Proof.
  split; [vm_compute; reflexivity|].
  destruct (ping_plaintext_is_delivered
              m_ping (m_conn (with_rx m_ping [])) pingPacket
              (data_packet (xa5 :: pingPayload))
              (m_data m_ping) (m_session m_ping))
    as (m' & H1 & H2 & H3 & _).
  - vm_compute. reflexivity.
  - evaluate.
  - vm_compute. reflexivity.
  - exists m'. split; [exact H1|]. split; [exact H2|exact H3].
Defined.

(** C3 on a run.  The server's ping reaches the user: the pending [Read]
    returns the sixteen bytes of the magic, and nothing was written to the
    transport. *)
Example server_ping_reaches_the_user :
  Read 1 100 m_ping = Some (Done (pingPayload, None) (after_Read 1 100 m_ping)) /\
  events_since m_ping (after_Read 1 100 m_ping)
    = [EvReadPacket (Ok pingPacket);
       EvData (dReadPacket (data_packet (xa5 :: pingPayload)) (Ok pingPayload))] /\
  tx (m_conn (after_Read 1 100 m_ping)) = tx (m_conn m_ping).
Proof. evaluate. Qed.

(** The reflex fires only on a packet that is the magic on the wire (here
    a bare DATA_V1 header byte would have to be part of it, so the packet
    is given with opcode 5 bits [00101], the first byte of the magic, and
    is taken for an ACK before the test is reached). *)
Example magic_on_the_wire_is_taken_for_an_ack :
  handleIncomingPacket (ready_with [Ok pingPayload])
  = Done false (after_read (ready_with [Ok pingPayload])
                  (m_conn (with_rx (ready_with [Ok pingPayload]) []))
                  (Ok pingPayload)
                  [EvLog lvlWarn "muxer: got ACK (ignored)" []]).
Proof. vm_compute. reflexivity. Qed.

(** ** A forged data packet *)

Lemma forged_packet_witness :
  ReadPacket (m_data m_forged_then_data) (m_session m_forged_then_data)
             (data_packet (x00 :: ascii_bytes "hello"))
    = (m_data m_forged_then_data, m_session m_forged_then_data,
       Err (errExternal "bad authentication")) /\
  forall fuel n,
    Read (S fuel) n m_forged_then_data =
    Read fuel n (after_decrypt m_forged_then_data
                   (m_conn (with_rx m_forged_then_data [Ok helloPacket]))
                   forgedPacket (data_packet (x00 :: ascii_bytes "hello"))
                   (m_data m_forged_then_data) (m_session m_forged_then_data)
                   (Err (errExternal "bad authentication"))
                   [EvLog lvlError "bad decryption: %s"
                      [argErr (errExternal "bad authentication")]]).
Proof.
  split; [vm_compute; reflexivity|].
  apply (rejected_data_packet_is_dropped_and_logged
           m_forged_then_data
           (m_conn (with_rx m_forged_then_data [Ok helloPacket]))
           forgedPacket (data_packet (x00 :: ascii_bytes "hello"))
           (m_data m_forged_then_data) (m_session m_forged_then_data)
           (errExternal "bad authentication")).
  - vm_compute. reflexivity.
  - evaluate.
  - vm_compute. reflexivity.
Defined.

(** A forged data packet in front of the scripted data handler, which
    keeps no count.  The packet is dropped, and the muxer after it is the
    muxer before it but for the transport, which moved on by one packet,
    and the trace, which gained the read, the failed [ReadPacket] and one
    log line: the muxer logs the failure and counts nothing itself. *)
Lemma forged_packet_is_logged_not_counted :
  handleIncomingPacket m_forged_then_data =
    Done false
      (set_trace (with_rx m_forged_then_data [Ok helloPacket])
         (m_trace m_forged_then_data ++
          [EvReadPacket (Ok forgedPacket);
           EvData (dReadPacket (data_packet (x00 :: ascii_bytes "hello"))
                               (Err (errExternal "bad authentication")));
           EvLog lvlError "bad decryption: %s"
                 [argErr (errExternal "bad authentication")]])) /\
  m_data (state_of (handleIncomingPacket m_forged_then_data)) = m_data m_forged_then_data /\
  m_session (state_of (handleIncomingPacket m_forged_then_data)) = m_session m_forged_then_data /\
  m_bufReader (state_of (handleIncomingPacket m_forged_then_data)) = m_bufReader m_forged_then_data.
Proof. evaluate. Qed.

(** ** The handshake *)

Lemma Reset_witness :
  exists m',
    Reset m_good = Done None m' /\
    m_trace m' = m_trace m_good ++
                 Reset_events hardResetServer serverSessionID
                   [x01; x02; x03; x04; x05; x06; x07; x08] /\
    tx (m_conn m') = [[x38]; [x28; x00]].
Proof.
  destruct (proj1 (Reset_acks_packet_id_0 m_good)
              (send (m_conn m_good) [x38]) (m_session m_good)
              (m_conn (with_rx (set_conn m_good (send (m_conn m_good) [x38])) []))
              hardResetServer serverSessionID)
    as (m' & H1 & H2 & H3 & _).
  - vm_compute. reflexivity.
  - vm_compute. reflexivity.
  - vm_compute. reflexivity.
  - exists m'. split; [exact H1|]. split; [exact H2|].
    rewrite H3. vm_compute. reflexivity.
Defined.

(** The states a handshake goes through, by running it step by step. *)
Definition at_tls (m : mux) : mux :=
  let m1 := state_of (Reset m) in
  let m2 := state_of (call_tlsHandshake (pkg:=pkg) tt tt m1) in
  set_trace (set_tls m2 (Some {| tls_rx := tls_script (m_conn m1); tls_tx := [] |}))
            (m_trace m2 ++ [EvLog lvlInfo "TLS handshake done" []]).

Definition at_remote_key (m : mux) : mux := state_of (sendControlMessage (at_tls m)).

Definition loaded_key : dataChannelKey :=
  {| ready := true; local := Some someKeySource; remote := Some serverKeySource |}.

Definition at_push_reply (m : mux) : mux :=
  state_of (sendPushRequest
              (state_of (call_SetupKeys loaded_key
                           (state_of (readAndLoadRemoteKey (at_remote_key m)))))).

Lemma tls_is_established (m : mux) :
  rx (m_conn m) = [Ok hardResetServer] ->
  tx (m_conn m) = [] ->
  m_trace m = [] ->
  tls_established m (at_tls m).
Proof.
  destruct m as [[r t ts] tl d b s tn o tr]. cbn. intros -> -> ->.
  unfold tls_established.
  exists (state_of (Reset {| m_conn := {| rx := [Ok hardResetServer]; tx := []; tls_script := ts |};
                            m_tls := tl; m_data := d; m_bufReader := b; m_session := s;
                            m_tunnel := tn; m_options := o; m_trace := [] |})),
    tt, tt.
  eexists. eexists.
  split; [reflexivity|]. split; [reflexivity|]. split; [reflexivity|].
  split; reflexivity.
Qed.

Lemma AUTH_FAILED_push_reply_witness :
  isBadAuthReply (copy (make 4096) authFailed) = true /\
  exists m', Handshake m_auth_at_push = Done (Some errBadAuth) m'.
Proof.
  split; [vm_compute; reflexivity|].
  apply (proj1 (AUTH_FAILED_is_recognised_in_the_push_reply
                  m_auth_at_push (at_tls m_auth_at_push)
                  (tls_is_established m_auth_at_push eq_refl eq_refl eq_refl))
           (at_push_reply m_auth_at_push)
           (copy (make 4096) authFailed)
           (state_of (readTLSPacket (at_push_reply m_auth_at_push)))).
  - exists (at_remote_key m_auth_at_push),
      (state_of (readAndLoadRemoteKey (at_remote_key m_auth_at_push))),
      loaded_key,
      (state_of (call_SetupKeys loaded_key
                   (state_of (readAndLoadRemoteKey (at_remote_key m_auth_at_push))))),
      13.
    evaluate.
  - vm_compute. reflexivity.
  - vm_compute. reflexivity.
Defined.

(** Whether the trace records that the TLS channel delivered [reply]. *)
Definition tls_delivered (reply : bytes) (tr : list (event packet)) : bool :=
  existsb (fun e => match e with
                    | EvTLS (tRead got None) => bytes_eqb got reply
                    | _ => false
                    end) tr.

(** C6, refuted as stated.  The server sends [AUTH_FAILED] over the TLS
    channel instead of its control message.  [Handshake] fails, but with
    [errBadControlMessage], which neither is nor wraps [errBadAuth]. *)
Lemma AUTH_FAILED_instead_of_control_message :
  Handshake m_auth_at_control =
    Done (Some (Errorf_w_text errBadControlMessage "expected null header"))
         (after_handshake m_auth_at_control) /\
  tls_delivered authFailed (m_trace (after_handshake m_auth_at_control)) = true /\
  isBadAuthReply (copy (make 4096) authFailed) = true /\
  ~ errors_Is (Errorf_w_text errBadControlMessage "expected null header") errBadAuth.
Proof.
  split; [vm_compute; reflexivity|]. split; [vm_compute; reflexivity|].
  split; [vm_compute; reflexivity|]. apply bad_control_message_is_not_AuthFailed.
Qed.

(** ** Writing *)

Lemma Handshake_order_witness :
  exists evs,
    m_trace (after_handshake m_good) = m_trace m_good ++ evs /\
    (forall b, ~ In (EvData (dWritePacket b)) evs) /\
    exists k ks, In (EvData (dSetupKeys k None)) evs /\ remote k = Some ks.
Proof.
  destruct (proj1 (payload_after_keys_only_by_Handshake_order m_good)
              None (after_handshake m_good) handshake_with_good_server)
    as (evs & H1 & H2 & H3).
  exists evs. split; [exact H1|]. split; [exact H2|]. apply H3. reflexivity.
Defined.

(** A muxer just built, on which nothing has run. *)
Definition m_fresh : mux := fresh [] [].

(** [Write] on a muxer just built, in front of the scripted data handler,
    which does not look at its keys: no handshake has run, the active key
    slot has no remote [KeySource], [SetupKeys] was never called.  The
    muxer hands the payload to [WritePacket] all the same; whether it goes
    out is the data handler's decision, and this one sends it. *)
Lemma Write_before_keys_transmits :
  ActiveKey (m_session m_fresh)
    = Ok {| ready := false; local := Some someKeySource; remote := None |} /\
  m_trace m_fresh = [] /\
  Write (ascii_bytes "hi") m_fresh
    = Done (2, None) (state_of (Write (ascii_bytes "hi") m_fresh)) /\
  m_trace (state_of (Write (ascii_bytes "hi") m_fresh))
    = [EvData (dWritePacket (ascii_bytes "hi"))] /\
  tx (m_conn (state_of (Write (ascii_bytes "hi") m_fresh)))
    = [x30 :: xa5 :: ascii_bytes "hi"].
Proof. evaluate. Qed.

End Scenarios.

(* ================================================================== *)
(** * The multiplexer over the data handler of the specification *)
(* ================================================================== *)

Module SpecDataFacts.
Import Muxer MuxerFacts SpecData.

Section OverSpecData.

Context {Conn TLS Options packet : Type}.
Context {control : controlHandler Conn Options}.
Context {pkg : vpnPackage Conn TLS data Options packet}.

Variable conn_Write : Conn -> bytes -> Conn * (Z * option error).
Variable key_schedule :
  keySource -> keySource -> sessionID -> sessionID -> (bytes * bytes) * (bytes * bytes).
Variable encrypt : bytes -> bytes -> Z -> bytes -> bytes.
Variable decrypt : bytes -> bytes -> bytes -> option (Z * bytes).
Variable compression_stub : bool.

#[local] Instance spec_handler : dataHandler data Conn packet :=
  handler conn_Write payload key_schedule encrypt decrypt compression_stub.

Abbreviation muxer := (muxer Conn TLS data Options packet).
Abbreviation event := (event packet).
Abbreviation M := (@M Conn TLS data Options packet).
Abbreviation check := (@SpecData.check packet payload decrypt).

(** ** Rejected packets *)

(** The two failures of the inbound path: the tag or the HMAC does not
    verify, or the packet-id is refused by the replay window. *)
Inductive rejects (d : data) (p : packet) : error -> Prop :=
| rejects_authentication (st : DataChannelState) :
    in_state d = Some st ->
    decrypt (cipher_key st) (hmac_key st) (payload p) = None ->
    rejects d p errBadAuthentication
| rejects_replay (st : DataChannelState) (id : Z) (body : bytes) :
    in_state d = Some st ->
    decrypt (cipher_key st) (hmac_key st) (payload p) = Some (id, body) ->
    replayed st id = true ->
    rejects d p errReplay.

Lemma rejects_ReadPacket (d : data) (s : session) (p : packet) (e : error) :
  rejects d p e -> ReadPacket d s p = (count_failure d, s, Err e).
Proof.
  intros H. cbn. unfold data_ReadPacket, SpecData.check.
  destruct H as [st Hs Hd|st id body Hs Hd Hr]; rewrite Hs, Hd; [reflexivity|].
  rewrite Hr. reflexivity.
Qed.

(** ** What a run preserves *)

Section Preserving.

(** A property of the data handler and the trace that more trace does not
    undo. *)
Variable J : data -> list event -> Prop.
Hypothesis J_app : forall d t more, J d t -> J d (t ++ more).

(** [preserves c]: a run of [c] that starts with the property ends with it. *)
Definition preserves {A : Type} (c : M A) : Prop :=
  forall m a m', c m = Done a m' -> J (m_data m) (m_trace m) -> J (m_data m') (m_trace m').

Lemma preserves_ret {A : Type} (a : A) : preserves (ret a).
Proof. intros m a' m' [= _ <-] H. exact H. Qed.

Lemma preserves_panic {A : Type} (why : string) : preserves (@panic _ _ _ _ _ A why).
Proof. intros m a m' H. discriminate H. Qed.

Lemma preserves_bind {A C : Type} (c : M A) (k : A -> M C) :
  preserves c -> (forall a, preserves (k a)) -> preserves (bind c k).
Proof.
  intros Hc Hk m b m' H Hm. unfold bind in H.
  destruct (c m) as [a m1|w] eqn:E; [|discriminate H].
  exact (Hk a _ _ _ H (Hc _ _ _ E Hm)).
Qed.

Lemma preserves_emit (e : event) : preserves (emit e).
Proof. intros m a m' [= _ <-] H. now apply J_app. Qed.

Lemma preserves_get {A : Type} (g : muxer -> A) : preserves (get g).
Proof. intros m a m' [= _ <-] H. exact H. Qed.

Lemma preserves_modify (g : muxer -> muxer) :
  (forall m, m_data (g m) = m_data m) ->
  (forall m, m_trace (g m) = m_trace m) ->
  preserves (modify g).
Proof.
  intros Hd Ht m a m' [= _ <-] H. now rewrite Hd, Ht.
Qed.

(** A call that leaves the data handler alone and appends to the trace. *)
Lemma preserves_other_call {A : Type} (c : M A) :
  (forall m a m', c m = Done a m' ->
     m_data m' = m_data m /\ exists more, m_trace m' = m_trace m ++ more) ->
  preserves c.
Proof.
  intros Hc m a m' H Hm. destruct (Hc _ _ _ H) as (Hd & more & Ht).
  rewrite Hd, Ht. now apply J_app.
Qed.

Ltac other_call :=
  repeat match goal with
         | |- context [match m_tls ?m with _ => _ end] =>
             destruct (m_tls m); [|intros H; discriminate H]
         | |- context [let '_ := ?x in _] => destruct x
         | |- context [match ?x with (_, _) => _ end] => destruct x
         end;
  intros [= _ <-]; split; [reflexivity|eexists; reflexivity].

Lemma preserves_call_readPacket : preserves call_readPacket.
Proof.
  apply preserves_other_call; intros m a m'. unfold call_readPacket. other_call.
Qed.

Lemma preserves_call_SendHardReset : preserves call_SendHardReset.
Proof.
  apply preserves_other_call; intros m a m'. unfold call_SendHardReset. other_call.
Qed.

Lemma preserves_call_SendACK (id : packetID) : preserves (call_SendACK id).
Proof.
  apply preserves_other_call; intros m a m'. unfold call_SendACK. other_call.
Qed.

Lemma preserves_call_ControlMessage : preserves call_ControlMessage.
Proof.
  apply preserves_other_call; intros m a m'. unfold call_ControlMessage. other_call.
Qed.

Lemma preserves_call_tlsHandshake (tc : TLSConn) (conf : tlsConfig) :
  preserves (call_tlsHandshake tc conf).
Proof.
  apply preserves_other_call; intros m a m'. unfold call_tlsHandshake. other_call.
Qed.

Lemma preserves_call_tls_Read (n : nat) : preserves (call_tls_Read n).
Proof.
  apply preserves_other_call; intros m a m'. unfold call_tls_Read. other_call.
Qed.

Lemma preserves_call_tls_Write (b : bytes) : preserves (call_tls_Write b).
Proof.
  apply preserves_other_call; intros m a m'. unfold call_tls_Write. other_call.
Qed.

End Preserving.

Ltac preserves_step :=
  first
    [ apply preserves_bind; [|intros ?]
    | apply preserves_ret | apply preserves_panic | apply preserves_get
    | apply preserves_emit; assumption
    | apply preserves_modify; intros; reflexivity
    | apply preserves_call_readPacket; assumption
    | apply preserves_call_SendHardReset; assumption
    | apply preserves_call_SendACK; assumption
    | apply preserves_call_ControlMessage; assumption
    | apply preserves_call_tlsHandshake; assumption
    | apply preserves_call_tls_Read; assumption
    | apply preserves_call_tls_Write; assumption
    | match goal with |- preserves _ (match ?x with _ => _ end) => destruct x end
    | match goal with |- preserves _ (if ?x then _ else _) => destruct x end
    | match goal with |- preserves _ (let '_ := ?x in _) => destruct x end ].

(** The parts of the handshake that do not call the data handler keep
    every such property. *)
Section PreservingMore.

Variable J : data -> list event -> Prop.
Hypothesis J_app : forall d t more, J d t -> J d (t ++ more).

Lemma preserves_Reset : preserves J Reset.
Proof. unfold Reset, call_ParseHardReset, logger. repeat preserves_step. Qed.

Lemma preserves_sendControlMessage : preserves J sendControlMessage.
Proof. unfold sendControlMessage. repeat preserves_step. Qed.

Lemma preserves_readAndLoadRemoteKey : preserves J readAndLoadRemoteKey.
Proof.
  unfold readAndLoadRemoteKey, readTLSPacket, call_ReadControlMessage, logger.
  repeat preserves_step.
Qed.

Lemma preserves_sendPushRequest : preserves J sendPushRequest.
Proof. unfold sendPushRequest, call_PushRequest. repeat preserves_step. Qed.

Lemma preserves_readPushReply : preserves J readPushReply.
Proof.
  unfold readPushReply, readTLSPacket, call_ReadPushResponse, logger.
  repeat preserves_step.
Qed.

End PreservingMore.

(** ** Keys before payload *)

(** Both [KeySource]s of the slot are there. *)
Definition both_KeySources (k : dataChannelKey) : Prop :=
  exists l r, local k = Some l /\ remote k = Some r.

(** Both directional states are there. *)
Definition both_states (d : data) : Prop :=
  exists o i, out_state d = Some o /\ in_state d = Some i.

Definition no_state (d : data) : Prop :=
  out_state d = None /\ in_state d = None.

(** The invariant: the data handler has no directional state, or it has
    both and the trace holds a call of [SetupKeys] that returned [nil] on
    a slot with both [KeySource]s. *)
Definition keys_then_states (d : data) (t : list event) : Prop :=
  no_state d \/
  (both_states d /\
   exists k, In (EvData (dSetupKeys k None)) t /\ both_KeySources k).

Lemma keys_then_states_app (d : data) (t : list event) (more : list event) :
  keys_then_states d t -> keys_then_states d (t ++ more).
Proof.
  intros [H|(H & k & Hin & Hk)]; [now left|right].
  split; [exact H|]. exists k. split; [|exact Hk]. apply in_or_app. now left.
Qed.

Abbreviation preserves_I4 := (preserves keys_then_states).

(** The three calls of the data handler. *)
Lemma SetupKeys_cases (m : muxer) (k : dataChannelKey) :
  (exists e, call_SetupKeys k m =
               Done (Some e) (set_trace m (m_trace m ++ [EvData (dSetupKeys k (Some e))]))) \/
  (exists m', call_SetupKeys k m = Done None m' /\
              both_KeySources k /\ both_states (m_data m') /\
              m_trace m' = m_trace m ++ [EvData (dSetupKeys k None)]).
Proof.
  unfold call_SetupKeys. cbn [SetupKeys spec_handler handler].
  unfold data_SetupKeys.
  destruct (local k) as [l|] eqn:El; [destruct (remote k) as [r|] eqn:Er|].
  - right. destruct (key_schedule l r _ _) as [[cc ch] [sc sh]].
    eexists. split; [reflexivity|]. split; [now exists l, r|].
    split; [eexists _, _; split; reflexivity|reflexivity].
  - left. eexists. destruct m; reflexivity.
  - left. eexists. destruct m; reflexivity.
Qed.

Lemma preserves_call_SetupKeys (k : dataChannelKey) : preserves_I4 (call_SetupKeys k).
Proof.
  intros m a m' H Hm.
  destruct (SetupKeys_cases m k) as [[e He]|(m1 & H1 & Hk & Hs & Ht)].
  - rewrite He in H. injection H as _ <-. cbn. now apply keys_then_states_app.
  - rewrite H1 in H. injection H as _ <-. right. split; [exact Hs|].
    exists k. split; [|exact Hk]. rewrite Ht. apply in_or_app. right. now left.
Qed.

Lemma preserves_call_WritePacket (b : bytes) : preserves_I4 (call_WritePacket b).
Proof.
  intros m a m'. unfold call_WritePacket. cbn [WritePacket spec_handler handler].
  unfold data_WritePacket.
  destruct (out_state (m_data m)) as [st|] eqn:Eo.
  - destruct (conn_Write _ _) as [c' r]. intros [= _ <-] H.
    cbn. apply keys_then_states_app.
    destruct H as [[Hn _]|((o & i & Ho & Hi) & Hk)]; [congruence|].
    right. split; [|exact Hk]. eexists _, i. split; [reflexivity|exact Hi].
  - intros [= _ <-] H. now apply keys_then_states_app.
Qed.

Lemma preserves_call_ReadPacket (p : packet) : preserves_I4 (call_ReadPacket p).
Proof.
  intros m a m'. unfold call_ReadPacket. cbn [ReadPacket spec_handler handler].
  unfold data_ReadPacket, SpecData.check.
  destruct (in_state (m_data m)) as [st|] eqn:Ei.
  - destruct (decrypt _ _ _) as [[id body]|].
    + destruct (replayed st id).
      * intros [= _ <-] H. cbn. apply keys_then_states_app.
        destruct H as [[_ Hn]|((o & i & Ho & Hi) & Hk)]; [congruence|].
        right. split; [|exact Hk]. now exists o, i.
      * intros [= _ <-] H. cbn. apply keys_then_states_app.
        destruct H as [[_ Hn]|((o & i & Ho & Hi) & Hk)]; [congruence|].
        right. split; [|exact Hk]. eexists o, _. split; [exact Ho|reflexivity].
    + intros [= _ <-] H. cbn. apply keys_then_states_app.
      destruct H as [[_ Hn]|((o & i & Ho & Hi) & Hk)]; [congruence|].
      right. split; [|exact Hk]. now exists o, i.
  - intros [= _ <-] H. cbn. apply keys_then_states_app.
    destruct H as [[Hn1 Hn2]|((o & i & Ho & Hi) & Hk)]; [now left|congruence].
Qed.

Ltac preserves_I4_step :=
  first
    [ apply preserves_Reset; exact keys_then_states_app
    | apply preserves_sendControlMessage; exact keys_then_states_app
    | apply preserves_readAndLoadRemoteKey; exact keys_then_states_app
    | apply preserves_sendPushRequest; exact keys_then_states_app
    | apply preserves_readPushReply; exact keys_then_states_app
    | apply preserves_call_SetupKeys | apply preserves_call_WritePacket
    | apply preserves_call_ReadPacket
    | apply preserves_emit; exact keys_then_states_app
    | apply preserves_call_readPacket; exact keys_then_states_app
    | apply preserves_call_tlsHandshake; exact keys_then_states_app
    | preserves_step ].

Lemma preserves_InitDataWithRemoteKey : preserves_I4 InitDataWithRemoteKey.
Proof. unfold InitDataWithRemoteKey. repeat preserves_I4_step. Qed.

Lemma preserves_Handshake : preserves_I4 Handshake.
Proof.
  unfold Handshake, logger.
  repeat first [ apply preserves_InitDataWithRemoteKey | preserves_I4_step ].
Qed.

Lemma preserves_handleIncomingPacket : preserves_I4 handleIncomingPacket.
Proof. unfold handleIncomingPacket, handleDataPing, logger. repeat preserves_I4_step. Qed.

Definition I4 (m : muxer) : Prop := keys_then_states (m_data m) (m_trace m).

Lemma preserves_pulls (m m' : muxer) : pulls m m' -> I4 m -> I4 m'.
Proof.
  induction 1 as [m m' H|m m1 m' H _ IH]; intros Hm.
  - exact (preserves_handleIncomingPacket _ _ _ H Hm).
  - apply IH. exact (preserves_handleIncomingPacket _ _ _ H Hm).
Qed.

Lemma preserves_Read (fuel n : nat) (m : muxer) (r : bytes * option error) (m' : muxer) :
  Read fuel n m = Some (Done r m') -> I4 m -> I4 m'.
Proof.
  intros H Hm.
  destruct (proj1 (Read_returns_iff n m r m') (ex_intro _ fuel H)) as (m1 & Hp & Hb).
  pose proof (preserves_pulls _ _ Hp Hm) as H1. revert Hb. unfold bufReader_Read.
  destruct (Buffer_Read (m_bufReader m1) n) as [[out e] rest].
  intros [= _ <-]. exact H1.
Qed.

(** The parts of the handshake that leave the data handler as it is. *)
Definition same_data (d0 : data) (d : data) (t : list event) : Prop := d = d0.

Lemma same_data_app (d0 d : data) (t more : list event) :
  same_data d0 d t -> same_data d0 d (t ++ more).
Proof. intros H. exact H. Qed.

(** [InitDataWithRemoteKey] changes the data handler in one place: where
    it calls [SetupKeys], after the control message went out and the
    remote key was loaded, on the slot [ActiveKey] returns then.  When that
    call returns [nil], the slot holds both [KeySource]s and both
    directional states are there. *)
Lemma InitData_keys_from_active_slot (m : muxer) (r : option error) (m' : muxer) :
  InitDataWithRemoteKey m = Done r m' ->
  m_data m' = m_data m \/
  exists m1 m2 k m3,
    sendControlMessage m = Done None m1 /\
    readAndLoadRemoteKey m1 = Done None m2 /\
    ActiveKey (m_session m2) = Ok k /\
    both_KeySources k /\
    call_SetupKeys k m2 = Done None m3 /\
    both_states (m_data m3) /\
    m_data m' = m_data m3.
Proof.
  unfold InitDataWithRemoteKey. unfold bind at 1.
  destruct (sendControlMessage m) as [[err|] m1|why] eqn:H1; try discriminate;
    pose proof (preserves_sendControlMessage (same_data (m_data m)) (same_data_app _)
                  _ _ _ H1 eq_refl) as D1; unfold same_data in D1.
  { intros [= _ <-]. now left. }
  unfold bind at 1.
  destruct (readAndLoadRemoteKey m1) as [[err|] m2|why] eqn:H2; try discriminate;
    pose proof (preserves_readAndLoadRemoteKey (same_data (m_data m1)) (same_data_app _)
                  _ _ _ H2 eq_refl) as D2; unfold same_data in D2.
  { intros [= _ <-]. left. congruence. }
  unfold bind at 1, get.
  destruct (ActiveKey (m_session m2)) as [k|err] eqn:Hk.
  2:{ intros [= _ <-]. left. congruence. }
  unfold bind at 1.
  destruct (SetupKeys_cases m2 k) as [[e He]|(m3 & H3 & Hb & Hs & Ht)].
  { rewrite He. intros [= _ <-]. left. cbn. congruence. }
  rewrite H3. unfold bind at 1.
  destruct (sendPushRequest m3) as [[n e4] m4|why] eqn:H4; try discriminate.
  pose proof (preserves_sendPushRequest (same_data (m_data m3)) (same_data_app _)
                _ _ _ H4 eq_refl) as D4; unfold same_data in D4.
  intros H. right. exists m1, m2, k, m3.
  repeat match goal with |- _ /\ _ => split end; try assumption; try reflexivity.
  cbn [snd] in H. destruct e4 as [err|].
  { injection H as _ <-. exact D4. }
  unfold bind at 1 in H.
  destruct (readPushReply m4) as [[err|] m5|why] eqn:H5; try discriminate;
    pose proof (preserves_readPushReply (same_data (m_data m4)) (same_data_app _)
                  _ _ _ H5 eq_refl) as D5; unfold same_data in D5;
    injection H as _ <-; congruence.
Qed.

(** ** Executions *)

(** The operations of [vpnMuxer] (lines 114-120). *)
Inductive operation :=
| opHandshake
| opReset
| opInitDataWithRemoteKey
| opWrite (b : bytes)
| opRead (fuel n : nat).

(** [performs o m m']: the operation, called in state [m], returns in
    state [m']. *)
Definition performs (o : operation) (m m' : muxer) : Prop :=
  match o with
  | opHandshake => exists r, Handshake m = Done r m'
  | opReset => exists r, Reset m = Done r m'
  | opInitDataWithRemoteKey => exists r, InitDataWithRemoteKey m = Done r m'
  | opWrite b => exists r, Write b m = Done r m'
  | opRead fuel n => exists r, Read fuel n m = Some (Done r m')
  end.

(** The states an execution goes through, from [m0] on. *)
Inductive execution (m0 : muxer) : muxer -> Prop :=
| execution_start : execution m0 m0
| execution_step (m m' : muxer) (o : operation) :
    execution m0 m -> performs o m m' -> execution m0 m'.

Lemma execution_preserves_I4 (m0 m : muxer) : I4 m0 -> execution m0 m -> I4 m.
Proof.
  intros H0. induction 1 as [|m m' o _ IH Hp]; [exact H0|].
  destruct o; destruct Hp as [r Hr].
  - exact (preserves_Handshake _ _ _ Hr IH).
  - exact (preserves_Reset _ keys_then_states_app _ _ _ Hr IH).
  - exact (preserves_InitDataWithRemoteKey _ _ _ Hr IH).
  - exact (preserves_call_WritePacket b _ _ _ Hr IH).
  - exact (preserves_Read _ _ _ _ _ Hr IH).
Qed.

(** What a call of [WritePacket] puts on the wire. *)
Definition wire_packet (st : DataChannelState) (b : bytes) : bytes :=
  encrypt (cipher_key st) (hmac_key st) (packet_id_counter st + 1)
          (if compression_stub then xfa :: b else b).

Lemma WritePacket_cases (m : muxer) (b : bytes) :
  (out_state (m_data m) = None /\
   call_WritePacket b m =
     Done (0, Some errNoDataChannelState)
          (set_trace m (m_trace m ++ [EvData (dWritePacket b)]))) \/
  (exists st r m',
     out_state (m_data m) = Some st /\
     call_WritePacket b m = Done r m' /\
     (m_conn m', r) = conn_Write (m_conn m) (wire_packet st b)).
Proof.
  unfold call_WritePacket. cbn [WritePacket spec_handler handler].
  unfold data_WritePacket, wire_packet.
  destruct (out_state (m_data m)) as [st|] eqn:Eo.
  - right. cbn. destruct (conn_Write _ _) as [c' r] eqn:Ew. eexists st, r, _.
    split; [reflexivity|]. split; [reflexivity|]. cbn. now rewrite <- Ew.
  - left. split; [reflexivity|]. destruct m; reflexivity.
Qed.

(** ** The claims that rest on the data handler *)

(** C4.  A data packet that fails authentication (the tag or the HMAC
    does not verify) or the replay check is dropped: the iteration returns
    [false] and raises nothing, the read buffer is as it was, the handler's
    failure count has grown by one while its directional states are
    untouched, the muxer has logged "bad decryption", and [Read] goes on
    with the next packet of the transport.  Dropping, logging and going on
    are the muxer's (lines 267-272); the count is the data handler's. *)
Theorem rejected_data_packet_is_dropped_and_counted
    (m : muxer) (c : Conn) (data : bytes) (p : packet) (e : error) :
  readPacket (m_conn m) = (c, Ok data) ->
  to_decrypt data p ->
  rejects (m_data m) p e ->
  exists m',
    handleIncomingPacket m = Done false m' /\
    m_bufReader m' = m_bufReader m /\
    failures (m_data m') = failures (m_data m) + 1 /\
    out_state (m_data m') = out_state (m_data m) /\
    in_state (m_data m') = in_state (m_data m) /\
    m_conn m' = c /\
    m_trace m' =
      m_trace m ++ [EvReadPacket (Ok data); EvData (dReadPacket p (Err e));
                    EvLog lvlError "bad decryption: %s" [argErr e]] /\
    forall fuel n, Read (S fuel) n m = Read fuel n m'.
Proof.
  intros Hr Hdec Hrej.
  pose proof (rejects_ReadPacket _ (m_session m) _ _ Hrej) as Hrp.
  pose proof (step_decrypt_failure _ _ _ _ _ _ _ Hr Hdec Hrp) as Hs.
  eexists. split; [exact Hs|].
  repeat match goal with |- _ /\ _ => split end; try reflexivity.
  intros fuel n. now apply Read_unfold_false.
Qed.


End OverSpecData.

End SpecDataFacts.

(* ================================================================== *)
(** * Runs over the data handler of the specification *)
(* ================================================================== *)

Module SpecLoopback.
Import Muxer Loopback MuxerFacts SpecData SpecDataFacts.

(** A stand-in for the cipher: behind a one-byte tag, the packet-id and
    the payload in clear. *)
Definition toy_encrypt (cipher hmac : bytes) (id : Z) (body : bytes) : bytes :=
  x30 :: xa5 :: byte_of_Z id :: body.

Definition toy_decrypt (cipher hmac : bytes) (payload : bytes) : option (Z * bytes) :=
  match payload with
  | xa5 :: id :: body => Some (Z_of_byte id, body)
  | _ => None
  end.

Definition toy_schedule (l r : keySource) (ls rs : sessionID)
  : (bytes * bytes) * (bytes * bytes) :=
  ((r1 l, r2 l), (r1 r, r2 r)).

Definition conn_Write (c : Conn) (b : bytes) : Conn * (Z * option error) :=
  (send c b, (Z.of_nat (length b), None)).

(** The scripted peer of [Loopback], with the data handler of the
    specification in the place of its own. *)
#[export] Instance pkg' : vpnPackage Conn TLS data Options packet := {|
  readPacket := @readPacket _ _ _ _ _ Loopback.pkg;
  parsePacketFromBytes := @parsePacketFromBytes _ _ _ _ _ Loopback.pkg;
  isACK := @isACK _ _ _ _ _ Loopback.pkg;
  isControl := @isControl _ _ _ _ _ Loopback.pkg;
  isData := @isData _ _ _ _ _ Loopback.pkg;
  opcode := p_opcode;
  payload := p_payload;
  newSession := @newSession _ _ _ _ _ Loopback.pkg;
  newDataFromOptions o s := Ok newData;
  tlsConfig := unit;
  TLSConn := unit;
  initTLS s o := Ok tt;
  NewTLSConn c s := Ok tt;
  tlsHandshake := @tlsHandshake _ _ _ _ _ Loopback.pkg;
  tls_Read := @tls_Read _ _ _ _ _ Loopback.pkg;
  tls_Write := @tls_Write _ _ _ _ _ Loopback.pkg;
  parseRemoteOptions t opts := t
|}.

#[export] Instance dataH' : dataHandler data Conn packet :=
  spec_handler conn_Write toy_schedule toy_encrypt toy_decrypt false.

Definition mux' : Type := muxer Conn TLS data Options packet.

Definition blank' : mux' :=
  {| m_conn := m_conn blank; m_tls := None; m_data := newData; m_bufReader := [];
     m_session := m_session blank; m_tunnel := None; m_options := tt; m_trace := [] |}.

Definition fresh' (script : list (result bytes)) (tls_says : list bytes) : mux' :=
  match newMuxerFromOptions {| rx := script; tx := []; tls_script := tls_says |}
                            tt (Some {| ip := EmptyString; mtu := 0 |}) with
  | Ok m => m
  | Err _ => blank'
  end.

Definition state_of' {A : Type} (r : Res Conn TLS data Options packet A) : mux' :=
  match r with
  | Done _ m => m
  | Panic _ => blank'
  end.

Definition after_Read' (fuel n : nat) (m : mux') : mux' :=
  match Read fuel n m with
  | Some r => state_of' r
  | None => blank'
  end.

(** Data packets of the stand-in cipher: packet-ids 1 and 2, and one whose
    tag is wrong. *)
Definition packet1 : bytes := x30 :: xa5 :: x01 :: ascii_bytes "hello".
Definition packet2 : bytes := x30 :: xa5 :: x02 :: ascii_bytes "world".
Definition forged : bytes := x30 :: x00 :: x03 :: ascii_bytes "fake!".

(** A muxer as [newMuxerFromOptions] builds it, in front of a server that
    completes the handshake and then sends the first packet, the first
    packet again, a forged packet and the second packet. *)
Definition m_new : mux' :=
  fresh' [Ok hardResetServer; Ok packet1; Ok packet1; Ok forged; Ok packet2]
         [serverControlMessage; pushReply].

Definition m_ready : mux' := state_of' (Handshake m_new).

(** After the first [Read]: the next packet on the transport is the
    replay. *)
Definition m_replay_next : mux' := after_Read' 1 100 m_ready.

Ltac evaluate :=
  repeat match goal with |- _ /\ _ => split end; vm_compute; reflexivity.

Example Handshake_sets_up_the_data_handler :
  Handshake m_new = Done None m_ready /\
  m_data m_ready =
    {| out_state := Some {| cipher_key := [x0b]; hmac_key := [x0c];
                            packet_id_counter := 0; max_accepted := 0; accepted := [] |};
       in_state := Some {| cipher_key := [x1b]; hmac_key := [x1c];
                           packet_id_counter := 0; max_accepted := 0; accepted := [] |};
       failures := 0 |}.
Proof. evaluate. Qed.

(** The whole stream: the first [Read] gives the first payload; the second
    drops the replay and the forgery, counting both, and gives the second
    payload. *)
Example replay_and_forgery_are_dropped_and_counted :
  Read 1 100 m_ready = Some (Done (ascii_bytes "hello", None) m_replay_next) /\
  failures (m_data m_replay_next) = 0 /\
  Read 2 100 m_replay_next = None /\
  Read 3 100 m_replay_next =
    Some (Done (ascii_bytes "world", None) (after_Read' 3 100 m_replay_next)) /\
  failures (m_data (after_Read' 3 100 m_replay_next)) = 2.
Proof. evaluate. Qed.

Lemma replayed_packet_witness :
  exists m',
    handleIncomingPacket m_replay_next = Done false m' /\
    m_bufReader m' = m_bufReader m_replay_next /\
    failures (m_data m') = failures (m_data m_replay_next) + 1.
Proof.
  destruct (rejected_data_packet_is_dropped_and_counted
              conn_Write toy_schedule toy_encrypt toy_decrypt false
              m_replay_next
              (fst (readPacket (m_conn m_replay_next)))
              packet1
              {| p_opcode := 6; p_keyID := 0; p_payload := xa5 :: x01 :: ascii_bytes "hello" |}
              errReplay)
    as (m' & H1 & H2 & H3 & _).
  - vm_compute. reflexivity.
  - unfold to_decrypt. evaluate.
  - apply (rejects_replay _ _ _
             {| cipher_key := [x1b]; hmac_key := [x1c];
                packet_id_counter := 0; max_accepted := 1; accepted := [1] |}
             1 (ascii_bytes "hello")); vm_compute; reflexivity.
  - exists m'. split; [exact H1|]. split; [exact H2|exact H3].
Defined.

(** ** Writing before and after the handshake *)

Lemma Handshake_is_an_execution :
  execution conn_Write toy_schedule toy_encrypt toy_decrypt false m_new m_ready.
Proof.
  apply (execution_step _ _ _ _ _ m_new m_new m_ready opHandshake);
    [apply execution_start|].
  exists None. vm_compute. reflexivity.
Qed.


(** The same payload before and after the handshake: first refused, with
    nothing on the wire, then sent as packet 1. *)
Example Write_before_and_after_the_handshake :
  tx (m_conn (state_of' (Write (ascii_bytes "early") m_new))) = [] /\
  Write (ascii_bytes "hello") m_ready =
    Done (8, None) (state_of' (Write (ascii_bytes "hello") m_ready)) /\
  tx (m_conn (state_of' (Write (ascii_bytes "hello") m_ready))) =
    tx (m_conn m_ready) ++ [packet1].
Proof. evaluate. Qed.

End SpecLoopback.

(* ================================================================== *)
(** * Properties of the ping summary *)
(* ================================================================== *)

Module PingStatsFacts.
Import PingStats.

(** The loss figure is zero as long as fewer than a hundred replies per
    request were received, whatever was lost. *)
Lemma loss_is_zero (p : Pinger float) :
  0 < packetsSent _ p ->
  0 <= packetsRecv _ p < 100 * packetsSent _ p ->
  loss _ p = Some 0.
Proof.
  intros Hs Hr. unfold loss, int_div.
  destruct (Z.eqb_spec (packetsSent _ p) 0) as [E|_]; [lia|].
  cbn. f_equal.
  rewrite (Z.quot_div_nonneg (packetsRecv _ p) (packetsSent _ p)) by lia.
  assert (Hq : 0 <= packetsRecv _ p / packetsSent _ p < 100).
  { split; [apply Z.div_pos; lia | apply Z.div_lt_upper_bound; lia]. }
  rewrite Z.quot_div_nonneg by lia. apply Z.div_small. exact Hq.
Qed.

(** Three requests sent, two replies received. *)
Definition two_of_three : Pinger float :=
  {| host := "8.8.8.8";
     stats := [ {| rtt := 10.5%float; ttl := 64 |}; {| rtt := 11.25%float; ttl := 64 |} ];
     packetsSent := 3;
     packetsRecv := 2 |}.

End PingStatsFacts.

(* ================================================================== *)
(** * The summary of a run of the pinger *)
(* ================================================================== *)

Module PingRunFacts.
Import Probe PingRun.

Section Runs.

Variable float32 : Type.
Variable rtt_of : Z -> float32.

Abbreviation running := (running float32).
Abbreviation perform := (perform float32 rtt_of).
Abbreviation run := (run float32 rtt_of).

Lemma length_remove_first (s : Z) (l : list Z) :
  existsb (Z.eqb s) l = true ->
  Z.of_nat (length (remove_first s l)) = Z.of_nat (length l) - 1.
Proof.
  induction l as [|x rest IH]; intros Hin; [discriminate Hin|].
  cbn [remove_first]. destruct (Z.eqb_spec x s) as [E|E].
  - cbn [length]. lia.
  - cbn [existsb] in Hin. destruct (Z.eqb_spec s x) as [E'|_]; [congruence|].
    cbn [orb] in Hin. cbn [length]. rewrite !Nat2Z.inj_succ, IH by exact Hin. lia.
Qed.

(** What holds all along a run for [count] packets: every send was
    launched by the sending loop, which stops at [count]; every statistic
    received was collected by the collecting loop, which stops at [count];
    and once the summary has been printed, it was printed with
    [packetsRecv = count]. *)
Definition books (count : Z) (r : running) : Prop :=
  Count (pinger r) = count /\
  0 <= launched r <= count /\
  0 <= packetsSent (pinger r) /\
  packetsSent (pinger r) + Z.of_nat (length (waiting r)) = launched r /\
  collected r = packetsRecv r /\
  Z.of_nat (length (st_list r)) = packetsRecv r /\
  0 <= collected r <= count /\
  forall out,
    printed r = Some out ->
    exists v : PingStats.Pinger float32,
      out = PingStats.printStats_summary float32 v /\
      PingStats.packetsRecv float32 v = count /\
      0 <= PingStats.packetsSent float32 v <= count /\
      Z.of_nat (length (PingStats.stats float32 v)) = count.

Lemma books_start (pid : Z) (h : string) (count : Z) :
  0 <= count -> books count (start (float32:=float32) pid h count).
Proof.
  intros Hc. unfold books. cbn.
  repeat match goal with |- _ /\ _ => split end; try lia; try reflexivity.
  intros out H. discriminate H.
Qed.

Ltac split_books :=
  unfold books; cbn;
  repeat match goal with |- _ /\ _ => split end; try lia; try assumption.

Lemma books_perform (local : string) (count : Z) (a : action) (r r' : running) :
  perform local a r = Some r' -> books count r -> books count r'.
Proof.
  intros Hs (HC & Hl & Hs0 & Hsent & Hcol & Hlen & Hb & Hp).
  destruct a as [|s now now'|now d| |]; cbn [PingRun.perform] in Hs.
  - destruct (Z.ltb_spec (launched r) (Count (pinger r))) as [Hlt|_];
      [|discriminate Hs].
    injection Hs as <-. split_books.
    rewrite length_app, Nat2Z.inj_add. cbn. lia.
  - destruct (existsb (Z.eqb s) (waiting r)) eqn:Hin; [|discriminate Hs].
    injection Hs as <-. split_books.
    rewrite (length_remove_first _ _ Hin). lia.
  - destruct (Z.ltb_spec 0 (readers r)) as [Hlt|_]; [|discriminate Hs].
    injection Hs as <-. split_books.
  - destruct (Z.ltb_spec (collected r) (Count (pinger r))) as [Hlt|_];
      [|discriminate Hs].
    destruct (stats_chan r) as [|s rest]; [discriminate Hs|].
    injection Hs as <-. split_books.
    rewrite length_app, Nat2Z.inj_add. cbn. lia.
  - destruct (Z.leb_spec (Count (pinger r)) (collected r)) as [Hge|_];
      [|discriminate Hs].
    destruct (printed r) as [x|] eqn:Hpr; [discriminate Hs|].
    injection Hs as <-. split_books.
    intros out [= <-]. exists (view r). split; [reflexivity|]. cbn.
    assert (0 <= Z.of_nat (length (waiting r))) by lia.
    repeat match goal with |- _ /\ _ => split end; lia.
Qed.

Lemma books_run (local : string) (count : Z) (l : list action) (r r' : running) :
  run local l r = Some r' -> books count r -> books count r'.
Proof.
  revert r. induction l as [|a rest IH]; intros r H Hb; cbn [PingRun.run] in H.
  - injection H as <-. exact Hb.
  - destruct (perform local a r) as [r1|] eqn:E; [|discriminate H].
    apply (IH r1 H). exact (books_perform local count a r r1 E Hb).
Qed.

(** An echo reply to the first probe of the pinger below. *)
Definition reply : decodedLayers :=
  {| decoded := [LayerTypeIPv4; LayerTypeICMPv4; LayerTypePayload];
     ip_DstIP_in := "10.8.0.6"; ip_SrcIP_in := "8.8.8.8"; ip_TTL_in := 57;
     icmp_Id_in := 4242; icmp_Seq_in := 0 |}.

(** A run for two packets in which the network delivers the reply to the
    first probe twice before the second probe is sent. *)
Definition duplicate_reply : list action :=
  [Launch; Send 0 1000000 1000001;
   Receive 9000000 (Some reply); Receive 9500000 (Some reply);
   Collect; Collect; Shutdown].

(** C9.  The summary is printed by [Shutdown], once the collecting loop
    has received [Count] statistics: by then [packetsRecv] is [Count] and
    [packetsSent] is at most [Count].  When the network delivers a reply
    twice, both are counted, and the summary can be printed before the
    last probe is sent: with the first of two probes sent and its reply
    received twice, [printStats] prints
    "1 packets transmitted, 2 received, 0% packet loss", where
    [100 * (1 - 2/1)] in floating point is -100. *)
Theorem printStats_loss_after_a_duplicate_reply :
  (forall pid h count local l r out,
     0 <= count ->
     run local l (start pid h count) = Some r ->
     printed r = Some out ->
     exists v : PingStats.Pinger float32,
       out = PingStats.printStats_summary float32 v /\
       PingStats.packetsRecv float32 v = count /\
       0 <= PingStats.packetsSent float32 v <= count /\
       Z.of_nat (length (PingStats.stats float32 v)) = count) /\
  (exists r,
     run "10.8.0.6" duplicate_reply (start 4242 "8.8.8.8" 2) = Some r /\
     packetsSent (pinger r) = 1 /\
     packetsRecv r = 2 /\
     printed r = Some (Some (1, 2, 0))) /\
  PingStats.spec_loss 2 1 = (-100)%float /\
  PrimFloat.eqb (PingStats.spec_loss 2 1) (PingStats.float64_of_int 0) = false.
Proof.
  split; [|split; [|split; vm_compute; reflexivity]].
  - intros pid h count local l r out Hc Hs Hp.
    pose proof (books_run local count _ _ _ Hs (books_start pid h count Hc)) as Hb.
    destruct Hb as (_ & _ & _ & _ & _ & _ & _ & H). now apply H.
  - eexists. split; [vm_compute; reflexivity|].
    split; [reflexivity|]. split; reflexivity.
Qed.

End Runs.

End PingRunFacts.

(* ================================================================== *)
(** * More about the data phase *)
(* ================================================================== *)

Module ReadFacts.
Import Muxer MuxerFacts.

Section Reading.

Context {Conn TLS D Options packet : Type}.
Context {control : controlHandler Conn Options}.
Context {dataH : dataHandler D Conn packet}.
Context {pkg : vpnPackage Conn TLS D Options packet}.

Abbreviation muxer := (muxer Conn TLS D Options packet).
Abbreviation event := (event packet).

(** An event of the data phase: a read of the transport, a call of the
    data handler, or a report. *)
Definition data_phase_event (e : event) : bool :=
  match e with
  | EvReadPacket _ | EvData _ | EvLog _ _ _ | EvPrint _ => true
  | EvControl _ | EvTLS _ => false
  end.

(** Every iteration starts by reading the transport. *)
Lemma step_reads_first (m : muxer) (b : bool) (m' : muxer) :
  handleIncomingPacket m = Done b m' ->
  exists r more,
    m_trace m' = m_trace m ++ EvReadPacket r :: more /\
    forallb data_phase_event more = true.
Proof.
  intros H. apply step_shape_of in H. inversion H; subst.
  - exists r, reports. split; [reflexivity|].
    rewrite forallb_forall in *. intros e He.
    match goal with Hr : forall x, In x reports -> _ |- _ => apply Hr in He end.
    destruct e; try discriminate; reflexivity.
  - eexists _, _. split; reflexivity.
  - eexists _, _. split; reflexivity.
  - eexists _, _. split; reflexivity.
Qed.

(** X1: the frame of one iteration.  [handleIncomingPacket] calls no method
    of the control handler and does nothing on the TLS channel, whatever
    the packet; it leaves [m.tls], [m.tunnel] and [m.options] alone; and
    what the read buffer held stays at its front. *)
Theorem handleIncomingPacket_frame (m : muxer) (b : bool) (m' : muxer) :
  handleIncomingPacket m = Done b m' ->
  (exists evs, m_trace m' = m_trace m ++ evs /\ forallb data_phase_event evs = true) /\
  m_tls m' = m_tls m /\
  m_tunnel m' = m_tunnel m /\
  m_options m' = m_options m /\
  exists added, m_bufReader m' = m_bufReader m ++ added.
Proof.
  intros H. split.
  - destruct (step_reads_first _ _ _ H) as (r & more & Ht & Hall).
    exists (EvReadPacket r :: more). split; [exact Ht|]. cbn. exact Hall.
  - apply step_shape_of in H. inversion H; subst; cbn;
      (split; [reflexivity|]); (split; [reflexivity|]); (split; [reflexivity|]).
    + exists []. now rewrite app_nil_r.
    + exists []. now rewrite app_nil_r.
    + exists []. now rewrite app_nil_r.
    + exists plaintext. reflexivity.
Qed.

(** The trace between the start of the loop and its end starts with a
    read of the transport. *)
Lemma pulls_reads_first (m m' : muxer) :
  pulls m m' ->
  exists r more, m_trace m' = m_trace m ++ EvReadPacket r :: more.
Proof.
  induction 1 as [m m' H | m m1 m' H _ IH].
  - destruct (step_reads_first _ _ _ H) as (r & more & Ht & _). now exists r, more.
  - destruct (step_reads_first _ _ _ H) as (r & more & Ht & _).
    destruct IH as (r2 & more2 & Ht2).
    exists r, (more ++ EvReadPacket r2 :: more2).
    rewrite Ht2, Ht, <- app_assoc. reflexivity.
Qed.

Lemma Read_inv (fuel n : nat) (m : muxer) (r : bytes * option error) (m' : muxer) :
  Read fuel n m = Some (Done r m') ->
  exists m1, pulls m m1 /\ bufReader_Read n m1 = Done r m'.
Proof.
  intros H. apply (proj1 (Read_returns_iff n m r m')). now exists fuel.
Qed.

(** X2: [Read] serves nothing from the buffer alone.  Whatever the read
    buffer holds when [Read] is called, a [Read] that returns has first
    read the transport, and the last thing it did before copying out was a
    successful [ReadPacket]: bytes left over by an earlier short [Read]
    are handed out only once a further data packet has arrived. *)
Theorem Read_always_waits_for_a_packet
    (fuel n : nat) (m : muxer) (r : bytes * option error) (m' : muxer) :
  Read fuel n m = Some (Done r m') ->
  (fuel <> 0)%nat /\
  exists r0 more p plaintext,
    m_trace m' = m_trace m ++ EvReadPacket r0 :: more /\
    (exists pre, m_trace m' = pre ++ [EvData (dReadPacket p (Ok plaintext))]).
Proof.
  intros H. split; [destruct fuel; [discriminate H | discriminate]|].
  destruct (Read_inv _ _ _ _ _ H) as (m1 & Hp & Hb).
  destruct (pulls_reads_first _ _ Hp) as (r0 & more & Ht).
  destruct (pulls_delivers _ _ Hp) as (p & plaintext & pre & Hl & _).
  assert (Hm : m_trace m' = m_trace m1).
  { revert Hb. unfold bufReader_Read.
    destruct (Buffer_Read (m_bufReader m1) n) as [[o e] rest].
    intros [= _ <-]. reflexivity. }
  exists r0, more, p, plaintext. rewrite Hm. split; [exact Ht|].
  exists pre. exact Hl.
Qed.

(** X3: [Read] neither loses nor reorders bytes.  The last thing a [Read]
    that returns has done is a [ReadPacket] that gave a plaintext; the
    bytes it returns are the first [n] of what the buffer held followed by
    that plaintext, and the buffer keeps the rest: the bytes returned
    followed by the bytes left are the bytes held followed by the
    plaintext, and [Read] returns at most [n] bytes, all of them when they
    fit. *)
Theorem Read_conserves_bytes
    (fuel n : nat) (m : muxer) (out : bytes) (err : option error) (m' : muxer) :
  Read fuel n m = Some (Done (out, err) m') ->
  exists p plaintext pre,
    m_trace m' = pre ++ [EvData (dReadPacket p (Ok plaintext))] /\
    out = firstn n (m_bufReader m ++ plaintext) /\
    m_bufReader m' = skipn n (m_bufReader m ++ plaintext) /\
    out ++ m_bufReader m' = m_bufReader m ++ plaintext /\
    length out = Nat.min n (length (m_bufReader m ++ plaintext)).
Proof.
  intros H. destruct (Read_inv _ _ _ _ _ H) as (m1 & Hp & Hb).
  destruct (pulls_delivers _ _ Hp) as (p & plaintext & pre & Ht & Hbuf).
  exists p, plaintext, pre. rewrite <- Hbuf. revert Hb.
  unfold bufReader_Read, Buffer_Read.
  destruct (m_bufReader m1) as [|x rest] eqn:E.
  - intros [= <- _ <-]. cbn [m_trace m_bufReader set_bufReader].
    split; [exact Ht|]. rewrite firstn_nil, skipn_nil.
    repeat split. cbn. now rewrite Nat.min_0_r.
  - intros [= <- _ <-]. cbn [m_trace m_bufReader set_bufReader].
    split; [exact Ht|]. split; [reflexivity|]. split; [reflexivity|].
    split; [apply firstn_skipn|]. apply length_firstn.
Qed.

(** X4: when [Read] reports [io.EOF].  The error [Read] returns is [nil],
    except that it is [io.EOF] when the delivered plaintext is empty, the
    read buffer was empty and the caller's buffer is not: a data packet
    with an empty payload ends the stream for an [io.Reader] user. *)
Theorem Read_reports_EOF_on_empty_payload
    (fuel n : nat) (m : muxer) (out : bytes) (err : option error) (m' : muxer) :
  Read fuel n m = Some (Done (out, err) m') ->
  exists plaintext,
    (exists p pre, m_trace m' = pre ++ [EvData (dReadPacket p (Ok plaintext))]) /\
    ((m_bufReader m ++ plaintext = [] /\ n <> 0%nat /\ err = Some io_EOF /\ out = []) \/
     ((m_bufReader m ++ plaintext <> [] \/ n = 0%nat) /\ err = None)).
Proof.
  intros H. destruct (Read_inv _ _ _ _ _ H) as (m1 & Hp & Hb).
  destruct (pulls_delivers _ _ Hp) as (p & plaintext & pre & Hl & Hbuf).
  exists plaintext. rewrite <- Hbuf. revert Hb.
  unfold bufReader_Read, Buffer_Read.
  destruct (m_bufReader m1) as [|x rest] eqn:E.
  - destruct n; intros [= <- <- <-]; cbn [m_trace set_bufReader].
    + split; [now exists p, pre|]. right. split; [now right|reflexivity].
    + split; [now exists p, pre|]. left. repeat split; discriminate.
  - intros [= <- <- <-]. cbn [m_trace set_bufReader].
    split; [now exists p, pre|]. right. split; [left; discriminate|reflexivity].
Qed.

End Reading.
End ReadFacts.

(* ================================================================== *)
(** * More about the handshake *)
(* ================================================================== *)

Module HandshakeFacts.
Import Muxer MuxerFacts.

Section Handshaking.

Context {Conn TLS D Options packet : Type}.
Context {control : controlHandler Conn Options}.
Context {dataH : dataHandler D Conn packet}.
Context {pkg : vpnPackage Conn TLS D Options packet}.

Abbreviation muxer := (muxer Conn TLS D Options packet).
Abbreviation event := (event packet).
Abbreviation M := (@M Conn TLS D Options packet).

(** ** Frames of monadic code *)

(** [emits P c]: a run of [c] only appends to the trace, and every event
    it appends satisfies [P]. *)
Definition emits (P : event -> bool) {A : Type} (c : M A) : Prop :=
  forall m a m', c m = Done a m' ->
    exists evs, m_trace m' = m_trace m ++ evs /\ forallb P evs = true.

(** [keeps f c]: a run of [c] leaves the view [f] of the muxer as it was. *)
Definition keeps {B : Type} (f : muxer -> B) {A : Type} (c : M A) : Prop :=
  forall m a m', c m = Done a m' -> f m' = f m.

(** The two together, for a view that no setter of the trace touches. *)
Definition framed {B : Type} (P : event -> bool) (f : muxer -> B) {A : Type} (c : M A) : Prop :=
  emits P c /\ keeps f c.

Section Frame.

Variable P : event -> bool.
Variable B : Type.
Variable f : muxer -> B.
Hypothesis f_trace : forall m t, f (set_trace m t) = f m.
Hypothesis f_conn : forall m c, f (set_conn m c) = f m.
Hypothesis f_session : forall m s, f (set_session m s) = f m.
Hypothesis f_data : forall m d, f (set_data m d) = f m.
Hypothesis f_tls : forall m t, f (set_tls m t) = f m.

Lemma framed_ret {A : Type} (a : A) : framed P f (ret a).
Proof.
  split; intros m a' m' [= <- <-]; [|reflexivity].
  exists []. now rewrite app_nil_r.
Qed.

Lemma framed_panic {A : Type} (why : string) : framed P f (@panic _ _ _ _ _ A why).
Proof. split; intros m a m' H; discriminate H. Qed.

Lemma framed_bind {A C : Type} (c : M A) (k : A -> M C) :
  framed P f c -> (forall a, framed P f (k a)) -> framed P f (bind c k).
Proof.
  intros [Ec Kc] Hk. split; intros m b m' H; unfold bind in H;
    destruct (c m) as [a m1|w] eqn:E; try discriminate H.
  - destruct (Ec _ _ _ E) as (e1 & H1 & Q1).
    destruct (proj1 (Hk a) _ _ _ H) as (e2 & H2 & Q2).
    exists (e1 ++ e2). rewrite H2, H1, <- app_assoc. split; [reflexivity|].
    now rewrite forallb_app, Q1, Q2.
  - rewrite (proj2 (Hk a) _ _ _ H). now apply (Kc m a).
Qed.

Lemma framed_emit (e : event) : P e = true -> framed P f (emit e).
Proof.
  intros He. split; intros m a m' [= <- <-].
  - exists [e]. cbn. now rewrite He.
  - apply f_trace.
Qed.

Lemma framed_get {A : Type} (g : muxer -> A) : framed P f (get g).
Proof.
  split; intros m a m' [= <- <-]; [|reflexivity].
  exists []. now rewrite app_nil_r.
Qed.

Lemma framed_modify (g : muxer -> muxer) :
  (forall m, m_trace (g m) = m_trace m) ->
  (forall m, f (g m) = f m) ->
  framed P f (modify g).
Proof.
  intros Ht Hf. split; intros m a m' [= <- <-]; [|apply Hf].
  exists []. now rewrite app_nil_r, Ht.
Qed.

(** A call that appends one event to the trace of a state [g m]. *)
Lemma framed_call {A : Type} (c : M A) :
  (forall m a m', c m = Done a m' ->
     exists e m0, P e = true /\ f m0 = f m /\ m' = set_trace m0 (m_trace m ++ [e])) ->
  framed P f c.
Proof.
  intros Hc. split; intros m a m' H;
    destruct (Hc _ _ _ H) as (e & m0 & He & Hf & ->).
  - exists [e]. cbn. now rewrite He.
  - now rewrite f_trace.
Qed.

Ltac one_call HP H :=
  injection H as _ <-;
  refine (ex_intro _ _ (ex_intro _ _ (conj _ (conj _ eq_refl))));
  [apply HP | rewrite ?f_session, ?f_conn, ?f_data, ?f_tls; reflexivity].

Lemma framed_call_readPacket :
  (forall r, P (EvReadPacket r) = true) -> framed P f call_readPacket.
Proof.
  intros HP. apply framed_call. intros m a m'. unfold call_readPacket.
  destruct (readPacket (m_conn m)) as [c r]. intros H. one_call HP H.
Qed.

Lemma framed_call_SendHardReset :
  P (EvControl cSendHardReset) = true -> framed P f call_SendHardReset.
Proof.
  intros HP. apply framed_call. intros m a m'. unfold call_SendHardReset.
  destruct (SendHardReset (m_conn m) (m_session m)) as [c s]. intros H. one_call HP H.
Qed.

Lemma framed_call_SendACK (id : packetID) :
  P (EvControl (cSendACK id)) = true -> framed P f (call_SendACK id).
Proof.
  intros HP. apply framed_call. intros m a m'. unfold call_SendACK.
  destruct (SendACK (m_conn m) (m_session m) id) as [[c s] e]. intros H. one_call HP H.
Qed.

Lemma framed_call_ControlMessage :
  P (EvControl cControlMessage) = true -> framed P f call_ControlMessage.
Proof.
  intros HP. apply framed_call. intros m a m'. unfold call_ControlMessage.
  destruct (ControlMessage (m_session m) (m_options m)) as [s r]. intros H. one_call HP H.
Qed.

Lemma framed_call_SetupKeys (k : dataChannelKey) :
  (forall e, P (EvData (dSetupKeys k e)) = true) -> framed P f (call_SetupKeys k).
Proof.
  intros HP. apply framed_call. intros m a m'. unfold call_SetupKeys.
  destruct (SetupKeys (m_data m) (m_session m) k) as [[d s] e]. intros H. one_call HP H.
Qed.

Lemma framed_call_tlsHandshake (tc : TLSConn) (conf : tlsConfig) :
  P (EvTLS tHandshake) = true -> framed P f (call_tlsHandshake tc conf).
Proof.
  intros HP. apply framed_call. intros m a m'. unfold call_tlsHandshake.
  destruct (tlsHandshake tc conf (m_conn m) (m_session m)) as [[c s] r].
  intros H. one_call HP H.
Qed.

Lemma framed_call_tls_Read (n : nat) :
  (forall got e, P (EvTLS (tRead got e)) = true) -> framed P f (call_tls_Read n).
Proof.
  intros HP. apply framed_call. intros m a m'. unfold call_tls_Read.
  destruct (m_tls m) as [t|]; [|discriminate].
  destruct (tls_Read t (m_conn m) (m_session m) n) as [[[t' c] s] [got e]].
  intros H. one_call HP H.
Qed.

Lemma framed_call_tls_Write (b : bytes) :
  (forall e, P (EvTLS (tWrite b e)) = true) -> framed P f (call_tls_Write b).
Proof.
  intros HP. apply framed_call. intros m a m'. unfold call_tls_Write.
  destruct (m_tls m) as [t|]; [|discriminate].
  destruct (tls_Write t (m_conn m) (m_session m) b) as [[[t' c] s] [n e]].
  intros H. one_call HP H.
Qed.

End Frame.

Ltac frame_step :=
  match goal with
  | |- framed _ _ (bind _ _) => apply framed_bind; [|intros ?]
  | |- framed _ _ (ret _) => apply framed_ret
  | |- framed _ _ (panic _) => apply framed_panic
  | |- framed _ _ (get _) => apply framed_get
  | |- framed _ _ (modify _) => apply framed_modify; intros; reflexivity
  | |- framed _ _ (logger _ _ _) => apply framed_emit; intros; reflexivity
  | |- framed _ _ (emit _) => apply framed_emit; intros; reflexivity
  | |- framed _ _ call_readPacket => apply framed_call_readPacket; intros; reflexivity
  | |- framed _ _ call_SendHardReset => apply framed_call_SendHardReset; intros; reflexivity
  | |- framed _ _ (call_SendACK _) => apply framed_call_SendACK; intros; reflexivity
  | |- framed _ _ call_ControlMessage => apply framed_call_ControlMessage; intros; reflexivity
  | |- framed _ _ (call_SetupKeys _) => apply framed_call_SetupKeys; intros; reflexivity
  | |- framed _ _ (call_tlsHandshake _ _) => apply framed_call_tlsHandshake; intros; reflexivity
  | |- framed _ _ (call_tls_Read _) => apply framed_call_tls_Read; intros; reflexivity
  | |- framed _ _ (call_tls_Write _) => apply framed_call_tls_Write; intros; reflexivity
  | |- framed _ _ (call_ParseHardReset _) => unfold call_ParseHardReset
  | |- framed _ _ call_PushRequest => unfold call_PushRequest
  | |- framed _ _ (call_ReadPushResponse _) => unfold call_ReadPushResponse
  | |- framed _ _ (call_ReadControlMessage _) => unfold call_ReadControlMessage
  | |- framed _ _ readTLSPacket => unfold readTLSPacket
  | |- framed _ _ sendControlMessage => unfold sendControlMessage
  | |- framed _ _ readAndLoadRemoteKey => unfold readAndLoadRemoteKey
  | |- framed _ _ sendPushRequest => unfold sendPushRequest
  | |- framed _ _ readPushReply => unfold readPushReply
  | |- framed _ _ InitDataWithRemoteKey => unfold InitDataWithRemoteKey
  | |- framed _ _ Reset => unfold Reset
  | |- framed _ _ (match ?x with _ => _ end) => destruct x
  end.

(** ** What [Reset] does when it fails *)

Definition not_tls (e : event) : bool :=
  match e with EvTLS _ => false | _ => true end.

Lemma Reset_no_tls : framed not_tls (fun _ : muxer => tt) Reset.
Proof. unfold Reset. repeat frame_step. Qed.

Ltac run_monad :=
  unfold logger, emit, modify, get, bind, ret;
  cbn [m_conn m_tls m_data m_bufReader m_session m_tunnel m_options m_trace
       set_conn set_tls set_data set_bufReader set_session set_tunnel set_trace].

Lemma errors_Is_Errorf_err_w (e w target : error) :
  errors_Is (Errorf_err_w e w) target <->
  target = Errorf_err_w e w \/ errors_Is w target.
Proof. unfold errors_Is. cbn. split; intros [H|H]; auto. Qed.

(** X6: the two ways [Reset] fails.  A failed read of the transport is
    returned as it is.  A response that does not parse gives
    [fmt.Errorf("%s: %w", ErrBadHandshake, err)]: the error wraps the
    parser's error, and [ErrBadHandshake] is only part of its text, so
    [errors.Is(_, ErrBadHandshake)] holds of it only if it holds of the
    parser's error.  Either way the hard reset has been sent, the session
    is as [SendHardReset] left it (no remote session id is recorded), and
    no ACK is sent. *)
Theorem Reset_failure_modes (m : muxer) (c1 c2 : Conn) (s1 : session) :
  SendHardReset (m_conn m) (m_session m) = (c1, s1) ->
  (forall e,
     readPacket c1 = (c2, Err e) ->
     Reset m =
       Done (Some e)
            (set_trace (set_session (set_conn m c2) s1)
               (m_trace m ++ [EvControl cSendHardReset; EvReadPacket (Err e)]))) /\
  (forall resp e,
     readPacket c1 = (c2, Ok resp) ->
     ParseHardReset resp = Err e ->
     Reset m =
       Done (Some (Errorf_err_w ErrBadHandshake e))
            (set_trace (set_session (set_conn m c2) s1)
               (m_trace m ++ [EvControl cSendHardReset; EvReadPacket (Ok resp);
                              EvControl (cParseHardReset resp)])) /\
     errors_Is (Errorf_err_w ErrBadHandshake e) e /\
     (errors_Is (Errorf_err_w ErrBadHandshake e) ErrBadHandshake <->
      errors_Is e ErrBadHandshake)).
Proof.
  intros H1. split.
  - intros e H2. unfold Reset, call_SendHardReset, call_readPacket. run_monad.
    rewrite H1. cbn. rewrite H2. cbn. rewrite <- !app_assoc. reflexivity.
  - intros resp e H2 H3. split; [|split].
    + unfold Reset, call_SendHardReset, call_readPacket, call_ParseHardReset.
      run_monad. rewrite H1. cbn. rewrite H2. cbn. rewrite H3. cbn.
      rewrite <- !app_assoc. reflexivity.
    + apply errors_Is_Errorf_err_w. right. unfold errors_Is.
      destruct e; cbn; auto.
    + rewrite errors_Is_Errorf_err_w. split; [|auto].
      intros [H|H]; [discriminate H|exact H].
Qed.

(** ** The order of a handshake *)

Lemma split_after_prefix (P : event -> bool) (e1 e2 pre post : list event) (x : event) :
  forallb P e1 = true ->
  P x = false ->
  e1 ++ e2 = pre ++ x :: post ->
  exists pre2, pre = e1 ++ pre2.
Proof.
  revert pre. induction e1 as [|h t IH]; intros pre Hall Hx Heq.
  - now exists pre.
  - cbn in Hall. apply andb_prop in Hall. destruct Hall as [Hh Ht].
    destruct pre as [|p pre'].
    + cbn in Heq. injection Heq as -> _. congruence.
    + cbn in Heq. injection Heq as -> Heq.
      destruct (IH pre' Ht Hx Heq) as (pre2 & ->). now exists pre2.
Qed.

Definition any_event (e : event) : bool := true.

(** [Handshake] is [Reset] and then, if [Reset] returned [nil], more. *)
Lemma Handshake_after_Reset (m : muxer) (r : option error) (m' : muxer) :
  Handshake m = Done r m' ->
  exists r1 m1 e2,
    Reset m = Done r1 m1 /\
    m_trace m' = m_trace m1 ++ e2 /\
    (r1 <> None -> r = r1 /\ m' = m1).
Proof.
  unfold Handshake. unfold bind at 1.
  destruct (Reset m) as [[err|] m1|why] eqn:H1; try discriminate.
  - intros [= <- <-]. exists (Some err), m1, [].
    split; [reflexivity|]. split; [now rewrite app_nil_r|]. now intros _.
  - intros H.
    match type of H with
    | ?k m1 = _ =>
        assert (Q : framed any_event (fun _ : muxer => tt) k)
          by (repeat frame_step)
    end.
    destruct (proj1 Q _ _ _ H) as (e2 & T2 & _).
    exists None, m1, e2. split; [reflexivity|]. split; [exact T2|].
    intros C. now contradiction C.
Qed.

Lemma Reset_nil_ends_with_ACK (m m1 : muxer) :
  Reset m = Done None m1 ->
  exists before, m_trace m1 = m_trace m ++ before ++ [EvControl (cSendACK 0)].
Proof.
  unfold Reset, call_SendHardReset, call_readPacket, call_ParseHardReset, call_SendACK.
  run_monad.
  destruct (SendHardReset (m_conn m) (m_session m)) as [c1 s1]. cbn.
  destruct (readPacket c1) as [c2 [resp|e]]; cbn; [|intros H; discriminate H].
  destruct (ParseHardReset resp) as [sid|e]; cbn; [|intros H; discriminate H].
  destruct (SendACK c2 (set_RemoteSessionID s1 sid) 0) as [[c3 s3] e]. cbn.
  intros [= <-]. cbn [m_trace set_trace set_session set_conn].
  exists [EvControl cSendHardReset; EvReadPacket (Ok resp);
          EvControl (cParseHardReset resp);
          EvLog lvlInfo "Remote session ID: %x" [argBytes sid];
          EvLog lvlInfo "Local session ID:  %x" [argBytes (LocalSessionID s1)]].
  rewrite <- !app_assoc. reflexivity.
Qed.

(** X7: TLS comes after the ACK.  In every run of [Handshake], whatever its
    outcome, anything that happens on the TLS channel (the TLS handshake,
    a read, a write) happens after [SendACK] was called for packet-id 0. *)
Theorem Handshake_acks_before_TLS
    (m : muxer) (r : option error) (m' : muxer)
    (pre post : list event) (c : tlsCall) :
  Handshake m = Done r m' ->
  m_trace m' = m_trace m ++ pre ++ EvTLS c :: post ->
  In (EvControl (cSendACK 0)) pre.
Proof.
  intros H Ht.
  destruct (Handshake_after_Reset _ _ _ H) as (r1 & m1 & e2 & H1 & T2 & Hfail).
  destruct (proj1 Reset_no_tls _ _ _ H1) as (e1 & T1 & Q1).
  rewrite T2, T1, <- app_assoc in Ht. apply app_inv_head in Ht.
  destruct (split_after_prefix not_tls e1 e2 pre post (EvTLS c) Q1 eq_refl Ht)
    as (pre2 & ->).
  destruct r1 as [err|].
  - destruct (Hfail ltac:(discriminate)) as [_ ->].
    assert (E : e2 = []).
    { rewrite <- (app_nil_r (m_trace m1)) in T2 at 1.
      apply app_inv_head in T2. now symmetry. }
    subst e2. rewrite <- app_assoc in Ht. apply app_inv_head in Ht.
    destruct pre2; discriminate Ht.
  - destruct (Reset_nil_ends_with_ACK _ _ H1) as (before & T1').
    rewrite T1 in T1'. apply app_inv_head in T1'. subst e1.
    rewrite !in_app_iff. left. right. now left.
Qed.

(** ** TLS packets *)

Lemma skipn_repeat_zero (k n : nat) :
  skipn k (repeat x00 n) = repeat x00 (n - k).
Proof.
  revert k. induction n as [|n IH]; intros [|k]; cbn; try reflexivity. apply IH.
Qed.

Lemma copy_into_zeros (n : nat) (got : bytes) :
  copy (make n) got = firstn n got ++ repeat x00 (n - length got).
Proof.
  unfold copy, make. now rewrite repeat_length, skipn_repeat_zero.
Qed.

(** What [readTLSPacket] returns. *)
Lemma readTLSPacket_inv
    (m : muxer) (data : bytes) (err : option error) (m' : muxer) :
  readTLSPacket m = Done (data, err) m' ->
  length data = 4096%nat /\
  exists got,
    m_trace m' = m_trace m ++ [EvTLS (tRead got err)] /\
    data = firstn 4096 got ++ repeat x00 (4096 - length got).
Proof.
  unfold readTLSPacket, call_tls_Read. run_monad.
  destruct (m_tls m) as [t|]; [|intros H; discriminate H].
  destruct (tls_Read t (m_conn m) (m_session m) (length (make 4096)))
    as [[[t' c] s] [got e]].
  intros [= <- <- <-]. cbn [m_trace set_trace].
  assert (E : copy (make 4096) got = firstn 4096 got ++ repeat x00 (4096 - length got))
    by apply copy_into_zeros.
  split.
  - rewrite E, length_app, length_firstn, repeat_length. lia.
  - exists got. split; [reflexivity|exact E].
Qed.

(** X8: a TLS packet is always 4096 bytes.  Whatever [m.tls.Read] returned,
    [readTLSPacket] hands on a buffer of exactly 4096 bytes: the bytes
    read (at most the first 4096 of them), then zeros.  The number of bytes
    read is dropped, so the callers' parsers see the padding, and the
    buffer is returned with the error when the read fails. *)
Theorem readTLSPacket_buffer
    (m : muxer) (data : bytes) (err : option error) (m' : muxer) :
  readTLSPacket m = Done (data, err) m' ->
  length data = 4096%nat /\
  exists got,
    m_trace m' = m_trace m ++ [EvTLS (tRead got err)] /\
    data = firstn 4096 got ++ repeat x00 (4096 - length got).
Proof. apply readTLSPacket_inv. Qed.

(** X9: [InitDataWithRemoteKey] before the TLS handshake.  The method is
    exported through [vpnMuxer]; called while [m.tls] is still [nil] it
    panics on the first TLS write if [ControlMessage] produced a message,
    and returns [ControlMessage]'s error, without panicking, if it did
    not. *)
Theorem InitDataWithRemoteKey_needs_tls (m : muxer) (s : session) :
  m_tls m = None ->
  (forall cm,
     ControlMessage (m_session m) (m_options m) = (s, Ok cm) ->
     InitDataWithRemoteKey m = Panic "nil m.tls") /\
  (forall e,
     ControlMessage (m_session m) (m_options m) = (s, Err e) ->
     InitDataWithRemoteKey m =
       Done (Some e) (set_trace (set_session m s)
                        (m_trace m ++ [EvControl cControlMessage]))).
Proof.
  intros Htls. split.
  - intros cm H. unfold InitDataWithRemoteKey, sendControlMessage,
      call_ControlMessage, call_tls_Write. run_monad.
    rewrite H. cbn. rewrite Htls. reflexivity.
  - intros e H. unfold InitDataWithRemoteKey, sendControlMessage,
      call_ControlMessage. run_monad. rewrite H. reflexivity.
Qed.

(** ** Keys before the push request *)

Definition not_push_request (e : event) : bool :=
  match e with EvControl cPushRequest => false | _ => true end.

Lemma sendControlMessage_no_push :
  framed not_push_request (fun _ : muxer => tt) sendControlMessage.
Proof. repeat frame_step. Qed.

Lemma readAndLoadRemoteKey_no_push :
  framed not_push_request (fun _ : muxer => tt) readAndLoadRemoteKey.
Proof. repeat frame_step. Qed.

(** X10: no push request before the keys are set up.  In every run of
    [InitDataWithRemoteKey], whatever its outcome, a call of
    [PushRequest] comes after a call of [SetupKeys] that returned [nil]. *)
Theorem push_request_only_after_SetupKeys
    (m : muxer) (r : option error) (m' : muxer) (pre post : list event) :
  InitDataWithRemoteKey m = Done r m' ->
  m_trace m' = m_trace m ++ pre ++ EvControl cPushRequest :: post ->
  exists k, In (EvData (dSetupKeys k None)) pre.
Proof.
  unfold InitDataWithRemoteKey. unfold bind at 1.
  destruct (sendControlMessage m) as [[err|] m1|why] eqn:H1; try discriminate;
    destruct (proj1 sendControlMessage_no_push _ _ _ H1) as (e1 & T1 & Q1).
  { intros [= <- <-] Ht. rewrite T1 in Ht. apply app_inv_head in Ht.
    assert (Hin : In (EvControl cPushRequest) e1)
      by (rewrite Ht, in_app_iff; right; now left).
    rewrite forallb_forall in Q1. apply Q1 in Hin. discriminate Hin. }
  unfold bind at 1.
  destruct (readAndLoadRemoteKey m1) as [[err|] m2|why] eqn:H2; try discriminate;
    destruct (proj1 readAndLoadRemoteKey_no_push _ _ _ H2) as (e2 & T2 & Q2).
  { intros [= <- <-] Ht. rewrite T2, T1, <- app_assoc in Ht. apply app_inv_head in Ht.
    assert (Hin : In (EvControl cPushRequest) (e1 ++ e2))
      by (rewrite Ht, in_app_iff; right; now left).
    assert (Hall : forallb not_push_request (e1 ++ e2) = true)
      by now rewrite forallb_app, Q1, Q2.
    rewrite forallb_forall in Hall. apply Hall in Hin. discriminate Hin. }
  unfold bind at 1, get.
  destruct (ActiveKey (m_session m2)) as [k|err].
  2:{ intros [= <- <-] Ht. rewrite T2, T1, <- app_assoc in Ht. apply app_inv_head in Ht.
      assert (Hin : In (EvControl cPushRequest) (e1 ++ e2))
        by (rewrite Ht, in_app_iff; right; now left).
      assert (Hall : forallb not_push_request (e1 ++ e2) = true)
        by now rewrite forallb_app, Q1, Q2.
      rewrite forallb_forall in Hall. apply Hall in Hin. discriminate Hin. }
  unfold bind at 1.
  destruct (call_SetupKeys k m2) as [e m3|why] eqn:H3; [|discriminate].
  assert (T3 : m_trace m3 = m_trace m2 ++ [EvData (dSetupKeys k e)]).
  { revert H3. unfold call_SetupKeys.
    destruct (SetupKeys (m_data m2) (m_session m2) k) as [[d s] e0].
    intros [= -> <-]. reflexivity. }
  destruct e as [err|].
  { intros [= <- <-] Ht. rewrite T3, T2, T1, <- !app_assoc in Ht.
    apply app_inv_head in Ht.
    assert (Hin : In (EvControl cPushRequest)
                     (e1 ++ e2 ++ [EvData (dSetupKeys k (Some err))]))
      by (rewrite Ht, in_app_iff; right; now left).
    assert (Hall : forallb not_push_request
                     (e1 ++ e2 ++ [EvData (dSetupKeys k (Some err))]) = true)
      by now rewrite !forallb_app, Q1, Q2.
    rewrite forallb_forall in Hall. apply Hall in Hin. discriminate Hin. }
  intros H Ht.
  match type of H with
  | ?c m3 = _ =>
      assert (Q : framed any_event (fun _ : muxer => tt) c) by (repeat frame_step)
  end.
  destruct (proj1 Q _ _ _ H) as (e4 & T4 & _).
  rewrite T4, T3, T2, T1, <- !app_assoc in Ht. apply app_inv_head in Ht.
  assert (Hall : forallb not_push_request (e1 ++ e2 ++ [EvData (dSetupKeys k None)]) = true)
    by now rewrite !forallb_app, Q1, Q2.
  rewrite !app_assoc in Ht. rewrite <- (app_assoc e1) in Ht.
  destruct (split_after_prefix not_push_request _ e4 pre post (EvControl cPushRequest)
              Hall eq_refl Ht) as (pre2 & ->).
  exists k. rewrite !in_app_iff. left. right. right. now left.
Qed.

(** ** What a handshake leaves *)

(** What [readPushReply] did when it returned [nil]. *)
Lemma readPushReply_nil (m m' : muxer) :
  readPushReply m = Done None m' ->
  exists resp t tn,
    length resp = 4096%nat /\
    isBadAuthReply resp = false /\
    isPushReply resp = true /\
    m_tls m' = Some t /\
    m_tunnel m = Some tn /\
    m_tunnel m' = Some {| ip := ReadPushResponse resp; mtu := mtu tn |}.
Proof.
  unfold readPushReply. unfold bind at 1.
  destruct (readTLSPacket m) as [[resp err] m1|why] eqn:H1;
    [|intros H; discriminate H].
  destruct err as [err|]; [run_monad; intros H; discriminate H|].
  destruct (readTLSPacket_inv _ _ _ _ H1) as (Hlen & _).
  assert (Hsame : m_tunnel m1 = m_tunnel m /\ exists t, m_tls m1 = Some t).
  { revert H1. unfold readTLSPacket, call_tls_Read. run_monad.
    destruct (m_tls m) as [t|]; [|intros H; discriminate H].
    destruct (tls_Read t (m_conn m) (m_session m) (length (make 4096)))
      as [[[t' c] s] [got e]].
    intros [= _ _ <-]. split; [reflexivity|now exists t']. }
  destruct Hsame as (Htn & t & Ht).
  unfold call_ReadPushResponse. run_monad.
  destruct (isBadAuthReply resp) eqn:Hbad; [intros H; discriminate H|].
  destruct (isPushReply resp) eqn:Hpush; cbn [negb]; [|intros H; discriminate H].
  run_monad. rewrite Htn.
  destruct (m_tunnel m) as [tn|] eqn:Etn; [|intros H; discriminate H].
  intros [= <-]. cbn. exists resp, t, tn.
  split; [exact Hlen|]. split; [exact Hbad|]. split; [exact Hpush|].
  split; [exact Ht|]. split; reflexivity.
Qed.

Lemma InitData_nil_ends_in_push_reply (m m' : muxer) :
  InitDataWithRemoteKey m = Done None m' ->
  exists m8, readPushReply m8 = Done None m'.
Proof.
  unfold InitDataWithRemoteKey. unfold bind at 1.
  destruct (sendControlMessage m) as [[err|] m1|why]; try discriminate.
  unfold bind at 1.
  destruct (readAndLoadRemoteKey m1) as [[err|] m2|why]; try discriminate.
  unfold bind at 1, get.
  destruct (ActiveKey (m_session m2)) as [k|err]; [|discriminate].
  unfold bind at 1.
  destruct (call_SetupKeys k m2) as [[err|] m3|why]; try discriminate.
  unfold bind at 1.
  destruct (sendPushRequest m3) as [[n [err|]] m4|why]; try discriminate.
  cbn [snd]. unfold bind.
  destruct (readPushReply m4) as [[err|] m5|why] eqn:H; try discriminate.
  intros [= <-]. now exists m4.
Qed.

Lemma Handshake_nil_ends_in_InitData (m m' : muxer) :
  Handshake m = Done None m' ->
  exists m3 m4,
    InitDataWithRemoteKey m3 = Done None m4 /\
    m' = set_trace m4 (m_trace m4 ++ [EvLog lvlInfo "VPN handshake done" []]).
Proof.
  unfold Handshake. unfold bind at 1.
  destruct (Reset m) as [[err|] m1|why]; try discriminate.
  run_monad.
  destruct (initTLS _ _) as [conf|err]; [|discriminate].
  destruct (NewTLSConn _ _) as [tc|err]; [|discriminate].
  destruct (call_tlsHandshake tc conf m1) as [[t|err] m2|why]; try discriminate.
  destruct (InitDataWithRemoteKey _) as [[err|] m4|why] eqn:H; try discriminate.
  intros [= <-]. eexists _, m4. split; [exact H|reflexivity].
Qed.

(** No packet of the data channel is decrypted or written. *)
Definition no_payload (e : event) : bool :=
  match e with
  | EvData (dReadPacket _ _) | EvData (dWritePacket _) => false
  | _ => true
  end.

Lemma Handshake_framed :
  framed no_payload (fun m : muxer => (m_bufReader m, m_options m)) Handshake.
Proof. unfold Handshake. repeat frame_step. Qed.

(** X11: what [Handshake] leaves behind.  Whatever its outcome, [Handshake]
    does not touch the read buffer or the options and never calls
    [ReadPacket] or [WritePacket].  When it returns [nil], the TLS
    connection is set, its last action was to log "VPN handshake done",
    and the tunnel's IP is what [ReadPushResponse] made of a 4096-byte
    reply that starts with ["PUSH_REPLY"]. *)
Theorem Handshake_postconditions (m : muxer) (r : option error) (m' : muxer) :
  Handshake m = Done r m' ->
  m_bufReader m' = m_bufReader m /\
  m_options m' = m_options m /\
  (exists evs, m_trace m' = m_trace m ++ evs /\ forallb no_payload evs = true) /\
  (r = None ->
   exists resp t tn before,
     m_tls m' = Some t /\
     m_tunnel m' = Some tn /\
     ip tn = ReadPushResponse resp /\
     length resp = 4096%nat /\
     isPushReply resp = true /\
     m_trace m' = before ++ [EvLog lvlInfo "VPN handshake done" []]).
Proof.
  intros H.
  pose proof (proj2 Handshake_framed _ _ _ H) as Hf. injection Hf as Hb Ho.
  split; [exact Hb|]. split; [exact Ho|].
  split; [exact (proj1 Handshake_framed _ _ _ H)|].
  intros ->.
  destruct (Handshake_nil_ends_in_InitData _ _ H) as (m3 & m4 & H3 & ->).
  destruct (InitData_nil_ends_in_push_reply _ _ H3) as (m8 & H8).
  destruct (readPushReply_nil _ _ H8) as (resp & t & tn & Hlen & _ & Hpr & Ht & _ & Htn).
  exists resp, t, {| ip := ReadPushResponse resp; mtu := mtu tn |}, (m_trace m4).
  cbn. repeat split; assumption.
Qed.

(** X12: a nil tunnel pointer.  [readPushReply] dereferences [m.tunnel]
    only after it has accepted the reply.  With a [nil] tunnel a valid
    push reply makes it panic, while a failed read, an [AUTH_FAILED] reply
    and a reply that is no push reply are reported as errors. *)
Theorem readPushReply_nil_tunnel
    (m : muxer) (resp : bytes) (err : option error) (m1 : muxer) :
  m_tunnel m = None ->
  readTLSPacket m = Done (resp, err) m1 ->
  match err with
  | Some e => readPushReply m = Done (Some e) m1
  | None =>
      if isBadAuthReply resp || negb (isPushReply resp)
      then exists e m', readPushReply m = Done (Some e) m'
      else readPushReply m = Panic "nil m.tunnel"
  end.
Proof.
  intros Htn H1.
  assert (Hsame : m_tunnel m1 = None).
  { revert H1. unfold readTLSPacket, call_tls_Read. run_monad.
    destruct (m_tls m) as [t|]; [|intros H; discriminate H].
    destruct (tls_Read t (m_conn m) (m_session m) (length (make 4096)))
      as [[[t' c] s] [got e]].
    intros [= _ _ <-]. exact Htn. }
  unfold readPushReply, call_ReadPushResponse. run_monad.
  destruct err as [e|]; rewrite H1; cbn beta iota; [reflexivity|].
  destruct (isBadAuthReply resp); cbn [orb]; [eexists _, _; reflexivity|].
  destruct (isPushReply resp); cbn [negb]; [|eexists _, _; reflexivity].
  cbn [m_tunnel set_trace]. rewrite Hsame. reflexivity.
Qed.

End Handshaking.
End HandshakeFacts.

(* ================================================================== *)
(** * Panics *)
(* ================================================================== *)

Module PanicFacts.
Import Muxer MuxerFacts.

Section Panics.

Context {Conn TLS D Options packet : Type}.
Context {control : controlHandler Conn Options}.
Context {dataH : dataHandler D Conn packet}.
Context {pkg : vpnPackage Conn TLS D Options packet}.

Abbreviation muxer := (muxer Conn TLS D Options packet).
Abbreviation M := (@M Conn TLS D Options packet).

(** [inv E I c]: started in a state of [I], [c] ends in a state of [I],
    or panics with a message of [E]. *)
Definition inv (E : string -> Prop) (I : muxer -> Prop) {A : Type} (c : M A) : Prop :=
  forall m, I m ->
    match c m with
    | Done _ m' => I m'
    | Panic why => E why
    end.

Definition has_tls (m : muxer) : Prop := m_tls m <> None.

Section Invariant.

Variable E : string -> Prop.
Variable I : muxer -> Prop.
Hypothesis I_trace : forall m t, I m -> I (set_trace m t).
Hypothesis I_conn : forall m c, I m -> I (set_conn m c).
Hypothesis I_session : forall m s, I m -> I (set_session m s).
Hypothesis I_data : forall m d, I m -> I (set_data m d).

Lemma inv_ret {A : Type} (a : A) : inv E I (ret a).
Proof. intros m Hm. exact Hm. Qed.

Lemma inv_bind {A C : Type} (c : M A) (k : A -> M C) :
  inv E I c -> (forall a, inv E I (k a)) -> inv E I (bind c k).
Proof.
  intros Hc Hk m Hm. unfold bind. specialize (Hc m Hm).
  destruct (c m) as [a m1|why]; [|exact Hc]. now apply Hk.
Qed.

Lemma inv_emit (e : event packet) : inv E I (emit e).
Proof. intros m Hm. cbn. now apply I_trace. Qed.

Lemma inv_get {A : Type} (g : muxer -> A) : inv E I (get g).
Proof. intros m Hm. exact Hm. Qed.

Lemma inv_modify (g : muxer -> muxer) :
  (forall m, I m -> I (g m)) -> inv E I (modify g).
Proof. intros Hg m Hm. now apply Hg. Qed.

Lemma inv_call_readPacket : inv E I call_readPacket.
Proof.
  intros m Hm. unfold call_readPacket.
  destruct (readPacket (m_conn m)) as [c r]. auto.
Qed.

Lemma inv_call_SendHardReset : inv E I call_SendHardReset.
Proof.
  intros m Hm. unfold call_SendHardReset.
  destruct (SendHardReset (m_conn m) (m_session m)) as [c s]. auto.
Qed.

Lemma inv_call_SendACK (id : packetID) : inv E I (call_SendACK id).
Proof.
  intros m Hm. unfold call_SendACK.
  destruct (SendACK (m_conn m) (m_session m) id) as [[c s] e]. auto.
Qed.

Lemma inv_call_ControlMessage : inv E I call_ControlMessage.
Proof.
  intros m Hm. unfold call_ControlMessage.
  destruct (ControlMessage (m_session m) (m_options m)) as [s r]. auto.
Qed.

Lemma inv_call_SetupKeys (k : dataChannelKey) : inv E I (call_SetupKeys k).
Proof.
  intros m Hm. unfold call_SetupKeys.
  destruct (SetupKeys (m_data m) (m_session m) k) as [[d s] e]. auto.
Qed.

Lemma inv_call_tlsHandshake (tc : TLSConn) (conf : tlsConfig) :
  inv E I (call_tlsHandshake tc conf).
Proof.
  intros m Hm. unfold call_tlsHandshake.
  destruct (tlsHandshake tc conf (m_conn m) (m_session m)) as [[c s] r]. auto.
Qed.

Lemma inv_Reset : inv E I Reset.
Proof.
  unfold Reset, call_ParseHardReset.
  repeat first
    [ apply inv_bind; [|intros ?] | apply inv_ret | apply inv_get
    | apply inv_emit | apply inv_call_SendHardReset | apply inv_call_readPacket
    | apply inv_call_SendACK
    | apply inv_modify; intros; apply I_session; assumption
    | match goal with |- inv _ _ (match ?x with _ => _ end) => destruct x end ].
Qed.

(** From here on [m.tls] is in use. *)
Hypothesis I_has_tls : forall m, I m -> has_tls m.
Hypothesis I_tls : forall m t, I m -> I (set_tls m (Some t)).

Lemma inv_call_tls_Read (n : nat) : inv E I (call_tls_Read n).
Proof.
  intros m Hm. unfold call_tls_Read.
  destruct (m_tls m) as [t|] eqn:Et; [|now destruct (I_has_tls m Hm)].
  destruct (tls_Read t (m_conn m) (m_session m) n) as [[[t' c] s] [got e]]. auto.
Qed.

Lemma inv_call_tls_Write (b : bytes) : inv E I (call_tls_Write b).
Proof.
  intros m Hm. unfold call_tls_Write.
  destruct (m_tls m) as [t|] eqn:Et; [|now destruct (I_has_tls m Hm)].
  destruct (tls_Write t (m_conn m) (m_session m) b) as [[[t' c] s] [n e]]. auto.
Qed.

(** What the code does with [m.tunnel]. *)
Hypothesis I_parse :
  forall m opts, I m -> I (set_tunnel m (parseRemoteOptions (m_tunnel m) opts)).
Hypothesis I_set_tunnel : forall m t, I m -> I (set_tunnel m (Some t)).
Hypothesis I_deref : forall m, I m -> m_tunnel m = None -> E "nil m.tunnel".

Lemma inv_deref_tunnel {A : Type} (k : tunnel -> M A) :
  (forall t, inv E I (k t)) ->
  inv E I (bind (get m_tunnel)
             (fun t => match t with
                       | None => panic "nil m.tunnel"
                       | Some t => k t
                       end)).
Proof.
  intros Hk m Hm. unfold bind, get.
  destruct (m_tunnel m) as [t|] eqn:Et.
  - now apply Hk.
  - now apply (I_deref m).
Qed.

Ltac inv_step :=
  first
    [ apply inv_deref_tunnel; intros ?
    | apply inv_bind; [|intros ?] | apply inv_ret | apply inv_get
    | apply inv_emit | apply inv_call_ControlMessage | apply inv_call_SetupKeys
    | apply inv_call_tls_Read | apply inv_call_tls_Write
    | apply inv_modify; intros; first [apply I_session | apply I_parse | apply I_set_tunnel];
      assumption
    | match goal with |- inv _ _ (match ?x with _ => _ end) => destruct x end
    | match goal with |- inv _ _ (if ?x then _ else _) => destruct x end ].

Lemma inv_InitDataWithRemoteKey : inv E I InitDataWithRemoteKey.
Proof.
  unfold InitDataWithRemoteKey, sendControlMessage, readAndLoadRemoteKey,
    sendPushRequest, readPushReply, readTLSPacket, call_ReadControlMessage,
    call_PushRequest, call_ReadPushResponse, logger.
  repeat inv_step.
Qed.

End Invariant.

(** [Handshake] for an invariant [T] of the tunnel pointer. *)
Lemma inv_Handshake (E : string -> Prop) (T : option tunnel -> Prop) :
  (forall t opts, T t -> T (parseRemoteOptions t opts)) ->
  (forall t, T (Some t)) ->
  (T None -> E "nil m.tunnel"%string) ->
  inv E (fun m => T (m_tunnel m)) Handshake.
Proof.
  intros Hparse Hsome Hnone.
  pose (I0 := fun m : muxer => T (m_tunnel m)).
  pose (I1 := fun m : muxer => T (m_tunnel m) /\ has_tls m).
  assert (HR : inv E I0 Reset) by (apply inv_Reset; intros; assumption).
  assert (HI : inv E I1 InitDataWithRemoteKey).
  { apply inv_InitDataWithRemoteKey; unfold I1, has_tls; cbn.
    - intros; assumption.
    - intros; assumption.
    - intros; assumption.
    - intros; assumption.
    - intros m [_ H]; exact H.
    - intros m t [H _]; split; [exact H|discriminate].
    - intros m opts [H1 H2]; split; [now apply Hparse|exact H2].
    - intros m t [_ H2]; split; [apply Hsome|exact H2].
    - intros m [H1 _] Hn. apply Hnone. now rewrite <- Hn. }
  intros m Hm. unfold Handshake. unfold bind at 1.
  specialize (HR m Hm). destruct (Reset m) as [[err|] m1|why]; [exact HR|..|exact HR].
  unfold bind at 1 2 3, get.
  destruct (initTLS (m_session m1) (m_options m1)) as [tlsConf|err]; [|exact HR].
  destruct (NewTLSConn (m_conn m1) (m_session m1)) as [tlsConn|err]; [|exact HR].
  unfold bind at 1, call_tlsHandshake.
  destruct (tlsHandshake tlsConn tlsConf (m_conn m1) (m_session m1)) as [[c s] [t|err]];
    [|exact HR].
  unfold bind at 1 2, modify, logger, emit. unfold bind at 1.
  match goal with |- context [InitDataWithRemoteKey ?m2] =>
    assert (H2 : I1 m2) by (split; [exact HR|discriminate]);
    specialize (HI m2 H2); destruct (InitDataWithRemoteKey m2) as [[err|] m3|why]
  end.
  - exact (proj1 HI).
  - cbn. exact (proj1 HI).
  - exact HI.
Qed.

(** The general form of the second result below. *)
Lemma Handshake_with_tunnel_returns (m : muxer) :
  (forall t opts, parseRemoteOptions (Some t) opts <> None) ->
  m_tunnel m <> None ->
  exists r m', Handshake m = Done r m' /\ m_tunnel m' <> None.
Proof.
  intros Hparse Hm.
  pose proof (inv_Handshake (fun _ => False) (fun t => t <> None)) as H.
  specialize (H ltac:(intros [t|] opts Ht; [apply Hparse|contradiction])
                ltac:(discriminate) ltac:(intros Hn; now apply Hn) m Hm).
  destruct (Handshake m) as [r m'|why]; [|contradiction].
  now exists r, m'.
Qed.

(** X13: [Handshake] never dereferences a nil TLS connection: it sets [m.tls]
    before its first TLS read or write.  The one panic it can end in is
    the assignment to [m.tunnel.ip] through a nil tunnel pointer. *)
Theorem Handshake_panics_only_on_nil_tunnel (m : muxer) (why : string) :
  Handshake m = Panic why -> why = "nil m.tunnel"%string.
Proof.
  intros H.
  pose proof (inv_Handshake (fun w => w = "nil m.tunnel"%string) (fun _ => True)
                (fun _ _ _ => I) (fun _ => I) (fun _ => eq_refl) m I) as Hi.
  rewrite H in Hi. exact Hi.
Qed.

(** X14: a muxer made by [newMuxerFromOptions] with a tunnel: [m.tls] is nil
    and the read buffer empty, and [Handshake] on it returns, with or
    without an error, provided that [parseRemoteOptions] never returns nil
    for a tunnel that is not; the tunnel pointer is then still set and the
    read buffer still empty. *)
Theorem Handshake_of_new_muxer_returns
    (c : Conn) (o : Options) (tn : tunnel) (m : muxer) :
  (forall t opts, parseRemoteOptions (Some t) opts <> None) ->
  newMuxerFromOptions c o (Some tn) = Ok m ->
  m_tls m = None /\
  exists r m', Handshake m = Done r m' /\ m_tunnel m' <> None /\ m_bufReader m' = [].
Proof.
  intros Hparse Hnew.
  assert (Hm : m_tls m = None /\ m_tunnel m = Some tn /\ m_bufReader m = []).
  { revert Hnew. unfold newMuxerFromOptions.
    destruct newSession as [s|e]; [|discriminate].
    destruct (newDataFromOptions o s) as [d|e]; [|discriminate].
    intros [= <-]. cbn. auto. }
  destruct Hm as (Htls & Htn & Hbuf). split; [exact Htls|].
  destruct (Handshake_with_tunnel_returns m Hparse) as (r & m' & H & Ht).
  { rewrite Htn. discriminate. }
  exists r, m'. split; [exact H|]. split; [exact Ht|].
  pose proof (proj2 HandshakeFacts.Handshake_framed _ _ _ H) as Hf.
  injection Hf as Hb _. now rewrite Hb.
Qed.

End Panics.

End PanicFacts.

(* ================================================================== *)
(** * Properties of the probe path *)
(* ================================================================== *)

Module ProbeFacts.
Import Probe FramingFacts.

Lemma uint16_range (n : Z) : 0 <= uint16 n < 65536.
Proof. rewrite uint16_mod. apply Z.mod_pos_bound. lia. Qed.

Lemma uint16_small (n : Z) : 0 <= n < 65536 -> uint16 n = n.
Proof. intros H. rewrite uint16_mod. now apply Z.mod_small. Qed.

(** X15: the identifier fits the ICMP header.  [NewPinger] keeps the low
    sixteen bits of the process id, so the [uint16] conversions of
    [newIcmpData] and of [handleIncoming] lose nothing: every probe
    carries the pinger's [ID] itself, and a reply that echoes the probe's
    identifier passes the check of [handleIncoming]. *)
Theorem NewPinger_ID_fits (pid : Z) (h : string) (count : Z) :
  0 <= ID (NewPinger pid h count) < 65536 /\
  (forall src dst t s now,
     icmp_Id (craftAndSendICMP (NewPinger pid h count) src dst t s now)
       = ID (NewPinger pid h count)) /\
  (forall local d rest,
     icmp_Id_in d = ID (NewPinger pid h count) ->
     check_layers (NewPinger pid h count) local d (LayerTypeICMPv4 :: rest)
       = check_layers (NewPinger pid h count) local d rest).
Proof.
  assert (R : 0 <= ID (NewPinger pid h count) < 65536) by apply uint16_range.
  split; [exact R|]. split.
  - intros. cbn [craftAndSendICMP newIcmpData icmp_Id]. now apply uint16_small.
  - intros local d rest Hd. cbn [check_layers]. rewrite Hd, (uint16_small _ R).
    now rewrite Z.eqb_refl.
Qed.

(** X16: type and code of a probe.  For every [typeCode], [newIcmpData]
    puts the low eight bits of it in the type byte (the high byte of the
    16-bit [TypeCode]) and zero in the code byte; the pinger's probes, built
    with 8, are echo requests with code 0. *)
Theorem newIcmpData_type_and_code (src dst : string) (typeCode t s id now : Z) :
  Z.land (icmp_TypeCode (newIcmpData src dst typeCode t s id now)) 255 = 0 /\
  Z.shiftr (icmp_TypeCode (newIcmpData src dst typeCode t s id now)) 8
    = typeCode mod 256 /\
  (forall p, icmp_TypeCode (craftAndSendICMP p src dst t s now) = 2048).
Proof.
  cbn [newIcmpData icmp_TypeCode craftAndSendICMP].
  assert (E : uint16 (Z.shiftl (uint16 typeCode) 8) = 256 * (typeCode mod 256)).
  { rewrite !uint16_mod, Z.shiftl_mul_pow2 by lia. change (2 ^ 8) with 256.
    Z.div_mod_to_equations. lia. }
  rewrite E. split; [|split].
  - rewrite land_255_mod, Z.mul_comm. apply Z.mod_mul. lia.
  - rewrite Z.shiftr_div_pow2 by lia. change (2 ^ 8) with 256.
    rewrite Z.mul_comm. apply Z.div_mul. lia.
  - intros p. reflexivity.
Qed.

Lemma ts_get_set_same (t : tsMap) (k v : Z) : ts_get (ts_set t k v) k = v.
Proof. cbn. now rewrite Z.eqb_refl. Qed.

Lemma ts_get_set_other (t : tsMap) (k k' v : Z) :
  k <> k' -> ts_get (ts_set t k v) k' = ts_get t k'.
Proof. intros H. cbn. destruct (Z.eqb_spec k k'); [contradiction|reflexivity]. Qed.

(** X17: from a probe to its reply.  [sendPayload] stores the send time
    under the loop index [s], while the probe carries [uint16(s)], which is
    what an echo reply brings back and [getInterval] looks up.  For
    [s < 65536] the reply finds the time just stored; from 65536 on it
    misses it and is measured against whatever the map holds for
    [s mod 65536]. *)
Theorem reply_finds_its_send_time (p : Pinger) (local : string) (s now now' now2 : Z) :
  (0 <= s < 65536 ->
   getInterval (fst (sendPayload p local s now now')) now2
               (icmp_Seq (snd (sendPayload p local s now now')))
     = now2 - now) /\
  (65536 <= s ->
   getInterval (fst (sendPayload p local s now now')) now2
               (icmp_Seq (snd (sendPayload p local s now now')))
     = getInterval p now2 (s mod 65536)).
Proof.
  cbn [sendPayload fst snd craftAndSendICMP newIcmpData icmp_Seq].
  unfold getInterval. cbn [ts]. split; intros Hs.
  - rewrite (uint16_small _ Hs), ts_get_set_same. reflexivity.
  - rewrite uint16_mod, ts_get_set_other; [reflexivity|].
    pose proof (Z.mod_pos_bound s 65536). lia.
Qed.

(** The sends of [Run], one after the other: each element is the sequence
    number with the two clock readings. *)
Fixpoint send_all (p : Pinger) (local : string) (l : list (Z * Z * Z)) : Pinger :=
  match l with
  | [] => p
  | (s, now, now') :: rest => send_all (fst (sendPayload p local s now now')) local rest
  end.

Lemma send_all_keeps_old (l : list (Z * Z * Z)) (p : Pinger) (local : string) (k : Z) :
  ~ In k (map (fun x => fst (fst x)) l) ->
  ts_get (ts (send_all p local l)) k = ts_get (ts p) k.
Proof.
  revert p. induction l as [|[[s now] now'] rest IH]; intros p Hk; [reflexivity|].
  cbn [send_all]. rewrite IH.
  - cbn. destruct (Z.eqb_spec s k) as [->|]; [|reflexivity].
    exfalso. apply Hk. now left.
  - intros Hin. apply Hk. now right.
Qed.

(** X18: the send loop keeps its books.  After any series of [sendPayload]
    with pairwise different sequence numbers, [packetsSent] has grown by
    the number of sends and the map returns, for each sequence number, the
    time stored with it. *)
Theorem send_all_books (l : list (Z * Z * Z)) (p : Pinger) (local : string) :
  NoDup (map (fun x => fst (fst x)) l) ->
  packetsSent (send_all p local l) = packetsSent p + Z.of_nat (length l) /\
  forall s now now', In (s, now, now') l -> ts_get (ts (send_all p local l)) s = now.
Proof.
  revert p. induction l as [|[[s now] now'] rest IH]; intros p Hnd.
  - split; [cbn; lia|]. intros ? ? ? [].
  - inversion Hnd as [|? ? Hnotin Hnd']; subst.
    destruct (IH (fst (sendPayload p local s now now')) Hnd') as [Hc Hts].
    split.
    + cbn [send_all]. rewrite Hc. cbn [sendPayload fst packetsSent length]. lia.
    + intros s0 n0 n0' [E|Hin].
      * injection E as <- <- <-. cbn [send_all].
        rewrite (send_all_keeps_old rest _ local s Hnotin). apply ts_get_set_same.
      * cbn [send_all]. now apply (Hts s0 n0 n0').
Qed.

Lemma check_layers_passes (p : Pinger) (local : string) (d : decodedLayers)
    (layers : list LayerType) :
  check_layers p local d layers = None <->
  (In LayerTypeIPv4 layers -> ip_DstIP_in d = local /\ ip_SrcIP_in d = host p) /\
  (In LayerTypeICMPv4 layers -> icmp_Id_in d = uint16 (ID p)).
Proof.
  induction layers as [|l rest IH]; cbn [check_layers].
  - split; [intros _; split; intros []|reflexivity].
  - destruct l.
    + destruct (String.eqb_spec (ip_DstIP_in d) local) as [Ed|Ed]; cbn [negb].
      * destruct (String.eqb_spec (ip_SrcIP_in d) (host p)) as [Es|Es]; cbn [negb].
        -- rewrite IH. split; intros [H1 H2]; split; intros Hin.
           ++ now split.
           ++ destruct Hin as [Hin|Hin]; [discriminate Hin|now apply H2].
           ++ now split.
           ++ apply H2. now right.
        -- split; [intros H; discriminate H|].
           intros [H1 _]. destruct (H1 (or_introl eq_refl)). contradiction.
      * split; [intros H; discriminate H|].
        intros [H1 _]. destruct (H1 (or_introl eq_refl)). contradiction.
    + destruct (Z.eqb_spec (icmp_Id_in d) (uint16 (ID p))) as [Ei|Ei]; cbn [negb].
      * rewrite IH. split; intros [H1 H2]; split; intros Hin.
        -- destruct Hin as [Hin|Hin]; [discriminate Hin|now apply H1].
        -- exact Ei.
        -- apply H1. now right.
        -- exact Ei.
      * split; [intros H; discriminate H|].
        intros [_ H2]. now specialize (H2 (or_introl eq_refl)).
    + rewrite IH. split; intros [H1 H2]; split; intros Hin.
      * destruct Hin as [Hin|Hin]; [discriminate Hin|now apply H1].
      * destruct Hin as [Hin|Hin]; [discriminate Hin|now apply H2].
      * apply H1. now right.
      * apply H2. now right.
    + rewrite IH. split; intros [H1 H2]; split; intros Hin.
      * destruct Hin as [Hin|Hin]; [discriminate Hin|now apply H1].
      * destruct Hin as [Hin|Hin]; [discriminate Hin|now apply H2].
      * apply H1. now right.
      * apply H2. now right.
Qed.

(** X19: what counts as a reply.  [handleIncoming] produces a statistic
    exactly when the addresses match if an IPv4 layer was decoded and the
    identifier matches if an ICMPv4 layer was decoded.  Nothing requires
    an ICMPv4 layer: a packet without one is counted, and measured against
    the send time of whatever sequence number the untouched ICMP struct
    holds. *)
Theorem handleIncoming_accepts
    (p : Pinger) (local : string) (now : Z) (d : decodedLayers) :
  (exists i t, handleIncoming p local now (Some d) = Stat i t) <->
  (In LayerTypeIPv4 (decoded d) -> ip_DstIP_in d = local /\ ip_SrcIP_in d = host p) /\
  (In LayerTypeICMPv4 (decoded d) -> icmp_Id_in d = uint16 (ID p)).
Proof.
  rewrite <- check_layers_passes. unfold handleIncoming.
  destruct (check_layers p local d (decoded d)) as [why|].
  - split; [intros (i & t & H); discriminate H|intros H; discriminate H].
  - split; [reflexivity|]. intros _. eexists _, _. reflexivity.
Qed.

(** A UDP datagram from the target: no ICMP layer at all. *)
Definition udp_from_target : decodedLayers :=
  {| decoded := [LayerTypeIPv4; LayerTypeUDP; LayerTypePayload];
     ip_DstIP_in := "10.8.0.6"; ip_SrcIP_in := "8.8.8.8"; ip_TTL_in := 57;
     icmp_Id_in := 0; icmp_Seq_in := 0 |}.

Example udp_datagram_counts_as_reply :
  handleIncoming (fst (sendPayload (NewPinger 4242 "8.8.8.8" 3) "10.8.0.6" 0 1000000 1000001))
                 "10.8.0.6" 9000000 (Some udp_from_target)
  = Stat 8000 57.
Proof. reflexivity. Qed.

(** ** The timestamp in the probe *)

Lemma PutUint64_bytes (v : Z) :
  LittleEndian_PutUint64 v =
    [byte_of_Z v; byte_of_Z (Z.shiftr v 8); byte_of_Z (Z.shiftr v 16);
     byte_of_Z (Z.shiftr v 24); byte_of_Z (Z.shiftr v 32); byte_of_Z (Z.shiftr v 40);
     byte_of_Z (Z.shiftr v 48); byte_of_Z (Z.shiftr v 56)].
Proof. reflexivity. Qed.

Lemma LittleEndian_Uint_cons (x : byte) (rest : bytes) :
  LittleEndian_Uint (x :: rest) = Z_of_byte x + 256 * LittleEndian_Uint rest.
Proof.
  cbn [LittleEndian_Uint]. pose proof (Z_of_byte_range x) as Hx.
  rewrite <- Z.lxor_lor by (apply low_high_disjoint; exact Hx).
  rewrite <- Z.add_nocarry_lxor by (apply low_high_disjoint; exact Hx).
  rewrite Z.shiftl_mul_pow2 by lia. change (2 ^ 8) with 256. lia.
Qed.

(** X20: the probe carries its send time.  The payload of a probe is eight
    bytes, the little-endian encoding of the clock reading as a [uint64]:
    decoding it gives the reading back modulo [2^64], and the reading
    itself when it is not negative. *)
Theorem newIcmpData_payload (src dst : string) (typeCode t s id now : Z) :
  length (icmp_payload (newIcmpData src dst typeCode t s id now)) = 8%nat /\
  LittleEndian_Uint (icmp_payload (newIcmpData src dst typeCode t s id now))
    = now mod 2 ^ 64 /\
  (0 <= now < 2 ^ 63 ->
   LittleEndian_Uint (icmp_payload (newIcmpData src dst typeCode t s id now)) = now).
Proof.
  cbn [newIcmpData icmp_payload].
  assert (E : LittleEndian_Uint (LittleEndian_PutUint64 (Z.land now (Z.ones 64)))
              = now mod 2 ^ 64).
  { rewrite Z.land_ones by lia. set (v := now mod 2 ^ 64).
    assert (Hv : 0 <= v < 2 ^ 64) by (apply Z.mod_pos_bound; lia).
    rewrite PutUint64_bytes. rewrite !LittleEndian_Uint_cons.
    cbn [LittleEndian_Uint]. rewrite !Z_of_byte_of_Z.
    rewrite !Z.shiftr_div_pow2 by lia.
    change (2 ^ 8) with 256. change (2 ^ 16) with (256 * 256).
    change (2 ^ 24) with (256 * 256 * 256).
    change (2 ^ 32) with (256 * 256 * 256 * 256).
    change (2 ^ 40) with (256 * 256 * 256 * 256 * 256).
    change (2 ^ 48) with (256 * 256 * 256 * 256 * 256 * 256).
    change (2 ^ 56) with (256 * 256 * 256 * 256 * 256 * 256 * 256).
    change (2 ^ 64) with (256 * 256 * 256 * 256 * 256 * 256 * 256 * 256) in Hv.
    rewrite <- !Z.div_div by lia.
    pose proof (Z.div_mod v 256 ltac:(lia)).
    set (v1 := v / 256) in *.
    pose proof (Z.div_mod v1 256 ltac:(lia)). set (v2 := v1 / 256) in *.
    pose proof (Z.div_mod v2 256 ltac:(lia)). set (v3 := v2 / 256) in *.
    pose proof (Z.div_mod v3 256 ltac:(lia)). set (v4 := v3 / 256) in *.
    pose proof (Z.div_mod v4 256 ltac:(lia)). set (v5 := v4 / 256) in *.
    pose proof (Z.div_mod v5 256 ltac:(lia)). set (v6 := v5 / 256) in *.
    pose proof (Z.div_mod v6 256 ltac:(lia)). set (v7 := v6 / 256) in *.
    pose proof (Z.mod_pos_bound v 256 ltac:(lia)).
    pose proof (Z.mod_pos_bound v1 256 ltac:(lia)).
    pose proof (Z.mod_pos_bound v2 256 ltac:(lia)).
    pose proof (Z.mod_pos_bound v3 256 ltac:(lia)).
    pose proof (Z.mod_pos_bound v4 256 ltac:(lia)).
    pose proof (Z.mod_pos_bound v5 256 ltac:(lia)).
    pose proof (Z.mod_pos_bound v6 256 ltac:(lia)).
    assert (Hv7 : v7 mod 256 = v7) by (apply Z.mod_small; lia).
    rewrite Hv7. lia. }
  split; [reflexivity|]. split; [exact E|].
  intros Hn. rewrite E. apply Z.mod_small. lia.
Qed.

End ProbeFacts.

(* ================================================================== *)
(** * More about the ping summary, the command line and the framer *)
(* ================================================================== *)

Module SummaryFacts.
Import PingStats.

(** X21: when the summary is not printed.  [printStats] reaches its summary
    line exactly when something was sent and some statistic was collected;
    with [packetsSent = 0] it panics on the division of line 120, with an
    empty [st] on the [p.st[0]] of line 123.  When it prints, the first
    two figures are the counters. *)
Theorem printStats_panics (p : Pinger float) :
  (printStats_summary _ p = None <-> packetsSent _ p = 0 \/ stats _ p = []) /\
  (forall s r l, printStats_summary _ p = Some (s, r, l) ->
                 s = packetsSent _ p /\ r = packetsRecv _ p /\
                 l = Z.quot (Z.quot (packetsRecv _ p) (packetsSent _ p)) 100).
Proof.
  unfold printStats_summary, loss, int_div.
  destruct (Z.eqb_spec (packetsSent _ p) 0) as [E|E]; cbn.
  - split; [split; [now left|reflexivity]|]. intros s r l H. discriminate H.
  - destruct (stats _ p) as [|x rest].
    + split; [split; [now right|reflexivity]|]. intros s r l H. discriminate H.
    + split.
      * split; [intros H; discriminate H|]. intros [H|H]; [contradiction|discriminate H].
      * intros s r l [= <- <- <-]. repeat split.
Qed.

End SummaryFacts.

Module CommandLineFacts.
Import CommandLine.

Section Dispatch.

Variable Options : Type.
Variable ParseConfigFile : string -> option Options.

(** X23: when the pinger runs.  [main] reaches [RunPinger] exactly when
    there is one positional argument and it is ["ping"], help was not asked
    for, a server or a configuration file was named, and the configuration
    file parses; the pinger then gets the parsed options, the target and
    the count as given.  The file parsed is always [optConfig], also when
    only a server was named. *)
Theorem main_runs_pinger
    (args : list string) (optConfig optServer optTarget : string)
    (optCount : Z) (helpFlag : bool) (o : Options) (target : string) (count : Z) :
  main Options ParseConfigFile args optConfig optServer optTarget optCount helpFlag
    = RunPinger Options o target count <->
  args = ["ping"%string] /\
  helpFlag = false /\
  (optServer <> EmptyString \/ optConfig <> EmptyString) /\
  ParseConfigFile optConfig = Some o /\
  target = optTarget /\ count = optCount.
Proof.
  unfold main.
  destruct args as [|cmd [|more rest]]; cbn [length Nat.eqb negb].
  - split; [intros H; discriminate H|]. intros (H & _). discriminate H.
  - destruct helpFlag; cbn [orb].
    { split; [intros H; discriminate H|]. intros (_ & H & _). discriminate H. }
    destruct (String.eqb_spec optServer EmptyString) as [Es|Es];
      destruct (String.eqb_spec optConfig EmptyString) as [Ec|Ec]; cbn [andb].
    { split; [intros H; discriminate H|].
      intros (_ & _ & [H|H] & _); contradiction. }
    all: destruct (ParseConfigFile optConfig) as [opts|];
      [|split; [intros H; discriminate H|intros (_ & _ & _ & H & _); discriminate H]];
      destruct (String.eqb_spec cmd "ping") as [Ep|Ep];
      [ subst cmd; split;
        [ intros [= <- <- <-]; repeat split; auto
        | intros (_ & _ & _ & [= <-] & -> & ->); reflexivity ]
      | destruct (String.eqb cmd "proxy");
        (split; [intros H; discriminate H|intros ([= H] & _); contradiction]) ].
  - split; [intros H; discriminate H|]. intros (H & _). discriminate H.
Qed.

End Dispatch.

End CommandLineFacts.

Module FramingMore.
Import Framing FramingFacts.

(** X24: the framer adds two bytes and loses nothing.  For byte strings of
    any length, [toSizeFrame] makes the input two bytes longer, and two
    different inputs never give the same frame. *)
Theorem toSizeFrame_injective (b b' : bytes) :
  length (toSizeFrame b) = (length b + 2)%nat /\
  (toSizeFrame b = toSizeFrame b' -> b = b').
Proof.
  split.
  - rewrite toSizeFrame_bytes, length_app. cbn. lia.
  - intros H. rewrite !toSizeFrame_bytes in H.
    apply (f_equal (skipn 2)) in H. exact H.
Qed.

End FramingMore.

(* ================================================================== *)
(** * More runs against the scripted peer *)
(* ================================================================== *)

Module MoreScenarios.
Import Muxer Loopback MuxerFacts Scenarios ReadFacts HandshakeFacts PanicFacts.

Ltac evaluate :=
  repeat match goal with |- _ /\ _ => split end; vm_compute; reflexivity.

Abbreviation Read := (@Muxer.Read Conn TLS Data Options packet dataH pkg).
Abbreviation handleIncomingPacket :=
  (@Muxer.handleIncomingPacket Conn TLS Data Options packet dataH pkg).

(** One data packet. *)
Definition m_hello : mux := ready_with [Ok helloPacket].

(** A data packet with an empty payload. *)
Definition m_empty_payload : mux := ready_with [Ok [x30; xa5]].

Lemma handleIncomingPacket_frame_witness :
  m_tls (state_of (handleIncomingPacket m_control_then_data))
    = m_tls m_control_then_data /\
  m_tunnel (state_of (handleIncomingPacket m_control_then_data))
    = m_tunnel m_control_then_data.
Proof.
  destruct (handleIncomingPacket_frame m_control_then_data false
              (state_of (handleIncomingPacket m_control_then_data)))
    as (_ & H1 & H2 & _).
  - vm_compute. reflexivity.
  - split; assumption.
Defined.

Lemma Read_waits_witness :
  exists r0 more,
    m_trace (after_Read 1 100 m_hello) = m_trace m_hello ++ EvReadPacket r0 :: more.
Proof.
  destruct (Read_always_waits_for_a_packet 1 100 m_hello
              (ascii_bytes "hello", None) (after_Read 1 100 m_hello))
    as (_ & r0 & more & p & plaintext & H1 & _).
  - vm_compute. reflexivity.
  - exists r0, more. exact H1.
Defined.

(** Three bytes are left in the buffer by a short [Read]; the transport
    then closes.  The next [Read] does not return them. *)
Example leftover_is_not_served_without_traffic :
  Read 1 2 m_hello = Some (Done (ascii_bytes "he", None) (after_Read 1 2 m_hello)) /\
  m_bufReader (after_Read 1 2 m_hello) = ascii_bytes "llo" /\
  ~ (exists fuel r, Read fuel 100 (after_Read 1 2 m_hello) = Some r).
Proof.
  split; [vm_compute; reflexivity|]. split; [vm_compute; reflexivity|].
  intros (fuel & r & H). unfold Muxer.Read in H.
  rewrite (pull_on_failing_transport (fun c => rx c = [])
             closed_transport_stays_closed fuel (after_Read 1 2 m_hello)) in H.
  - discriminate H.
  - vm_compute. reflexivity.
Qed.

Lemma Read_conserves_witness :
  exists p plaintext pre,
    m_trace (after_Read 1 2 m_hello) = pre ++ [EvData (dReadPacket p (Ok plaintext))] /\
    ascii_bytes "he" = firstn 2 (m_bufReader m_hello ++ plaintext) /\
    m_bufReader (after_Read 1 2 m_hello) = skipn 2 (m_bufReader m_hello ++ plaintext) /\
    ascii_bytes "he" ++ m_bufReader (after_Read 1 2 m_hello)
      = m_bufReader m_hello ++ plaintext /\
    length (ascii_bytes "he") = Nat.min 2 (length (m_bufReader m_hello ++ plaintext)).
Proof.
  apply (Read_conserves_bytes 1 2 m_hello (ascii_bytes "he") None (after_Read 1 2 m_hello)).
  vm_compute. reflexivity.
Defined.

Lemma Read_EOF_witness :
  Read 1 100 m_empty_payload
    = Some (Done ([], Some io_EOF) (after_Read 1 100 m_empty_payload)) /\
  exists plaintext,
    (exists p pre, m_trace (after_Read 1 100 m_empty_payload)
                   = pre ++ [EvData (dReadPacket p (Ok plaintext))]) /\
    ((m_bufReader m_empty_payload ++ plaintext = [] /\ 100%nat <> 0%nat /\
      Some io_EOF = Some io_EOF /\ @nil byte = []) \/
     ((m_bufReader m_empty_payload ++ plaintext <> [] \/ 100%nat = 0%nat) /\
      Some io_EOF = None)).
Proof.
  split; [vm_compute; reflexivity|].
  apply (Read_reports_EOF_on_empty_payload 1 100 m_empty_payload [] (Some io_EOF)
           (after_Read 1 100 m_empty_payload)).
  vm_compute. reflexivity.
Defined.

(** ** The handshake *)

(** The server answers the hard reset with something else. *)
Definition m_bad_reset : mux := fresh [Ok [x20; x00]] [].

Lemma Reset_failure_witness :
  Reset m_bad_reset =
    Done (Some (Errorf_err_w ErrBadHandshake (errExternal "not a hard reset")))
         (state_of (Reset m_bad_reset)) /\
  ~ errors_Is (Errorf_err_w ErrBadHandshake (errExternal "not a hard reset"))
              ErrBadHandshake.
Proof.
  pose (c1 := fst (SendHardReset (m_conn m_bad_reset) (m_session m_bad_reset))).
  destruct (Reset_failure_modes m_bad_reset c1 (fst (readPacket c1))
              (m_session m_bad_reset)) as [_ H].
  - vm_compute. reflexivity.
  - destruct (H [x20; x00] (errExternal "not a hard reset")) as (H1 & _ & H3).
    + vm_compute. reflexivity.
    + vm_compute. reflexivity.
    + split.
      * rewrite H1. vm_compute. reflexivity.
      * intros H4. apply H3 in H4. unfold errors_Is in H4. cbn in H4.
        destruct H4 as [H4|[]]. discriminate H4.
Defined.

Definition events_of_handshake : list (event packet) :=
  skipn (length (m_trace m_good)) (m_trace (after_handshake m_good)).

Lemma Handshake_order_of_TLS_witness :
  In (EvControl (cSendACK 0)) (firstn 6 events_of_handshake).
Proof.
  apply (Handshake_acks_before_TLS m_good None (after_handshake m_good)
           (firstn 6 events_of_handshake) (skipn 7 events_of_handshake) tHandshake).
  - exact handshake_with_good_server.
  - vm_compute. reflexivity.
Defined.

Lemma readTLSPacket_witness :
  length (copy (make 4096) authFailed) = 4096%nat /\
  exists got,
    m_trace (state_of (readTLSPacket (at_push_reply m_auth_at_push)))
      = m_trace (at_push_reply m_auth_at_push) ++ [EvTLS (tRead got None)] /\
    copy (make 4096) authFailed = firstn 4096 got ++ repeat x00 (4096 - length got).
Proof.
  apply (readTLSPacket_buffer (at_push_reply m_auth_at_push)
           (copy (make 4096) authFailed) None
           (state_of (readTLSPacket (at_push_reply m_auth_at_push)))).
  vm_compute. reflexivity.
Defined.

Lemma InitData_without_tls_witness :
  InitDataWithRemoteKey m_fresh = Panic "nil m.tls".
Proof.
  apply (proj1 (InitDataWithRemoteKey_needs_tls m_fresh (m_session m_fresh) eq_refl)
           [x00; x00; x00; x00; x02]).
  reflexivity.
Defined.

Definition events_of_InitData : list (event packet) :=
  skipn (length (m_trace (at_tls m_good)))
        (m_trace (state_of (InitDataWithRemoteKey (at_tls m_good)))).

Lemma push_request_order_witness :
  exists k, In (EvData (dSetupKeys k None)) (firstn 5 events_of_InitData).
Proof.
  apply (push_request_only_after_SetupKeys (at_tls m_good) None
           (state_of (InitDataWithRemoteKey (at_tls m_good)))
           (firstn 5 events_of_InitData) (skipn 6 events_of_InitData)).
  - vm_compute. reflexivity.
  - vm_compute. reflexivity.
Defined.

Lemma Handshake_postconditions_witness :
  m_bufReader (after_handshake m_good) = m_bufReader m_good /\
  exists t, m_tls (after_handshake m_good) = Some t.
Proof.
  destruct (Handshake_postconditions m_good None (after_handshake m_good)
              handshake_with_good_server)
    as (H1 & _ & _ & H4).
  split; [exact H1|].
  destruct (H4 eq_refl) as (resp & t & tn & before & Ht & _).
  exists t. exact Ht.
Defined.

(** The same handshake with a [nil] tunnel pointer. *)
Definition m_no_tunnel : mux := set_tunnel (at_push_reply m_good) None.

Lemma nil_tunnel_witness :
  readPushReply m_no_tunnel = Panic "nil m.tunnel".
Proof.
  apply (readPushReply_nil_tunnel m_no_tunnel (copy (make 4096) pushReply) None
           (state_of (readTLSPacket m_no_tunnel))).
  - reflexivity.
  - vm_compute. reflexivity.
Defined.

(** ** Panics *)

(** The handshake with the good server, begun with a [nil] tunnel
    pointer. *)
Definition m_nil_tunnel : mux := set_tunnel m_good None.

Lemma Handshake_panic_witness :
  exists why, Handshake m_nil_tunnel = Panic why /\ why = "nil m.tunnel"%string.
Proof.
  exists "nil m.tunnel"%string. split; [vm_compute; reflexivity|].
  apply (Handshake_panics_only_on_nil_tunnel m_nil_tunnel).
  vm_compute. reflexivity.
Defined.

Lemma Handshake_of_new_muxer_witness :
  m_tls m_good = None /\
  exists r m', Handshake m_good = Done r m' /\ m_tunnel m' <> None /\ m_bufReader m' = [].
Proof.
  apply (Handshake_of_new_muxer_returns (m_conn m_good) tt
           {| ip := EmptyString; mtu := 0 |} m_good).
  - intros t opts. discriminate.
  - vm_compute. reflexivity.
Defined.

End MoreScenarios.

Module MoreWitnesses.
Import PingStats PingStatsFacts Probe ProbeFacts.

Lemma loss_is_zero_witness : loss _ two_of_three = Some 0.
Proof. apply loss_is_zero; cbn; lia. Defined.

Lemma send_all_books_witness :
  packetsSent (send_all (NewPinger 4242 "8.8.8.8" 3) "10.8.0.6"
                 [(0, 100, 101); (1, 200, 201); (2, 300, 301)])
    = 0 + 3 /\
  ts_get (ts (send_all (NewPinger 4242 "8.8.8.8" 3) "10.8.0.6"
                [(0, 100, 101); (1, 200, 201); (2, 300, 301)])) 1 = 200.
Proof.
  destruct (send_all_books [(0, 100, 101); (1, 200, 201); (2, 300, 301)]
              (NewPinger 4242 "8.8.8.8" 3) "10.8.0.6") as [H1 H2].
  - repeat constructor; cbn; intuition discriminate.
  - split; [exact H1|]. apply (H2 1 200 201). cbn. auto.
Defined.

End MoreWitnesses.
